(** * Order / payment workflow of the e-commerce services

    A shallow embedding of the order service (models/Order.ts,
    models/OrderItem.ts, routes/orders.ts), of the payment service
    (models/Payment.ts, routes/payments.ts, routes/webhooks.ts), of the cart
    of the frontend (store/slices/cartSlice.ts) and of the stock, delete and
    read routes of the product service (models/Product.ts,
    routes/products.ts), followed by the properties of the order/payment
    workflow, of the cart and of the stock.

    Conventions of the embedding.
    - In the handlers a JavaScript [number] that carries money or a stock
      is an exact rational ([Q]), and integers validated with [isInt] are
      [Z].  The rounding of binary64 is modelled apart: [Binary64] gives
      the arithmetic of doubles, [OrderService64] the amounts of an order
      and [PaymentService64] the refund of a payment on doubles.  The
      properties of the handlers compare numbers, equate two evaluations of
      one expression, or are stated for whole numbers up to 2^53, where the
      doubles are exact; what depends on the digits of an amount is stated
      on the doubles.
    - A route handler is a computation in the monad [M]: it threads the
      state of the service (tables, cache, log of outgoing HTTP calls), may
      [return res.status(..).json(..)] early, and may throw into the
      handler's [try { } catch].
    - Everything the handler cannot decide itself (answers of other
      services, of the gateway, success of a store or cache call) is read
      from a [World] record: one record describes one environment.
    - [createdAt] / [updatedAt] and the logger are left out. *)

From Stdlib Require Import ZArith QArith Qround List String Bool Lia Lqa.
From Stdlib Require Import SpecFloat.
Import ListNotations.

Set Implicit Arguments.

(* ------------------------------------------------------------------ *)
(** ** JavaScript arithmetic on numbers *)

Module Js.

Definition number := Q.

(** [Math.round(x)] of an exact number: the nearest integer, ties towards
    +infinity.  [Binary64.Math_round] is the one on doubles. *)
Definition Math_round (x : Q) : Z := Qfloor (x + (1 # 2)).

(** [a >= b], [a > b], [a < b] *)
Definition ge (a b : Q) : bool := Qle_bool b a.
Definition gt (a b : Q) : bool := negb (Qle_bool a b).
Definition lt (a b : Q) : bool := negb (Qle_bool b a).

(** Truthiness of a number: [0] is falsy. *)
Definition truthy (a : Q) : bool := negb (Qeq_bool a 0).

(** [a || b] where [a] may be [undefined]. *)
Definition or_else (a : option Q) (b : Q) : Q :=
  match a with
  | Some x => if truthy x then x else b
  | None => b
  end.

(** [xs?.[0]] *)
Definition first (A : Type) (xs : option (list A)) : option A :=
  match xs with
  | Some (x :: _) => Some x
  | _ => None
  end.

End Js.

(* ------------------------------------------------------------------ *)
(** ** Responses, exceptions and the handler monad *)

Module Http.

Inductive Body (A : Type) : Type :=
| ValidationErrors                 (* { errors: errors.array() } *)
| Error (msg : string)             (* { error: msg } *)
| Text (start : string)            (* res.send(`${start}${err}`): plain text *)
| Json (a : A).

Arguments ValidationErrors {A}.
Arguments Error {A} msg.
Arguments Text {A} start.

Record Response (A : Type) : Type := Resp { code : Z; body : Body A }.

(** What a handler's [catch] can receive. *)
Inductive Exn : Type :=
| ProductUnavailable (productId : Z)   (* thrown by validateAndGetProductDetails *)
| OrderNotFound (orderId : Z)          (* thrown by getOrderDetails *)
| StoreError                           (* a rejected Sequelize call *)
| CacheError                           (* a rejected redis call *)
| GatewayError                         (* a rejected Stripe call *)
| TypeError.

Inductive Outcome (R A : Type) : Type :=
| Ok (a : A)
| Return (r : R)      (* [return res.status(..).json(..)] *)
| Throw (e : Exn).

Arguments Ok {R A} a.
Arguments Return {R A} r.
Arguments Throw {R A} e.

Definition M (S R A : Type) : Type := S -> Outcome R A * S.

Definition ret {S R A} (a : A) : M S R A := fun s => (Ok a, s).
Definition respond {S R A} (r : R) : M S R A := fun s => (Return r, s).
Definition throw {S R A} (e : Exn) : M S R A := fun s => (Throw e, s).

Definition bind {S R A B} (m : M S R A) (k : A -> M S R B) : M S R B :=
  fun s =>
    match m s with
    | (Ok a, s') => k a s'
    | (Return r, s') => (Return r, s')
    | (Throw e, s') => (Throw e, s')
    end.

Definition modify {S R} (f : S -> S) : M S R unit := fun s => (Ok tt, f s).
Definition gets {S R A} (f : S -> A) : M S R A := fun s => (Ok (f s), s).

(** [try { body } catch (error) { res.status(500).json({ error: msg }) }] *)
Definition handler {S A} (msg : string) (m : M S (Response A) (Response A))
  : S -> Response A * S :=
  fun s =>
    match m s with
    | (Ok r, s') => (r, s')
    | (Return r, s') => (r, s')
    | (Throw _, s') => (Resp 500 (Error msg), s')
    end.

(** [try { body } catch (error) { logger.error(..) }] of a helper that
    returns nothing. *)
Definition swallow {S R} (m : M S R unit) : M S R unit :=
  fun s =>
    match m s with
    | (Ok _, s') => (Ok tt, s')
    | (Return _, s') => (Ok tt, s')
    | (Throw _, s') => (Ok tt, s')
    end.

(** [Promise.all] over promises that have all been started: the values when
    every one is fulfilled, a rejection when one of them is rejected. *)
Fixpoint all_fulfilled {A} (rs : list (option A)) : option (list A) :=
  match rs with
  | [] => Some []
  | Some a :: rest =>
      match all_fulfilled rest with
      | Some l => Some (a :: l)
      | None => None
      end
  | None :: _ => None
  end.

Definition Promise_all {S R A} (rs : list (option A)) : M S R (list A) :=
  match all_fulfilled rs with
  | Some l => ret l
  | None => throw StoreError
  end.

End Http.

Declare Scope handler_scope.
Delimit Scope handler_scope with handler.
Notation "x <- m ;; k" := (Http.bind m (fun x => k))
  (at level 61, m at next level, right associativity) : handler_scope.
Notation "m ;;; k" := (Http.bind m (fun _ => k))
  (at level 61, right associativity) : handler_scope.

(* ------------------------------------------------------------------ *)
(** ** The authenticated principal *)

Module Auth.

(** [req.user], as set by the authentication middleware of each service. *)
Record User : Type := { userId : Z; role : string }.

(** [req.user.role === 'admin'] *)
Definition isAdmin (u : User) : bool := String.eqb (role u) "admin".

End Auth.

(* ------------------------------------------------------------------ *)
(** ** The order service *)

Module OrderService.

Import Http Auth.
Local Open Scope handler_scope.

(** *** models/Order.ts *)

Module OrderStatus.
Inductive t : Type :=
| PENDING | CONFIRMED | PROCESSING | SHIPPED | DELIVERED | CANCELLED | REFUNDED.

Definition eqb (a b : t) : bool :=
  match a, b with
  | PENDING, PENDING | CONFIRMED, CONFIRMED | PROCESSING, PROCESSING
  | SHIPPED, SHIPPED | DELIVERED, DELIVERED | CANCELLED, CANCELLED
  | REFUNDED, REFUNDED => true
  | _, _ => false
  end.

Definition values : list t :=
  [PENDING; CONFIRMED; PROCESSING; SHIPPED; DELIVERED; CANCELLED; REFUNDED].
End OrderStatus.

Module PaymentStatus.
Inductive t : Type := PENDING | PAID | FAILED | REFUNDED.

Definition eqb (a b : t) : bool :=
  match a, b with
  | PENDING, PENDING | PAID, PAID | FAILED, FAILED | REFUNDED, REFUNDED => true
  | _, _ => false
  end.
End PaymentStatus.

Record Address : Type := {
  firstName : string;
  lastName : string;
  address : string;
  city : string;
  state : string;
  zipCode : string;
  country : string;
  phone : option string
}.

(** What the route reads of [response.data] of the product service. *)
Record Product : Type := {
  name : string;
  sku : string;
  images : option (list string)
}.

(** Outcome of the store and cache calls, and the answers of the product
    service, during one request. *)
Record World : Type := {
  (* GET product-service /api/products/:id ; None: the request failed *)
  product_get : Z -> option Product;
  (* GET product-service /api/products/:id/stock ; None: it failed or
     timed out, Some s: response.data.stock *)
  stock_get : Z -> option Q;
  (* Date.now() and Math.random() as used by generateOrderNumber *)
  now_last8 : string;
  random_base36 : string;
  Order_create_ok : bool;
  OrderItem_create_ok : nat -> bool;   (* by position in validatedItems *)
  save_ok : bool;
  redis_ok : bool
}.

Module Order.

Record t : Type := {
  id : Z;
  userId : Z;
  orderNumber : string;
  status : OrderStatus.t;
  paymentStatus : PaymentStatus.t;
  totalAmount : Q;
  subtotal : Q;
  taxAmount : Q;
  shippingAmount : Q;
  discountAmount : Q;
  shippingAddress : Address;
  billingAddress : Address;
  paymentMethod : string;
  notes : option string
}.

Definition set_id (o : t) (i : Z) : t :=
  {| id := i; userId := userId o; orderNumber := orderNumber o;
     status := status o; paymentStatus := paymentStatus o;
     totalAmount := totalAmount o; subtotal := subtotal o;
     taxAmount := taxAmount o; shippingAmount := shippingAmount o;
     discountAmount := discountAmount o;
     shippingAddress := shippingAddress o;
     billingAddress := billingAddress o;
     paymentMethod := paymentMethod o; notes := notes o |}.

Definition set_status (o : t) (s : OrderStatus.t) : t :=
  {| id := id o; userId := userId o; orderNumber := orderNumber o;
     status := s; paymentStatus := paymentStatus o;
     totalAmount := totalAmount o; subtotal := subtotal o;
     taxAmount := taxAmount o; shippingAmount := shippingAmount o;
     discountAmount := discountAmount o;
     shippingAddress := shippingAddress o;
     billingAddress := billingAddress o;
     paymentMethod := paymentMethod o; notes := notes o |}.

Definition set_paymentStatus (o : t) (s : PaymentStatus.t) : t :=
  {| id := id o; userId := userId o; orderNumber := orderNumber o;
     status := status o; paymentStatus := s;
     totalAmount := totalAmount o; subtotal := subtotal o;
     taxAmount := taxAmount o; shippingAmount := shippingAmount o;
     discountAmount := discountAmount o;
     shippingAddress := shippingAddress o;
     billingAddress := billingAddress o;
     paymentMethod := paymentMethod o; notes := notes o |}.

Definition set_notes (o : t) (n : option string) : t :=
  {| id := id o; userId := userId o; orderNumber := orderNumber o;
     status := status o; paymentStatus := paymentStatus o;
     totalAmount := totalAmount o; subtotal := subtotal o;
     taxAmount := taxAmount o; shippingAmount := shippingAmount o;
     discountAmount := discountAmount o;
     shippingAddress := shippingAddress o;
     billingAddress := billingAddress o;
     paymentMethod := paymentMethod o; notes := n |}.

(** [`ORD-${timestamp.slice(-8)}-${random}`] *)
Definition generateOrderNumber (w : World) : string :=
  ("ORD-" ++ now_last8 w ++ "-" ++ random_base36 w)%string.

Definition calculateTotal (o : t) : Q :=
  subtotal o + taxAmount o + shippingAmount o - discountAmount o.

Definition canBeCancelled (o : t) : bool :=
  existsb (OrderStatus.eqb (status o))
          [OrderStatus.PENDING; OrderStatus.CONFIRMED].

Definition canBeRefunded (o : t) : bool :=
  existsb (OrderStatus.eqb (status o)) [OrderStatus.DELIVERED]
  && PaymentStatus.eqb (paymentStatus o) PaymentStatus.PAID.

End Order.

(** *** models/OrderItem.ts *)

Module OrderItem.

Record t : Type := {
  id : Z;
  orderId : Z;
  productId : Z;
  productName : string;
  productSku : string;
  productImage : option string;
  quantity : Z;
  unitPrice : Q;
  totalPrice : Q
}.


End OrderItem.

(** *** State of the service *)

(** [{ ...order.toJSON(), items }]; [items] is absent when the order was
    serialised alone. *)
Record OrderJson : Type := {
  json_order : Order.t;
  json_items : option (list OrderItem.t)
}.

(** Requests sent to the product service. *)
Inductive HttpCall : Type :=
| GetProduct (productId : Z) (ok : bool)
| GetStock (productId : Z) (answer : option Q).

Record State : Type := {
  orders : list Order.t;              (* table orders *)
  orderItems : list OrderItem.t;      (* table order_items *)
  orderSeq : Z;                       (* auto-increment of orders *)
  orderItemSeq : Z;                   (* auto-increment of order_items *)
  cache : list (Z * OrderJson);       (* redis keys order:<id> *)
  httpLog : list HttpCall
}.

Definition M := Http.M State (Response (string * OrderJson)).

Definition log (c : HttpCall) (s : State) : State :=
  {| orders := orders s; orderItems := orderItems s; orderSeq := orderSeq s;
     orderItemSeq := orderItemSeq s; cache := cache s;
     httpLog := httpLog s ++ [c] |}.

Definition insert_order (o : Order.t) (s : State) : State :=
  {| orders := orders s ++ [o]; orderItems := orderItems s;
     orderSeq := Order.id o; orderItemSeq := orderItemSeq s;
     cache := cache s; httpLog := httpLog s |}.

Definition insert_item (i : OrderItem.t) (s : State) : State :=
  {| orders := orders s; orderItems := orderItems s ++ [i];
     orderSeq := orderSeq s; orderItemSeq := OrderItem.id i;
     cache := cache s; httpLog := httpLog s |}.

Definition update_order (o : Order.t) (s : State) : State :=
  {| orders := map (fun r => if Order.id r =? Order.id o then o else r)%Z
                   (orders s);
     orderItems := orderItems s; orderSeq := orderSeq s;
     orderItemSeq := orderItemSeq s; cache := cache s;
     httpLog := httpLog s |}.

Definition set_cache (c : list (Z * OrderJson)) (s : State) : State :=
  {| orders := orders s; orderItems := orderItems s; orderSeq := orderSeq s;
     orderItemSeq := orderItemSeq s; cache := c; httpLog := httpLog s |}.

(** [redis.setex(`order:${id}`, 3600, JSON.stringify(v))] *)
Definition redis_setex (w : World) (key : Z) (v : OrderJson) : M unit :=
  if redis_ok w then
    modify (fun s =>
      set_cache ((key, v) :: filter (fun e => negb (fst e =? key)%Z) (cache s)) s)
  else throw CacheError.

(** [redis.del(`order:${id}`)] *)
Definition redis_del (w : World) (key : Z) : M unit :=
  if redis_ok w then
    modify (fun s =>
      set_cache (filter (fun e => negb (fst e =? key)%Z) (cache s)) s)
  else throw CacheError.

(** [Order.create(attrs)]: one INSERT into orders. *)
Definition Order_create (w : World) (attrs : Order.t) : M Order.t :=
  if Order_create_ok w then
    n <- gets orderSeq ;;
    let o := Order.set_id attrs (n + 1)%Z in
    modify (insert_order o) ;;;
    ret o
  else throw StoreError.

(** [order.save()]: one UPDATE of the row with the order's id. *)
Definition Order_save (w : World) (o : Order.t) : M unit :=
  if save_ok w then modify (update_order o) else throw StoreError.

(** [Order.findOne({ where })] with [where = { id }] for an admin and
    [where = { id, userId }] for anybody else. *)
Definition Order_findOne (user : User) (orderId : Z) : M (option Order.t) :=
  gets (fun s =>
    find (fun r => (Order.id r =? orderId)%Z
                   && (isAdmin user || (Order.userId r =? userId user)%Z))
         (orders s)).

(** [order.updateStatus(newStatus)] *)
Definition Order_updateStatus (w : World) (o : Order.t)
           (newStatus : OrderStatus.t) : M Order.t :=
  let o' := Order.set_status o newStatus in
  Order_save w o' ;;;
  ret o'.

(** [order.updatePaymentStatus(newStatus)] *)
Definition Order_updatePaymentStatus (w : World) (o : Order.t)
           (newStatus : PaymentStatus.t) : M Order.t :=
  let o' := Order.set_paymentStatus o newStatus in
  Order_save w o' ;;;
  ret o'.

(** *** routes/orders.ts: request bodies and validation *)

Record ItemBody : Type := {
  item_productId : Z;
  item_quantity : Z;
  item_unitPrice : Q
}.

Record CreateOrderBody : Type := {
  items : list ItemBody;
  body_shippingAddress : Address;
  body_billingAddress : Address;
  body_paymentMethod : string;
  body_notes : option string
}.

Record UpdateOrderBody : Type := {
  upd_status : option OrderStatus.t;
  upd_paymentStatus : option PaymentStatus.t;
  upd_notes : option string
}.

Definition notEmpty (s : string) : bool := negb (String.eqb s "").

Definition addressNotEmpty (a : Address) : bool :=
  notEmpty (firstName a) && notEmpty (lastName a) && notEmpty (address a)
  && notEmpty (city a) && notEmpty (state a) && notEmpty (zipCode a)
  && notEmpty (country a).

Definition itemValid (i : ItemBody) : bool :=
  (1 <=? item_productId i)%Z && (1 <=? item_quantity i)%Z
  && Qle_bool 0 (item_unitPrice i).

Definition createOrderValidation (b : CreateOrderBody) : bool :=
  (1 <=? List.length (items b))%nat && forallb itemValid (items b)
  && addressNotEmpty (body_shippingAddress b)
  && addressNotEmpty (body_billingAddress b)
  && notEmpty (body_paymentMethod b).

(** [status] and [paymentStatus], when present, are members of their
    enumerations by their types; what is left is [param('id')]. *)
Definition updateOrderValidation (orderId : Z) (b : UpdateOrderBody) : bool :=
  (1 <=? orderId)%Z.

(** *** routes/orders.ts: helpers *)

Definition validateAndGetProductDetails (w : World) (productId : Z)
  : M Product :=
  match product_get w productId with
  | Some product =>
      modify (log (GetProduct productId true)) ;;;
      ret product
  | None =>
      modify (log (GetProduct productId false)) ;;;
      throw (ProductUnavailable productId)
  end.

Definition checkProductStock (w : World) (productId quantity : Z) : M bool :=
  modify (log (GetStock productId (stock_get w productId))) ;;;
  match stock_get w productId with
  | Some availableStock => ret (Js.ge availableStock (inject_Z quantity))
  | None => ret false
  end.

Definition calculateTax (subtotal taxRate : Q) : Q :=
  inject_Z (Js.Math_round (subtotal * taxRate * 100)) / 100.

Definition defaultTaxRate : Q := 8 # 100.

Definition calculateShipping (subtotal : Q) (items : list ItemBody) : Q :=
  if Js.ge subtotal 100 then 0
  else
    let baseRate := 999 # 100 in
    let perItemRate := 299 # 100 in
    baseRate + (inject_Z (Z.of_nat (List.length items)) - 1) * perItemRate.

(** *** POST /api/orders *)

(** What the loop pushes on [validatedItems]. *)
Record ValidatedItem : Type := {
  v_productId : Z;
  v_productName : string;
  v_productSku : string;
  v_productImage : option string;
  v_quantity : Z;
  v_unitPrice : Q;
  v_totalPrice : Q
}.

(** [for (const item of items) { ... }] with its two accumulators. *)
Fixpoint itemLoop (w : World) (items : list ItemBody)
         (validatedItems : list ValidatedItem) (subtotal : Q)
  : M (list ValidatedItem * Q) :=
  match items with
  | [] => ret (validatedItems, subtotal)
  | item :: rest =>
      product <- validateAndGetProductDetails w (item_productId item) ;;
      hasStock <- checkProductStock w (item_productId item) (item_quantity item) ;;
      if negb hasStock then
        respond (Resp 400
          (Error ("Insufficient stock for product: " ++ name product)))
      else
        let totalPrice := inject_Z (item_quantity item) * item_unitPrice item in
        itemLoop w rest
          (validatedItems ++
             [ {| v_productId := item_productId item;
                  v_productName := name product;
                  v_productSku := sku product;
                  v_productImage := Js.first (images product);
                  v_quantity := item_quantity item;
                  v_unitPrice := item_unitPrice item;
                  v_totalPrice := totalPrice |} ])
          (subtotal + totalPrice)
  end.

(** [OrderItem.create({ orderId, ...item })]: one INSERT into order_items.
    It does not throw here: the promise it returns is settled with the row
    or rejected. *)
Definition OrderItem_create (w : World) (k : nat) (orderId : Z)
           (item : ValidatedItem) : M (option OrderItem.t) :=
  if OrderItem_create_ok w k then
    n <- gets orderItemSeq ;;
    let row := {| OrderItem.id := (n + 1)%Z;
                  OrderItem.orderId := orderId;
                  OrderItem.productId := v_productId item;
                  OrderItem.productName := v_productName item;
                  OrderItem.productSku := v_productSku item;
                  OrderItem.productImage := v_productImage item;
                  OrderItem.quantity := v_quantity item;
                  OrderItem.unitPrice := v_unitPrice item;
                  OrderItem.totalPrice := v_totalPrice item |} in
    modify (insert_item row) ;;;
    ret (Some row)
  else ret None.

(** [validatedItems.map(item => OrderItem.create(..))]: every insert is
    started, whatever happens to the others. *)
Fixpoint createItems (w : World) (k : nat) (orderId : Z)
         (validatedItems : list ValidatedItem) : M (list (option OrderItem.t)) :=
  match validatedItems with
  | [] => ret []
  | item :: rest =>
      r <- OrderItem_create w k orderId item ;;
      rs <- createItems w (S k) orderId rest ;;
      ret (r :: rs)
  end.

Definition createOrder (w : World) (user : User) (b : CreateOrderBody)
  : State -> Response (string * OrderJson) * State :=
  handler "Failed to create order"
    (if negb (createOrderValidation b) then
       respond (Resp 400 ValidationErrors)
     else
       acc <- itemLoop w (items b) [] 0 ;;
       let validatedItems := fst acc in
       let subtotal := snd acc in
       let taxAmount := calculateTax subtotal defaultTaxRate in
       let shippingAmount := calculateShipping subtotal (items b) in
       let discountAmount := 0 in
       let totalAmount := subtotal + taxAmount + shippingAmount - discountAmount in
       let orderNumber := Order.generateOrderNumber w in
       order <- Order_create w
                  {| Order.id := 0;
                     Order.userId := userId user;
                     Order.orderNumber := orderNumber;
                     Order.status := OrderStatus.PENDING;
                     Order.paymentStatus := PaymentStatus.PENDING;
                     Order.totalAmount := totalAmount;
                     Order.subtotal := subtotal;
                     Order.taxAmount := taxAmount;
                     Order.shippingAmount := shippingAmount;
                     Order.discountAmount := discountAmount;
                     Order.shippingAddress := body_shippingAddress b;
                     Order.billingAddress := body_billingAddress b;
                     Order.paymentMethod := body_paymentMethod b;
                     Order.notes := body_notes b |} ;;
       settled <- createItems w 0 (Order.id order) validatedItems ;;
       orderItems <- Promise_all settled ;;
       let json := {| json_order := order; json_items := Some orderItems |} in
       redis_setex w (Order.id order) json ;;;
       ret (Resp 201 (Json ("Order created successfully"%string, json)))).

(** *** PUT /api/orders/:id *)

Definition updateOrder (w : World) (user : User) (orderId : Z)
           (b : UpdateOrderBody)
  : State -> Response (string * OrderJson) * State :=
  handler "Failed to update order"
    (if negb (updateOrderValidation orderId b) then
       respond (Resp 400 ValidationErrors)
     else
       found <- Order_findOne user orderId ;;
       match found with
       | None => respond (Resp 404 (Error "Order not found"))
       | Some order =>
           order1 <-
             match upd_status b with
             | Some status =>
                 if OrderStatus.eqb status OrderStatus.CANCELLED
                    && negb (Order.canBeCancelled order)
                 then respond (Resp 400 (Error "Order cannot be cancelled"))
                 else ret (Order.set_status order status)
             | None => ret order
             end ;;
           let order2 :=
             match upd_paymentStatus b with
             | Some paymentStatus => Order.set_paymentStatus order1 paymentStatus
             | None => order1
             end in
           let order3 :=
             match upd_notes b with
             | Some notes => Order.set_notes order2 (Some notes)
             | None => order2
             end in
           Order_save w order3 ;;;
           redis_del w orderId ;;;
           ret (Resp 200
                  (Json ("Order updated successfully"%string,
                         {| json_order := order3; json_items := None |})))
       end).

(** *** POST /api/orders/:id/cancel *)

Definition cancelOrder (w : World) (user : User) (orderId : Z)
  : State -> Response (string * OrderJson) * State :=
  handler "Failed to cancel order"
    (found <- Order_findOne user orderId ;;
     match found with
     | None => respond (Resp 404 (Error "Order not found"))
     | Some order =>
         if negb (Order.canBeCancelled order) then
           respond (Resp 400 (Error "Order cannot be cancelled"))
         else
           order' <- Order_updateStatus w order OrderStatus.CANCELLED ;;
           redis_del w orderId ;;;
           ret (Resp 200
                  (Json ("Order cancelled successfully"%string,
                         {| json_order := order'; json_items := None |})))
     end).

End OrderService.

(* ------------------------------------------------------------------ *)
(** ** The payment service *)

Module PaymentService.

Import Http Auth.
Local Open Scope handler_scope.

(** *** models/Payment.ts *)

Module PaymentStatus.
Inductive t : Type :=
| PENDING | PROCESSING | SUCCEEDED | FAILED | CANCELLED | REFUNDED
| PARTIALLY_REFUNDED.

Definition eqb (a b : t) : bool :=
  match a, b with
  | PENDING, PENDING | PROCESSING, PROCESSING | SUCCEEDED, SUCCEEDED
  | FAILED, FAILED | CANCELLED, CANCELLED | REFUNDED, REFUNDED
  | PARTIALLY_REFUNDED, PARTIALLY_REFUNDED => true
  | _, _ => false
  end.
End PaymentStatus.

Module PaymentMethod.
Inductive t : Type := CARD | BANK_TRANSFER | PAYPAL | APPLE_PAY | GOOGLE_PAY.
End PaymentMethod.

Record CardDetails : Type := {
  brand : string;
  last4 : string;
  expMonth : Z;
  expYear : Z
}.

Record BankTransferDetails : Type := {
  accountLast4 : string;
  routingNumber : string
}.

Record PaymentMethodDetails : Type := {
  card : option CardDetails;
  bankTransfer : option BankTransferDetails
}.

(** The object literal [{}]. *)
Definition emptyObject : PaymentMethodDetails :=
  {| card := None; bankTransfer := None |}.

Module Payment.

Record t : Type := {
  id : Z;
  orderId : Z;
  userId : Z;
  stripePaymentIntentId : option string;
  stripeChargeId : option string;
  amount : Q;
  currency : string;
  status : PaymentStatus.t;
  paymentMethod : PaymentMethod.t;
  paymentMethodDetails : option PaymentMethodDetails;
  refundedAmount : Q;
  failureReason : option string;
  metadata : list (string * option string)
}.

Definition set_id (p : t) (i : Z) : t :=
  {| id := i; orderId := orderId p; userId := userId p;
     stripePaymentIntentId := stripePaymentIntentId p;
     stripeChargeId := stripeChargeId p; amount := amount p;
     currency := currency p; status := status p;
     paymentMethod := paymentMethod p;
     paymentMethodDetails := paymentMethodDetails p;
     refundedAmount := refundedAmount p;
     failureReason := failureReason p; metadata := metadata p |}.

Definition set_status (p : t) (s : PaymentStatus.t) : t :=
  {| id := id p; orderId := orderId p; userId := userId p;
     stripePaymentIntentId := stripePaymentIntentId p;
     stripeChargeId := stripeChargeId p; amount := amount p;
     currency := currency p; status := s;
     paymentMethod := paymentMethod p;
     paymentMethodDetails := paymentMethodDetails p;
     refundedAmount := refundedAmount p;
     failureReason := failureReason p; metadata := metadata p |}.

Definition set_stripeChargeId (p : t) (c : option string) : t :=
  {| id := id p; orderId := orderId p; userId := userId p;
     stripePaymentIntentId := stripePaymentIntentId p;
     stripeChargeId := c; amount := amount p;
     currency := currency p; status := status p;
     paymentMethod := paymentMethod p;
     paymentMethodDetails := paymentMethodDetails p;
     refundedAmount := refundedAmount p;
     failureReason := failureReason p; metadata := metadata p |}.

Definition set_paymentMethodDetails (p : t)
           (d : option PaymentMethodDetails) : t :=
  {| id := id p; orderId := orderId p; userId := userId p;
     stripePaymentIntentId := stripePaymentIntentId p;
     stripeChargeId := stripeChargeId p; amount := amount p;
     currency := currency p; status := status p;
     paymentMethod := paymentMethod p;
     paymentMethodDetails := d;
     refundedAmount := refundedAmount p;
     failureReason := failureReason p; metadata := metadata p |}.

Definition set_refundedAmount (p : t) (r : Q) : t :=
  {| id := id p; orderId := orderId p; userId := userId p;
     stripePaymentIntentId := stripePaymentIntentId p;
     stripeChargeId := stripeChargeId p; amount := amount p;
     currency := currency p; status := status p;
     paymentMethod := paymentMethod p;
     paymentMethodDetails := paymentMethodDetails p;
     refundedAmount := r;
     failureReason := failureReason p; metadata := metadata p |}.

Definition set_failureReason (p : t) (r : option string) : t :=
  {| id := id p; orderId := orderId p; userId := userId p;
     stripePaymentIntentId := stripePaymentIntentId p;
     stripeChargeId := stripeChargeId p; amount := amount p;
     currency := currency p; status := status p;
     paymentMethod := paymentMethod p;
     paymentMethodDetails := paymentMethodDetails p;
     refundedAmount := refundedAmount p;
     failureReason := r; metadata := metadata p |}.

Definition canBeRefunded (p : t) : bool :=
  PaymentStatus.eqb (status p) PaymentStatus.SUCCEEDED
  && Js.lt (refundedAmount p) (amount p).

Definition getRemainingRefundableAmount (p : t) : Q :=
  amount p - refundedAmount p.

(** The assignments of [updateStatus], before [this.save()]. *)
Definition updateStatus_fields (p : t) (newStatus : PaymentStatus.t)
           (failureReason : option string) : t :=
  let p1 := set_status p newStatus in
  match failureReason with
  | Some r => if String.eqb r "" then p1 else set_failureReason p1 (Some r)
  | None => p1
  end.

(** The assignments of [addRefund], before [this.save()]. *)
Definition addRefund_fields (p : t) (refundAmount : Q) : t :=
  let p1 := set_refundedAmount p (refundedAmount p + refundAmount) in
  if Js.ge (refundedAmount p1) (amount p1)
  then set_status p1 PaymentStatus.REFUNDED
  else set_status p1 PaymentStatus.PARTIALLY_REFUNDED.

End Payment.

(** *** Objects of the payment gateway *)

Record StripeCard : Type := {
  s_brand : string;
  s_last4 : string;
  exp_month : Z;
  exp_year : Z
}.

Record Charge : Type := {
  charge_id : string;
  (* payment_method_details?.card *)
  payment_method_details_card : option StripeCard
}.

Record PaymentIntent : Type := {
  pi_id : string;
  pi_status : string;
  client_secret : option string;
  charges_data : list Charge;
  (* last_payment_error?.message *)
  last_payment_error_message : option string
}.

Record Refund : Type := { refund_id : string; refund_status : string }.

Record Dispute : Type := {
  dispute_id : string;
  dispute_charge : string
}.

Inductive StripeObject : Type :=
| ObjPaymentIntent (paymentIntent : PaymentIntent)
| ObjDispute (dispute : Dispute)
| ObjOther.

Record StripeEvent : Type := {
  ev_type : string;
  ev_data_object : StripeObject
}.

(** Answers of the order service and of the gateway, and outcome of the
    store and cache calls, during one request. *)
Record World : Type := {
  (* GET order-service /api/orders/:id ; the owner of the order, or
     None when the request failed *)
  order_get : Z -> option Z;
  (* stripe.paymentIntents.create({ amount, currency, metadata }) *)
  paymentIntents_create : Z -> string -> Z -> Z -> option PaymentIntent;
  (* stripe.paymentIntents.retrieve(id) *)
  paymentIntents_retrieve : string -> option PaymentIntent;
  (* stripe.refunds.create({ charge, amount, .. }) *)
  refunds_create : option string -> Z -> option Refund;
  Payment_create_ok : bool;
  save_ok : bool;
  redis_ok : bool
}.

(** Requests that leave the service. *)
Inductive HttpCall : Type :=
| GetOrder (orderId : Z)
| PutOrderPaymentStatus (orderId : Z) (paymentStatus : string)
| StripeCreateIntent (amountCents : Z) (orderId : Z)
| StripeRetrieveIntent (paymentIntentId : string)
| StripeCreateRefund (charge : option string) (amountCents : Z).

Record State : Type := {
  payments : list Payment.t;        (* table payments *)
  paymentSeq : Z;                   (* auto-increment of payments *)
  cache : list (Z * Payment.t);     (* redis keys payment:<id> *)
  httpLog : list HttpCall
}.

(** Bodies of the successful responses. *)
Inductive Reply : Type :=
| IntentCreated (id : Z) (clientSecret : option string) (amount : Q)
                (currency : string) (status : PaymentStatus.t)
| PaymentJson (message : string) (payment : Payment.t)
| RefundJson (message : string) (refund : Refund) (refundAmount : Q)
             (reason : string) (payment : Payment.t)
| Received.

Definition M := Http.M State (Response Reply).

Definition log (c : HttpCall) (s : State) : State :=
  {| payments := payments s; paymentSeq := paymentSeq s; cache := cache s;
     httpLog := httpLog s ++ [c] |}.

Definition insert_payment (p : Payment.t) (s : State) : State :=
  {| payments := payments s ++ [p]; paymentSeq := Payment.id p;
     cache := cache s; httpLog := httpLog s |}.

Definition update_payment (p : Payment.t) (s : State) : State :=
  {| payments := map (fun r => if Payment.id r =? Payment.id p then p else r)%Z
                     (payments s);
     paymentSeq := paymentSeq s; cache := cache s; httpLog := httpLog s |}.

Definition set_cache (c : list (Z * Payment.t)) (s : State) : State :=
  {| payments := payments s; paymentSeq := paymentSeq s; cache := c;
     httpLog := httpLog s |}.

Definition redis_setex (w : World) (key : Z) (v : Payment.t) : M unit :=
  if redis_ok w then
    modify (fun s =>
      set_cache ((key, v) :: filter (fun e => negb (fst e =? key)%Z) (cache s)) s)
  else throw CacheError.

Definition redis_del (w : World) (key : Z) : M unit :=
  if redis_ok w then
    modify (fun s =>
      set_cache (filter (fun e => negb (fst e =? key)%Z) (cache s)) s)
  else throw CacheError.

(** [Payment.create(attrs)] *)
Definition Payment_create (w : World) (attrs : Payment.t) : M Payment.t :=
  if Payment_create_ok w then
    n <- gets paymentSeq ;;
    let p := Payment.set_id attrs (n + 1)%Z in
    modify (insert_payment p) ;;;
    ret p
  else throw StoreError.

(** [payment.save()] *)
Definition Payment_save (w : World) (p : Payment.t) : M unit :=
  if save_ok w then modify (update_payment p) else throw StoreError.

(** [Payment.findOne({ where })] *)
Definition Payment_findOne (where_ : Payment.t -> bool) : M (option Payment.t) :=
  gets (fun s => find where_ (payments s)).

(** [payment.updateStatus(newStatus, failureReason)] *)
Definition Payment_updateStatus (w : World) (p : Payment.t)
           (newStatus : PaymentStatus.t) (failureReason : option string)
  : M Payment.t :=
  let p' := Payment.updateStatus_fields p newStatus failureReason in
  Payment_save w p' ;;;
  ret p'.

(** [payment.addRefund(refundAmount)] *)
Definition Payment_addRefund (w : World) (p : Payment.t) (refundAmount : Q)
  : M Payment.t :=
  let p' := Payment.addRefund_fields p refundAmount in
  Payment_save w p' ;;;
  ret p'.

(** *** routes/payments.ts: helpers *)

Definition getOrderDetails (w : World) (orderId : Z) : M Z :=
  modify (log (GetOrder orderId)) ;;;
  match order_get w orderId with
  | Some owner => ret owner
  | None => throw (OrderNotFound orderId)
  end.

(** The PUT is sent; whether it succeeds is only logged. *)
Definition updateOrderPaymentStatus (orderId : Z) (paymentStatus : string)
  : M unit :=
  swallow (modify (log (PutOrderPaymentStatus orderId paymentStatus))).

(** *** Request bodies and validation *)

Record CreateIntentBody : Type := {
  ci_orderId : Z;
  ci_amount : Q;
  ci_currency : option string;
  ci_paymentMethod : PaymentMethod.t
}.

Record ConfirmBody : Type := {
  cf_paymentIntentId : string;
  cf_orderId : Z
}.

Record RefundBody : Type := {
  rf_amount : option Q;
  rf_reason : option string
}.

Definition currencies : list string := ["USD"; "EUR"; "GBP"; "CAD"; "AUD"]%string.

Definition createPaymentIntentValidation (b : CreateIntentBody) : bool :=
  (1 <=? ci_orderId b)%Z && Qle_bool (1 # 2) (ci_amount b)
  && match ci_currency b with
     | Some c => existsb (String.eqb c) currencies
     | None => true
     end.

Definition confirmPaymentValidation (b : ConfirmBody) : bool :=
  negb (String.eqb (cf_paymentIntentId b) "") && (1 <=? cf_orderId b)%Z.

Definition refundValidation (paymentId : Z) (b : RefundBody) : bool :=
  (1 <=? paymentId)%Z
  && match rf_amount b with
     | Some a => Qle_bool (1 # 100) a
     | None => true
     end.

Definition some_eqb (a : option string) (b : string) : bool :=
  match a with
  | Some x => String.eqb x b
  | None => false
  end.

(** [a || b] on strings: the empty string is falsy. *)
Definition str_or_else (a : option string) (b : string) : string :=
  match a with
  | Some x => if String.eqb x "" then b else x
  | None => b
  end.

(** *** POST /api/payments/create-intent *)

Definition activeStatuses : list PaymentStatus.t :=
  [PaymentStatus.PENDING; PaymentStatus.PROCESSING; PaymentStatus.SUCCEEDED].

Definition isActive (p : Payment.t) : bool :=
  existsb (PaymentStatus.eqb (Payment.status p)) activeStatuses.

Definition createIntent (w : World) (user : User) (b : CreateIntentBody)
  : State -> Response Reply * State :=
  handler "Failed to create payment intent"
    (if negb (createPaymentIntentValidation b) then
       respond (Resp 400 ValidationErrors)
     else
       let orderId := ci_orderId b in
       let amount := ci_amount b in
       let currency := match ci_currency b with Some c => c | None => "USD"%string end in
       owner <- getOrderDetails w orderId ;;
       if negb (owner =? userId user)%Z && negb (isAdmin user) then
         respond (Resp 403 (Error "Access denied to this order"))
       else
         existingPayment <-
           Payment_findOne (fun p => (Payment.orderId p =? orderId)%Z && isActive p) ;;
         match existingPayment with
         | Some _ =>
             respond (Resp 400 (Error "Payment already exists for this order"))
         | None =>
             let cents := Js.Math_round (amount * 100) in
             modify (log (StripeCreateIntent cents orderId)) ;;;
             match paymentIntents_create w cents currency orderId (userId user) with
             | None => throw GatewayError
             | Some paymentIntent =>
                 payment <- Payment_create w
                   {| Payment.id := 0;
                      Payment.orderId := orderId;
                      Payment.userId := userId user;
                      Payment.stripePaymentIntentId := Some (pi_id paymentIntent);
                      Payment.stripeChargeId := None;
                      Payment.amount := amount;
                      Payment.currency := currency;
                      Payment.status := PaymentStatus.PENDING;
                      Payment.paymentMethod := ci_paymentMethod b;
                      Payment.paymentMethodDetails := None;
                      Payment.refundedAmount := 0;
                      Payment.failureReason := None;
                      Payment.metadata :=
                        [("stripeClientSecret"%string, client_secret paymentIntent)] |} ;;
                 redis_setex w (Payment.id payment) payment ;;;
                 ret (Resp 201
                        (Json (IntentCreated (Payment.id payment)
                                 (client_secret paymentIntent)
                                 (Payment.amount payment)
                                 (Payment.currency payment)
                                 (Payment.status payment))))
             end
         end).

(** *** POST /api/payments/confirm *)

Definition cardOf (c : StripeCard) : PaymentMethodDetails :=
  {| card := Some {| brand := s_brand c; last4 := s_last4 c;
                     expMonth := exp_month c; expYear := exp_year c |};
     bankTransfer := None |}.

(** The [switch (paymentIntent.status)]: the payment object after the
    assignments made inside the switch, [newStatus] and
    [paymentMethodDetails]. *)
Definition confirmSwitch (payment : Payment.t) (paymentIntent : PaymentIntent)
  : Payment.t * PaymentStatus.t * PaymentMethodDetails :=
  let st := pi_status paymentIntent in
  if String.eqb st "succeeded" then
    match charges_data paymentIntent with
    | charge :: _ =>
        let payment' := Payment.set_stripeChargeId payment (Some (charge_id charge)) in
        match payment_method_details_card charge with
        | Some c => (payment', PaymentStatus.SUCCEEDED, cardOf c)
        | None => (payment', PaymentStatus.SUCCEEDED, emptyObject)
        end
    | [] => (payment, PaymentStatus.SUCCEEDED, emptyObject)
    end
  else if String.eqb st "processing" then
    (payment, PaymentStatus.PROCESSING, emptyObject)
  else if String.eqb st "requires_payment_method"
          || String.eqb st "requires_confirmation"
          || String.eqb st "requires_action" then
    (payment, PaymentStatus.PENDING, emptyObject)
  else if String.eqb st "canceled" then
    (payment, PaymentStatus.CANCELLED, emptyObject)
  else
    (Payment.set_failureReason payment
       (Some (str_or_else (last_payment_error_message paymentIntent) "Unknown error")),
     PaymentStatus.FAILED, emptyObject).

(** The payment object as [payment.save()] finds it: the assignments of
    the switch, then [payment.status = newStatus] and
    [payment.paymentMethodDetails = paymentMethodDetails]. *)
Definition confirmAssign (payment : Payment.t) (paymentIntent : PaymentIntent)
  : Payment.t * PaymentStatus.t :=
  let '(payment1, newStatus, paymentMethodDetails) :=
    confirmSwitch payment paymentIntent in
  let payment2 := Payment.set_status payment1 newStatus in
  (Payment.set_paymentMethodDetails payment2 (Some paymentMethodDetails),
   newStatus).

(** The [if / else if] after the save: which order synchronisation goes
    out for [newStatus]. *)
Definition confirmSync (orderId : Z) (newStatus : PaymentStatus.t) : M unit :=
  if PaymentStatus.eqb newStatus PaymentStatus.SUCCEEDED then
    updateOrderPaymentStatus orderId "paid"
  else if PaymentStatus.eqb newStatus PaymentStatus.FAILED
          || PaymentStatus.eqb newStatus PaymentStatus.CANCELLED then
    updateOrderPaymentStatus orderId "failed"
  else ret tt.

(** [Payment.findOne({ where: { stripePaymentIntentId, orderId, userId:
    role === 'admin' ? undefined : userId } })].  For an admin the where
    clause holds [userId: undefined], which Sequelize refuses: the call is
    rejected before any row is read. *)
Definition Payment_findOne_confirm (user : User) (paymentIntentId : string)
           (orderId : Z) : M (option Payment.t) :=
  if isAdmin user then throw StoreError
  else
    Payment_findOne (fun p =>
      some_eqb (Payment.stripePaymentIntentId p) paymentIntentId
      && (Payment.orderId p =? orderId)%Z
      && (Payment.userId p =? userId user)%Z).

Definition confirm (w : World) (user : User) (b : ConfirmBody)
  : State -> Response Reply * State :=
  handler "Failed to confirm payment"
    (if negb (confirmPaymentValidation b) then
       respond (Resp 400 ValidationErrors)
     else
       let paymentIntentId := cf_paymentIntentId b in
       let orderId := cf_orderId b in
       found <- Payment_findOne_confirm user paymentIntentId orderId ;;
       match found with
       | None => respond (Resp 404 (Error "Payment not found"))
       | Some payment =>
           modify (log (StripeRetrieveIntent paymentIntentId)) ;;;
           match paymentIntents_retrieve w paymentIntentId with
           | None => throw GatewayError
           | Some paymentIntent =>
               let payment' := fst (confirmAssign payment paymentIntent) in
               let newStatus := snd (confirmAssign payment paymentIntent) in
               Payment_save w payment' ;;;
               confirmSync orderId newStatus ;;;
               redis_del w (Payment.id payment') ;;;
               ret (Resp 200 (Json (PaymentJson "Payment status updated" payment')))
           end
       end).

(** *** POST /api/payments/:id/refund *)

Definition refund (w : World) (user : User) (paymentId : Z) (b : RefundBody)
  : State -> Response Reply * State :=
  handler "Failed to process refund"
    (if negb (refundValidation paymentId b) then
       respond (Resp 400 ValidationErrors)
     else
       let reason := match rf_reason b with Some r => r | None => "Customer request"%string end in
       found <-
         Payment_findOne (fun p =>
           (Payment.id p =? paymentId)%Z
           && (isAdmin user || (Payment.userId p =? userId user)%Z)) ;;
       match found with
       | None => respond (Resp 404 (Error "Payment not found"))
       | Some payment =>
           if negb (Payment.canBeRefunded payment) then
             respond (Resp 400 (Error "Payment cannot be refunded"))
           else
             let refundAmount :=
               Js.or_else (rf_amount b) (Payment.getRemainingRefundableAmount payment) in
             if Js.gt refundAmount (Payment.getRemainingRefundableAmount payment) then
               respond (Resp 400
                 (Error "Refund amount exceeds remaining refundable amount"))
             else
               let cents := Js.Math_round (refundAmount * 100) in
               modify (log (StripeCreateRefund (Payment.stripeChargeId payment) cents)) ;;;
               match refunds_create w (Payment.stripeChargeId payment) cents with
               | None => throw GatewayError
               | Some refund =>
                   payment' <- Payment_addRefund w payment refundAmount ;;
                   (if PaymentStatus.eqb (Payment.status payment') PaymentStatus.REFUNDED
                    then updateOrderPaymentStatus (Payment.orderId payment') "refunded"
                    else ret tt) ;;;
                   redis_del w paymentId ;;;
                   ret (Resp 200
                          (Json (RefundJson "Refund processed successfully"
                                   refund refundAmount reason payment')))
               end
       end).

(** *** routes/webhooks.ts *)

Definition asPaymentIntent (o : StripeObject) : M PaymentIntent :=
  match o with
  | ObjPaymentIntent paymentIntent => ret paymentIntent
  | _ => throw TypeError
  end.

Definition byIntent (paymentIntent : PaymentIntent) (p : Payment.t) : bool :=
  some_eqb (Payment.stripePaymentIntentId p) (pi_id paymentIntent).

(** The assignments of [handlePaymentIntentSucceeded] up to
    [payment.save()]. *)
Definition succeededAssign (payment : Payment.t) (paymentIntent : PaymentIntent)
  : Payment.t :=
  let payment1 := Payment.set_status payment PaymentStatus.SUCCEEDED in
  match charges_data paymentIntent with
  | charge :: _ =>
      let p := Payment.set_stripeChargeId payment1 (Some (charge_id charge)) in
      match payment_method_details_card charge with
      | Some c => Payment.set_paymentMethodDetails p (Some (cardOf c))
      | None => p
      end
  | [] => payment1
  end.

Definition handlePaymentIntentSucceeded (w : World) (o : StripeObject) : M unit :=
  swallow
    (paymentIntent <- asPaymentIntent o ;;
     found <- Payment_findOne (byIntent paymentIntent) ;;
     match found with
     | None => ret tt
     | Some payment =>
         let payment2 := succeededAssign payment paymentIntent in
         Payment_save w payment2 ;;;
         updateOrderPaymentStatus (Payment.orderId payment2) "paid" ;;;
         redis_del w (Payment.id payment2)
     end).

Definition handlePaymentIntentFailed (w : World) (o : StripeObject) : M unit :=
  swallow
    (paymentIntent <- asPaymentIntent o ;;
     found <- Payment_findOne (byIntent paymentIntent) ;;
     match found with
     | None => ret tt
     | Some payment =>
         let payment1 := Payment.set_status payment PaymentStatus.FAILED in
         let payment2 :=
           Payment.set_failureReason payment1
             (Some (str_or_else (last_payment_error_message paymentIntent)
                                "Payment failed")) in
         Payment_save w payment2 ;;;
         updateOrderPaymentStatus (Payment.orderId payment2) "failed" ;;;
         redis_del w (Payment.id payment2)
     end).

Definition handlePaymentIntentCanceled (w : World) (o : StripeObject) : M unit :=
  swallow
    (paymentIntent <- asPaymentIntent o ;;
     found <- Payment_findOne (byIntent paymentIntent) ;;
     match found with
     | None => ret tt
     | Some payment =>
         let payment1 := Payment.set_status payment PaymentStatus.CANCELLED in
         Payment_save w payment1 ;;;
         updateOrderPaymentStatus (Payment.orderId payment1) "failed" ;;;
         redis_del w (Payment.id payment1)
     end).

(** The dispute, invoice and subscription handlers read at most and write
    to the logger only. *)
Definition handleLogOnly : M unit := swallow (ret tt).

(** POST /api/webhooks/stripe; [signatureValid] is the outcome of
    [stripe.webhooks.constructEvent]. *)
Definition stripeWebhook (w : World) (signatureValid : bool) (event : StripeEvent)
  : State -> Response Reply * State :=
  if negb signatureValid then
    fun s => (Resp 400 (Text "Webhook Error: "), s)
  else
    handler "Webhook processing failed"
      (let ty := ev_type event in
       (if String.eqb ty "payment_intent.succeeded" then
          handlePaymentIntentSucceeded w (ev_data_object event)
        else if String.eqb ty "payment_intent.payment_failed" then
          handlePaymentIntentFailed w (ev_data_object event)
        else if String.eqb ty "payment_intent.canceled" then
          handlePaymentIntentCanceled w (ev_data_object event)
        else if String.eqb ty "charge.dispute.created" then handleLogOnly
        else if String.eqb ty "invoice.payment_succeeded" then handleLogOnly
        else if String.eqb ty "invoice.payment_failed" then handleLogOnly
        else if String.eqb ty "customer.subscription.deleted" then handleLogOnly
        else ret tt) ;;;
       ret (Resp 200 (Json Received))).

End PaymentService.

(* ------------------------------------------------------------------ *)
(** ** Vocabulary of the properties *)

Module Spec.

Import Http Auth.

(** *** Orders *)

Section Orders.
Import OrderService.

(** The order a caller gets at for [orderId], if any. *)
Definition visibleOrder (user : User) (orderId : Z) (s : State)
  : option Order.t :=
  find (fun r => (Order.id r =? orderId)%Z
                 && (isAdmin user || (Order.userId r =? Auth.userId user)%Z))
       (orders s).

(** The rows of order_items that belong to an order. *)
Definition itemsOf (orderId : Z) (s : State) : list OrderItem.t :=
  filter (fun i => (OrderItem.orderId i =? orderId)%Z) (orderItems s).

(** Sum of quantity x unitPrice over the requested lines. *)
Fixpoint lineSum (items : list ItemBody) : Q :=
  match items with
  | [] => 0
  | i :: rest => inject_Z (item_quantity i) * item_unitPrice i + lineSum rest
  end.

(** [t] is [x] rounded to two decimals, a half being rounded up: [t] is
    a whole number [n] of hundredths with n - 1/2 <= 100 x < n + 1/2. *)
Definition roundedHalfUp2 (x t : Q) : Prop :=
  exists n : Z,
    t == inject_Z n / 100
    /\ inject_Z n - (1 # 2) <= x * 100
    /\ x * 100 < inject_Z n + (1 # 2).

(** Every product of the request is found and in stock, and the store
    and the cache accept every write. *)
Definition inStock (w : World) (i : ItemBody) : bool :=
  match product_get w (item_productId i), stock_get w (item_productId i) with
  | Some _, Some stock => Qle_bool (inject_Z (item_quantity i)) stock
  | _, _ => false
  end.

Definition cooperative (w : World) (b : CreateOrderBody) : bool :=
  forallb (inStock w) (items b)
  && Order_create_ok w
  && forallb (OrderItem_create_ok w) (seq 0 (List.length (items b)))
  && redis_ok w.

(** [s] after the requests [calls] have been sent to the product service
    and nothing else has happened. *)
Definition logged (calls : list HttpCall) (s : State) : State :=
  {| orders := orders s; orderItems := orderItems s; orderSeq := orderSeq s;
     orderItemSeq := orderItemSeq s; cache := cache s;
     httpLog := httpLog s ++ calls |}.

(** A stock request that failed or timed out. *)
Definition stockFailure (c : HttpCall) : bool :=
  match c with
  | GetStock _ None => true
  | _ => false
  end.

(** The response that reports insufficient stock. *)
Definition insufficientStock (A : Type) (r : Response A) : Prop :=
  exists productName : string,
    r = Resp 400 (Error ("Insufficient stock for product: " ++ productName)).

End Orders.

(** *** Payments *)

Section Payments.
Import PaymentService.

(** The payments of an order that are pending, processing or succeeded. *)
Definition activePayments (orderId : Z) (s : State) : list Payment.t :=
  filter (fun p => (Payment.orderId p =? orderId)%Z && isActive p) (payments s).

Definition oneActivePerOrder (s : State) : Prop :=
  forall orderId, (List.length (activePayments orderId s) <= 1)%nat.

(** The payment a caller gets at for [paymentId], if any. *)
Definition visiblePayment (user : User) (paymentId : Z) (s : State)
  : option Payment.t :=
  find (fun p => (Payment.id p =? paymentId)%Z
                 && (isAdmin user || (Payment.userId p =? Auth.userId user)%Z))
       (payments s).



(** The order-paid synchronisations among the requests sent out. *)
Definition isPaidSync (c : HttpCall) : bool :=
  match c with
  | PutOrderPaymentStatus _ st => String.eqb st "paid"
  | _ => false
  end.

(** The payment that the confirm route finds for a request, if any: none
    for an admin, whose lookup is rejected. *)
Definition confirmTarget (user : User) (b : ConfirmBody) (s : State)
  : option Payment.t :=
  if isAdmin user then None
  else
    find (fun p =>
            some_eqb (Payment.stripePaymentIntentId p) (cf_paymentIntentId b)
            && (Payment.orderId p =? cf_orderId b)%Z
            && (Payment.userId p =? Auth.userId user)%Z)
         (payments s).

(** The payment that a webhook handler finds for an intent, if any. *)
Definition webhookTarget (paymentIntent : PaymentIntent) (s : State)
  : option Payment.t :=
  find (byIntent paymentIntent) (payments s).

(** The order synchronisations that follow a confirmation with
    [newStatus]. *)
Definition syncCalls (orderId : Z) (newStatus : PaymentStatus.t)
  : list HttpCall :=
  match newStatus with
  | PaymentStatus.SUCCEEDED => [PutOrderPaymentStatus orderId "paid"]
  | PaymentStatus.FAILED | PaymentStatus.CANCELLED =>
      [PutOrderPaymentStatus orderId "failed"]
  | _ => []
  end.

(** The event "payment succeeded" for an intent. *)
Definition succeededEvent (paymentIntent : PaymentIntent) : StripeEvent :=
  {| ev_type := "payment_intent.succeeded";
     ev_data_object := ObjPaymentIntent paymentIntent |}.

End Payments.

End Spec.

(* ------------------------------------------------------------------ *)
(** ** Concrete requests, environments and states *)

Module Examples.

Import Http Auth.

Definition alice : User := {| userId := 7; role := "customer" |}.

Module Orders.
Import OrderService.

Definition home : Address :=
  {| firstName := "Alice"; lastName := "Doe"; address := "1 Main St";
     city := "Springfield"; state := "IL"; zipCode := "62701";
     country := "US"; phone := None |}.

(** Every product exists with 10 units in stock; every write succeeds. *)
Definition calm : World :=
  {| product_get :=
       fun _ => Some {| name := "Laptop"; sku := "LAP-1"; images := None |};
     stock_get := fun _ => Some 10;
     now_last8 := "12345678";
     random_base36 := "ABC123";
     Order_create_ok := true;
     OrderItem_create_ok := fun _ => true;
     save_ok := true;
     redis_ok := true |}.

(** As [calm], but the store rejects the insert of every order item. *)
Definition itemInsertFails : World :=
  {| product_get := product_get calm;
     stock_get := stock_get calm;
     now_last8 := now_last8 calm;
     random_base36 := random_base36 calm;
     Order_create_ok := true;
     OrderItem_create_ok := fun _ => false;
     save_ok := true;
     redis_ok := true |}.

(** As [calm], but the stock request of product 2 times out. *)
Definition stockTimeout : World :=
  {| product_get := product_get calm;
     stock_get := fun i => if (i =? 2)%Z then None else Some 10;
     now_last8 := now_last8 calm;
     random_base36 := random_base36 calm;
     Order_create_ok := true;
     OrderItem_create_ok := fun _ => true;
     save_ok := true;
     redis_ok := true |}.

Definition empty : State :=
  {| orders := []; orderItems := []; orderSeq := 0; orderItemSeq := 0;
     cache := []; httpLog := [] |}.

Definition line (productId quantity : Z) (unitPrice : Q) : ItemBody :=
  {| item_productId := productId; item_quantity := quantity;
     item_unitPrice := unitPrice |}.

Definition request (items : list ItemBody) : CreateOrderBody :=
  {| items := items; body_shippingAddress := home; body_billingAddress := home;
     body_paymentMethod := "card"; body_notes := None |}.

(** 2 x 999.99 and 1 x 299.99 *)
Definition twoLines : CreateOrderBody :=
  request [line 1 2 (99999 # 100); line 2 1 (29999 # 100)].

(** Order 1 of alice with the given status and payment status. *)
Definition order1 (st : OrderStatus.t) (pst : PaymentStatus.t) : Order.t :=
  {| Order.id := 1; Order.userId := 7; Order.orderNumber := "ORD-12345678-ABC123";
     Order.status := st; Order.paymentStatus := pst;
     Order.totalAmount := 108; Order.subtotal := 100; Order.taxAmount := 8;
     Order.shippingAmount := 0; Order.discountAmount := 0;
     Order.shippingAddress := home; Order.billingAddress := home;
     Order.paymentMethod := "card"; Order.notes := None |}.

Definition with1 (st : OrderStatus.t) (pst : PaymentStatus.t) : State :=
  {| orders := [order1 st pst]; orderItems := []; orderSeq := 1;
     orderItemSeq := 0; cache := []; httpLog := [] |}.

Definition change (st : option OrderStatus.t) (pst : option PaymentStatus.t)
  : UpdateOrderBody :=
  {| upd_status := st; upd_paymentStatus := pst; upd_notes := None |}.

End Orders.

Module Payments.
Import PaymentService.

Definition visa : StripeCard :=
  {| s_brand := "visa"; s_last4 := "4242"; exp_month := 12; exp_year := 2030 |}.

(** An intent without a charge, in the given gateway status. *)
Definition intent (id status : string) : PaymentIntent :=
  {| pi_id := id; pi_status := status; client_secret := Some "secret"%string;
     charges_data := []; last_payment_error_message := None |}.

(** A succeeded intent with its charge on a card. *)
Definition paidIntent (id : string) : PaymentIntent :=
  {| pi_id := id; pi_status := "succeeded"; client_secret := Some "secret"%string;
     charges_data := [ {| charge_id := "ch_1";
                          payment_method_details_card := Some visa |} ];
     last_payment_error_message := None |}.

(** Every order belongs to user 7; the gateway creates the intent [fresh],
    reports every intent in the status [reported], accepts every refund;
    every write succeeds. *)
Definition gateway (fresh reported : string) : World :=
  {| order_get := fun _ => Some 7%Z;
     paymentIntents_create :=
       fun _ _ _ _ => Some (intent fresh "requires_payment_method");
     paymentIntents_retrieve :=
       fun id => Some (if String.eqb reported "succeeded" then paidIntent id
                       else intent id reported);
     refunds_create :=
       fun _ _ => Some {| refund_id := "re_1"; refund_status := "succeeded" |};
     Payment_create_ok := true;
     save_ok := true;
     redis_ok := true |}.

Definition empty : State :=
  {| payments := []; paymentSeq := 0; cache := []; httpLog := [] |}.

(** Payment 1 of user 7 for order 1, intent pi_1, with a card snapshot. *)
Definition payment1 (st : PaymentStatus.t) (amount refunded : Q) : Payment.t :=
  {| Payment.id := 1; Payment.orderId := 1; Payment.userId := 7;
     Payment.stripePaymentIntentId := Some "pi_1"%string;
     Payment.stripeChargeId := Some "ch_1"%string;
     Payment.amount := amount; Payment.currency := "USD";
     Payment.status := st; Payment.paymentMethod := PaymentMethod.CARD;
     Payment.paymentMethodDetails := Some (cardOf visa);
     Payment.refundedAmount := refunded;
     Payment.failureReason := None;
     Payment.metadata := [] |}.

Definition with1 (st : PaymentStatus.t) (amount refunded : Q) : State :=
  {| payments := [payment1 st amount refunded]; paymentSeq := 1; cache := [];
     httpLog := [] |}.

(** Pay 50 USD by card for order 1. *)
Definition pay50 : CreateIntentBody :=
  {| ci_orderId := 1; ci_amount := 50; ci_currency := None;
     ci_paymentMethod := PaymentMethod.CARD |}.

Definition confirm1 : ConfirmBody :=
  {| cf_paymentIntentId := "pi_1"; cf_orderId := 1 |}.

Definition refundOf (a : Q) : RefundBody :=
  {| rf_amount := Some a; rf_reason := None |}.

Definition event (type : string) (paymentIntent : PaymentIntent) : StripeEvent :=
  {| ev_type := type; ev_data_object := ObjPaymentIntent paymentIntent |}.

End Payments.

End Examples.

(* ------------------------------------------------------------------ *)
(** ** The order service: reading *)

Module OrderQueries.

Import Http Auth OrderService.
Local Open Scope handler_scope.

(** The read routes answer with the order alone. *)
Definition R := Http.M State (Response OrderJson).

(** [redis.get(`order:${id}`)] *)
Definition redis_get (w : World) (key : Z) : R (option OrderJson) :=
  if redis_ok w then
    gets (fun s =>
      match find (fun e => (fst e =? key)%Z) (cache s) with
      | Some e => Some (snd e)
      | None => None
      end)
  else throw CacheError.

(** [redis.setex(`order:${id}`, 3600, JSON.stringify(v))], in a read
    route. *)
Definition redis_put (w : World) (key : Z) (v : OrderJson) : R unit :=
  if redis_ok w then
    modify (fun s =>
      set_cache ((key, v) :: filter (fun e => negb (fst e =? key)%Z) (cache s)) s)
  else throw CacheError.

(** [Order.findOne({ where, include: [{ model: OrderItem, as: 'items' }] })]
    and [order.toJSON()] of the result. *)
Definition Order_findOne_items (user : User) (orderId : Z) : R (option OrderJson) :=
  gets (fun s =>
    match find (fun r => (Order.id r =? orderId)%Z
                         && (isAdmin user || (Order.userId r =? userId user)%Z))
               (orders s) with
    | Some order =>
        Some {| json_order := order;
                json_items :=
                  Some (filter (fun i => (OrderItem.orderId i =? Order.id order)%Z)
                               (orderItems s)) |}
    | None => None
    end).

(** GET /api/orders/:id *)
Definition getOrder (w : World) (user : User) (orderId : Z)
  : State -> Response OrderJson * State :=
  handler "Failed to retrieve order"
    (cached <- redis_get w orderId ;;
     match cached with
     | Some order =>
         if (Order.userId (json_order order) =? userId user)%Z || isAdmin user
         then respond (Resp 200 (Json order))
         else ret tt
     | None => ret tt
     end ;;;
     found <- Order_findOne_items user orderId ;;
     match found with
     | None => respond (Resp 404 (Error "Order not found"))
     | Some order =>
         redis_put w orderId order ;;;
         ret (Resp 200 (Json order))
     end).

(** *** Pagination of the list routes *)

(** [parseInt(req.query.x) || d]; the query value is absent or not a number
    ([None]) or an integer. *)
Definition parseIntOr (q : option Z) (d : Z) : Z :=
  match q with
  | Some n => if (n =? 0)%Z then d else n
  | None => d
  end.

Record Pagination : Type := {
  page : Z;
  limit : Z;
  total : Z;
  totalPages : Z;
  hasNext : bool;
  hasPrev : bool
}.

(** [offset] and the [pagination] object of GET /api/orders,
    GET /api/orders/admin/all, GET /api/payments and
    GET /api/payments/admin/all, for the [count] of [findAndCountAll]. *)
Definition paginate (pageQuery limitQuery : option Z) (count : Z)
  : Z * Pagination :=
  let page := parseIntOr pageQuery 1 in
  let limit := parseIntOr limitQuery 10 in
  let offset := ((page - 1) * limit)%Z in
  let totalPages := Qceiling (inject_Z count / inject_Z limit) in
  (offset,
   {| page := page; limit := limit; total := count; totalPages := totalPages;
      hasNext := (page <? totalPages)%Z; hasPrev := (1 <? page)%Z |}).

(** *** Requests in sequence *)

(** One request to a route of the service that is modelled. *)
Inductive Request : Type :=
| CreateOrder (w : World) (user : User) (b : CreateOrderBody)
| UpdateOrder (w : World) (user : User) (orderId : Z) (b : UpdateOrderBody)
| CancelOrder (w : World) (user : User) (orderId : Z)
| GetOrder (w : World) (user : User) (orderId : Z).

(** The state after a request. *)
Definition after (r : Request) (s : State) : State :=
  match r with
  | CreateOrder w user b => snd (createOrder w user b s)
  | UpdateOrder w user orderId b => snd (updateOrder w user orderId b s)
  | CancelOrder w user orderId => snd (cancelOrder w user orderId s)
  | GetOrder w user orderId => snd (getOrder w user orderId s)
  end.

(** The state after requests served one after the other. *)
Fixpoint afterAll (rs : list Request) (s : State) : State :=
  match rs with
  | [] => s
  | r :: rest => afterAll rest (after r s)
  end.

End OrderQueries.

(* ------------------------------------------------------------------ *)
(** ** The payment service: reading, and requests in sequence *)

Module PaymentQueries.

Import Http Auth PaymentService.
Local Open Scope handler_scope.

(** The read route answers with the payment alone. *)
Definition R := Http.M State (Response Payment.t).

(** [redis.get(`payment:${id}`)] *)
Definition redis_get (w : World) (key : Z) : R (option Payment.t) :=
  if redis_ok w then
    gets (fun s =>
      match find (fun e => (fst e =? key)%Z) (cache s) with
      | Some e => Some (snd e)
      | None => None
      end)
  else throw CacheError.

(** [redis.setex(`payment:${id}`, 3600, JSON.stringify(v))], in the read
    route. *)
Definition redis_put (w : World) (key : Z) (v : Payment.t) : R unit :=
  if redis_ok w then
    modify (fun s =>
      set_cache ((key, v) :: filter (fun e => negb (fst e =? key)%Z) (cache s)) s)
  else throw CacheError.

(** GET /api/payments/:id *)
Definition getPayment (w : World) (user : User) (paymentId : Z)
  : State -> Response Payment.t * State :=
  handler "Failed to retrieve payment"
    (cached <- redis_get w paymentId ;;
     match cached with
     | Some payment =>
         if (Payment.userId payment =? userId user)%Z || isAdmin user
         then respond (Resp 200 (Json payment))
         else ret tt
     | None => ret tt
     end ;;;
     found <- gets (fun s =>
                find (fun p => (Payment.id p =? paymentId)%Z
                               && (isAdmin user
                                   || (Payment.userId p =? userId user)%Z))
                     (payments s)) ;;
     match found with
     | None => respond (Resp 404 (Error "Payment not found"))
     | Some payment =>
         redis_put w paymentId payment ;;;
         ret (Resp 200 (Json payment))
     end).

(** One request to a route of the service that writes. *)
Inductive Request : Type :=
| CreateIntent (w : World) (user : User) (b : CreateIntentBody)
| Confirm (w : World) (user : User) (b : ConfirmBody)
| RefundPayment (w : World) (user : User) (paymentId : Z) (b : RefundBody)
| Webhook (w : World) (signatureValid : bool) (event : StripeEvent)
| GetPayment (w : World) (user : User) (paymentId : Z).

(** The state after a request. *)
Definition after (r : Request) (s : State) : State :=
  match r with
  | CreateIntent w user b => snd (createIntent w user b s)
  | Confirm w user b => snd (confirm w user b s)
  | RefundPayment w user paymentId b => snd (refund w user paymentId b s)
  | Webhook w signatureValid event => snd (stripeWebhook w signatureValid event s)
  | GetPayment w user paymentId => snd (getPayment w user paymentId s)
  end.


(** The state after requests served one after the other. *)
Fixpoint afterAll (rs : list Request) (s : State) : State :=
  match rs with
  | [] => s
  | r :: rest => afterAll rest (after r s)
  end.

End PaymentQueries.

(* ------------------------------------------------------------------ *)
(** ** Vocabulary of the further properties *)

Module Facts.

Import Http Auth.

Section Orders.
Import OrderService OrderQueries.

(** The snapshot cached for an order id, if any. *)
Definition cachedOrder (orderId : Z) (s : State) : option OrderJson :=
  match find (fun e => (fst e =? orderId)%Z) (cache s) with
  | Some e => Some (snd e)
  | None => None
  end.

(** The order a caller gets at for [orderId] in the tables, with its
    items. *)
Definition storedOrder (user : User) (orderId : Z) (s : State)
  : option OrderJson :=
  match Spec.visibleOrder user orderId s with
  | Some order =>
      Some {| json_order := order;
              json_items := Some (Spec.itemsOf (Order.id order) s) |}
  | None => None
  end.

(** [s] with the snapshot [v] cached for [orderId]. *)
Definition withCached (orderId : Z) (v : OrderJson) (s : State) : State :=
  set_cache ((orderId, v) :: filter (fun e => negb (fst e =? orderId)%Z) (cache s)) s.

(** [s] with nothing cached for [orderId]. *)
Definition withoutCached (orderId : Z) (s : State) : State :=
  set_cache (filter (fun e => negb (fst e =? orderId)%Z) (cache s)) s.

(** The caller may see the snapshot. *)
Definition mayRead (user : User) (v : OrderJson) : bool :=
  (Order.userId (json_order v) =? userId user)%Z || isAdmin user.

(** The generic update is refused: it asks for [cancelled] and the order
    cannot be cancelled. *)
Definition cancelRefused (b : UpdateOrderBody) (order : Order.t) : bool :=
  match upd_status b with
  | Some status =>
      OrderStatus.eqb status OrderStatus.CANCELLED
      && negb (Order.canBeCancelled order)
  | None => false
  end.

(** The order after the assignments of the generic update. *)
Definition updated (b : UpdateOrderBody) (order : Order.t) : Order.t :=
  let order1 :=
    match upd_status b with
    | Some status => Order.set_status order status
    | None => order
    end in
  let order2 :=
    match upd_paymentStatus b with
    | Some paymentStatus => Order.set_paymentStatus order1 paymentStatus
    | None => order1
    end in
  match upd_notes b with
  | Some notes => Order.set_notes order2 (Some notes)
  | None => order2
  end.

(** A validated item is the snapshot of a requested line: the line's
    product, quantity and unit price, their product as line total, and the
    name, SKU and first image that the product service reports. *)
Definition lineMatches (w : World) (item : ItemBody) (v : ValidatedItem) : Prop :=
  v_productId v = item_productId item
  /\ v_quantity v = item_quantity item
  /\ v_unitPrice v = item_unitPrice item
  /\ v_totalPrice v = inject_Z (item_quantity item) * item_unitPrice item
  /\ exists product,
       product_get w (item_productId item) = Some product
       /\ v_productName v = name product
       /\ v_productSku v = sku product
       /\ v_productImage v = Js.first (images product).

(** An order-item row carries a validated item for an order. *)
Definition rowCarries (orderId : Z) (v : ValidatedItem) (row : OrderItem.t) : Prop :=
  OrderItem.orderId row = orderId
  /\ OrderItem.productId row = v_productId v
  /\ OrderItem.productName row = v_productName v
  /\ OrderItem.productSku row = v_productSku v
  /\ OrderItem.productImage row = v_productImage v
  /\ OrderItem.quantity row = v_quantity v
  /\ OrderItem.unitPrice row = v_unitPrice v
  /\ OrderItem.totalPrice row = v_totalPrice v.

(** An order-item row is the snapshot of a requested line. *)
Definition rowMatches (w : World) (orderId : Z) (item : ItemBody)
           (row : OrderItem.t) : Prop :=
  OrderItem.orderId row = orderId
  /\ OrderItem.productId row = item_productId item
  /\ OrderItem.quantity row = item_quantity item
  /\ OrderItem.unitPrice row = item_unitPrice item
  /\ OrderItem.totalPrice row = inject_Z (item_quantity item) * item_unitPrice item
  /\ exists product,
       product_get w (item_productId item) = Some product
       /\ OrderItem.productName row = name product
       /\ OrderItem.productSku row = sku product
       /\ OrderItem.productImage row = Js.first (images product).






End Orders.

Section Payments.
Import PaymentService PaymentQueries.

(** What identifies a payment and is fixed when it is created. *)
Definition fixedPart (p : Payment.t)
  : Z * Z * Z * option string * Q * string * PaymentMethod.t :=
  (Payment.id p, Payment.orderId p, Payment.userId p,
   Payment.stripePaymentIntentId p, Payment.amount p, Payment.currency p,
   Payment.paymentMethod p).

(** The ids of the table are distinct and were all handed out by the
    auto-increment. *)
Definition distinctIds (s : State) : Prop :=
  NoDup (map Payment.id (payments s))
  /\ Forall (fun p => (Payment.id p <= paymentSeq s)%Z) (payments s).

(** The payment stored under an id, if any. *)
Definition paymentById (paymentId : Z) (s : State) : option Payment.t :=
  find (fun p => (Payment.id p =? paymentId)%Z) (payments s).

(** The refunds among the requests sent to the gateway. *)
Definition isRefundCall (c : HttpCall) : bool :=
  match c with
  | StripeCreateRefund _ _ => true
  | _ => false
  end.

(** [p'] is a later version of the payment [p]: what was fixed at creation
    is as it was, and the refunded amount has not gone down. *)
Definition evolves (p p' : Payment.t) : Prop :=
  fixedPart p' = fixedPart p
  /\ Payment.refundedAmount p <= Payment.refundedAmount p'.

(** The table of [s'] is the table of [s] with its payments possibly in a
    later version, in the same places, followed by new payments. *)
Definition grownFrom (s s' : State) : Prop :=
  exists kept new,
    payments s' = kept ++ new /\ Forall2 evolves (payments s) kept.

(** What one request does to the table: nothing; or it overwrites the rows
    that have the id of a stored payment with a later version of that
    payment; or it adds one payment under the next id. *)
Definition oneStep (s s' : State) : Prop :=
  (payments s' = payments s /\ paymentSeq s' = paymentSeq s)
  \/ (exists p p',
         In p (payments s)
         /\ evolves p p'
         /\ payments s'
            = map (fun r => if (Payment.id r =? Payment.id p')%Z then p' else r)
                  (payments s)
         /\ paymentSeq s' = paymentSeq s)
  \/ (exists p,
         payments s' = payments s ++ [p]
         /\ Payment.id p = (paymentSeq s + 1)%Z
         /\ paymentSeq s' = Payment.id p).

(** Every entry of the cache holds, under its own id, a payment as the
    table has it. *)
Definition cacheFresh (s : State) : Prop :=
  Forall (fun e => Payment.id (snd e) = fst e /\ In (snd e) (payments s))
         (cache s).


End Payments.

End Facts.

(* ------------------------------------------------------------------ *)
(** ** The cart of the frontend (store/slices/cartSlice.ts) *)

Module CartSlice.

(** [Product] of store/slices/productSlice.ts *)
Record Product : Type := {
  id : string;
  name : string;
  description : string;
  price : Q;
  category : string;
  imageUrl : string;
  stock : Q;
  rating : Q;
  reviews : Q
}.

Record CartItem : Type := { product : Product; quantity : Q }.

Record CartState : Type := {
  items : list CartItem;
  total : Q;
  itemCount : Q
}.

(** What localStorage holds under the key 'cart': nothing, or the items as
    the slice wrote them last with [JSON.stringify]. *)
Definition LocalStorage : Type := option (list CartItem).

(** [JSON.parse(localStorage.getItem('cart') || '[]')] *)
Definition storedItems (storage : LocalStorage) : list CartItem :=
  match storage with
  | Some l => l
  | None => []
  end.

Definition initialState (storage : LocalStorage) : CartState :=
  {| items := storedItems storage; total := 0; itemCount := 0 |}.

Definition calculateTotals (items : list CartItem) : Q * Q :=
  (fold_left (fun sum item => sum + price (product item) * quantity item) items 0,
   fold_left (fun sum item => sum + quantity item) items 0).

(** The state the slice starts from when the page is loaded:
    [{ ...initialState, ...calculateTotals(initialState.items) }]. *)
Definition sliceInitialState (storage : LocalStorage) : CartState :=
  let st := initialState storage in
  let totals := calculateTotals (items st) in
  {| items := items st; total := fst totals; itemCount := snd totals |}.

(** [item.product.id === i] *)
Definition hasId (i : string) (item : CartItem) : bool :=
  String.eqb (id (product item)) i.

(** An assignment to a field of the item that [find] returned: the first
    item that passes [f] is changed in place. *)
Fixpoint assignFirst (f : CartItem -> bool) (g : CartItem -> CartItem)
         (l : list CartItem) : list CartItem :=
  match l with
  | [] => []
  | item :: rest =>
      if f item then g item :: rest else item :: assignFirst f g rest
  end.

Definition set_quantity (item : CartItem) (q : Q) : CartItem :=
  {| product := product item; quantity := q |}.

(** The reducers work on the state of the slice and on localStorage. *)
Definition addToCart (payload : Product) (st : CartState * LocalStorage)
  : CartState * LocalStorage :=
  let state := fst st in
  let existingItem := find (hasId (id payload)) (items state) in
  let items1 :=
    match existingItem with
    | Some _ =>
        assignFirst (hasId (id payload))
          (fun item => set_quantity item (quantity item + 1)) (items state)
    | None => items state ++ [ {| product := payload; quantity := 1 |} ]
    end in
  let totals := calculateTotals items1 in
  ({| items := items1; total := fst totals; itemCount := snd totals |},
   Some items1).

Definition removeFromCart (payload : string) (st : CartState * LocalStorage)
  : CartState * LocalStorage :=
  let state := fst st in
  let items1 := filter (fun item => negb (hasId payload item)) (items state) in
  let totals := calculateTotals items1 in
  ({| items := items1; total := fst totals; itemCount := snd totals |},
   Some items1).

Definition updateQuantity (payload_id : string) (payload_quantity : Q)
           (st : CartState * LocalStorage) : CartState * LocalStorage :=
  let state := fst st in
  let item := find (hasId payload_id) (items state) in
  let items1 :=
    match item with
    | Some _ =>
        if Qle_bool payload_quantity 0 then
          filter (fun item => negb (hasId payload_id item)) (items state)
        else
          assignFirst (hasId payload_id)
            (fun item => set_quantity item payload_quantity) (items state)
    | None => items state
    end in
  let totals := calculateTotals items1 in
  ({| items := items1; total := fst totals; itemCount := snd totals |},
   Some items1).

Definition clearCart (st : CartState * LocalStorage)
  : CartState * LocalStorage :=
  ({| items := []; total := 0; itemCount := 0 |}, None).

(** The actions of the slice and its reducer. *)
Inductive Action : Type :=
| AddToCart (payload : Product)
| RemoveFromCart (payload : string)
| UpdateQuantity (id : string) (quantity : Q)
| ClearCart.

Definition reducer (a : Action) (st : CartState * LocalStorage)
  : CartState * LocalStorage :=
  match a with
  | AddToCart payload => addToCart payload st
  | RemoveFromCart payload => removeFromCart payload st
  | UpdateQuantity i q => updateQuantity i q st
  | ClearCart => clearCart st
  end.

(** The actions dispatched one after the other. *)
Fixpoint reduceAll (acts : list Action) (st : CartState * LocalStorage)
  : CartState * LocalStorage :=
  match acts with
  | [] => st
  | a :: rest => reduceAll rest (reducer a st)
  end.

(** *** Vocabulary *)

(** The product ids of the items, in order. *)
Definition ids (l : list CartItem) : list string :=
  map (fun item => id (product item)) l.

(** No product is listed twice and every quantity is positive. *)
Definition wellFormed (l : list CartItem) : Prop :=
  NoDup (ids l) /\ Forall (fun item => 0 < quantity item) l.

(** The product under which an added product is counted: the one already
    in the cart under its id, if any. *)
Definition countedAs (payload : Product) (l : list CartItem) : Product :=
  match find (hasId (id payload)) l with
  | Some item => product item
  | None => payload
  end.

End CartSlice.

Module CartExamples.
Import CartSlice.

Definition laptop : Product :=
  {| id := "p-1"; name := "Laptop"; description := "A laptop";
     price := 99999 # 100; category := "computers"; imageUrl := "";
     stock := 10; rating := 4; reviews := 12 |}.

Definition mouse : Product :=
  {| id := "p-2"; name := "Mouse"; description := "A mouse";
     price := 1999 # 100; category := "accessories"; imageUrl := "";
     stock := 50; rating := 5; reviews := 3 |}.

(** An empty cart on a browser that never stored one. *)
Definition fresh : CartState * LocalStorage :=
  (sliceInitialState None, None).

End CartExamples.


(* ------------------------------------------------------------------ *)
(** ** The product service (models/Product.ts, routes/products.ts) *)

Module ProductService.

Import Http.
Local Open Scope handler_scope.

(** *** models/Product.ts *)

Module Product.

Record t : Type := {
  id : string;
  name : string;
  description : string;
  price : Q;
  categoryId : string;
  sku : string;
  stock : Q;
  imageUrl : option string;
  images : option (list string);
  rating : Q;
  reviewCount : Z;
  isActive : bool;
  weight : option Q;
  dimensions : option (Q * Q * Q);
  tags : option (list string)
}.

Definition set_stock (p : t) (n : Q) : t :=
  {| id := id p; name := name p; description := description p;
     price := price p; categoryId := categoryId p; sku := sku p;
     stock := n; imageUrl := imageUrl p; images := images p;
     rating := rating p; reviewCount := reviewCount p;
     isActive := isActive p; weight := weight p;
     dimensions := dimensions p; tags := tags p |}.

Definition set_isActive (p : t) (b : bool) : t :=
  {| id := id p; name := name p; description := description p;
     price := price p; categoryId := categoryId p; sku := sku p;
     stock := stock p; imageUrl := imageUrl p; images := images p;
     rating := rating p; reviewCount := reviewCount p;
     isActive := b; weight := weight p;
     dimensions := dimensions p; tags := tags p |}.

(** [Math.max(a, b)] *)
Definition Math_max (a b : Q) : Q := if Qle_bool a b then b else a.

Definition isInStock (p : t) : bool := Js.gt (stock p) 0.

Definition updateStock (p : t) (quantity : Q) : t :=
  set_stock p (Math_max 0 (stock p + quantity)).

Definition calculateDiscountPrice (p : t) (discountPercent : Q) : Q :=
  price p * (1 - discountPercent / 100).

End Product.

(** *** State of the service *)

(** What [error.name] and [error.statusCode] tell the error handler. *)
Inductive ServerError : Type :=
| SequelizeValidationError
| SequelizeUniqueConstraintError
| OtherError (statusCode : option Z).

(** Outcome of the store and cache calls during one request:
    [update_error] is the error with which [product.update] is rejected, if
    it is. *)
Record World : Type := {
  update_error : option ServerError;
  redis_ok : bool
}.

(** What a key of the cache holds: a product ([product:<id>]) or the page
    of a listing ([products:<query>]). *)
Inductive Cached : Type :=
| OneProduct (p : Product.t)
| Listing (rows : list Product.t).

Record State : Type := {
  products : list Product.t;          (* table products *)
  cache : list (string * Cached)      (* redis *)
}.

(** Bodies of the responses. *)
Inductive Reply : Type :=
| Message (message : string)
| WithProduct (message : string) (product : Product.t)
| Plain (json : Cached)          (* res.json(product), res.json(JSON.parse(..)) *)
| Failure.                       (* { message: error.message } of errorHandler *)

Definition M := Http.M State (Response Reply).

Definition update_product (p : Product.t) (s : State) : State :=
  {| products := map (fun r => if String.eqb (Product.id r) (Product.id p)
                               then p else r) (products s);
     cache := cache s |}.

Definition set_cache (c : list (string * Cached)) (s : State) : State :=
  {| products := products s; cache := c |}.

(** [redisClient.get(key)] *)
Definition redis_get (w : World) (key : string) : M (option Cached) :=
  if redis_ok w then
    gets (fun s =>
      match find (fun e => String.eqb (fst e) key) (cache s) with
      | Some e => Some (snd e)
      | None => None
      end)
  else throw CacheError.

(** [redisClient.setEx(key, ttl, JSON.stringify(v))] *)
Definition redis_setEx (w : World) (key : string) (v : Cached) : M unit :=
  if redis_ok w then
    modify (fun s =>
      set_cache ((key, v) :: filter (fun e => negb (String.eqb (fst e) key))
                                    (cache s)) s)
  else throw CacheError.

(** [redisClient.del(key)]: the key itself, no pattern. *)
Definition redis_del (w : World) (key : string) : M unit :=
  if redis_ok w then
    modify (fun s =>
      set_cache (filter (fun e => negb (String.eqb (fst e) key)) (cache s)) s)
  else throw CacheError.

(** [Product.findByPk(id)] *)
Definition Product_findByPk (id : string) : M (option Product.t) :=
  gets (fun s => find (fun p => String.eqb (Product.id p) id) (products s)).

(** [Product.findOne({ where: { id, isActive: true }, include: [{ model:
    Category, as: 'category', .. }] })].  No association between Product
    and Category is declared (models/Product.ts declares none, and
    models/Category.ts only those of Category with itself), so Sequelize
    rejects the query before it reads a row. *)
Definition Product_findOne_active_with_category (id : string)
  : M (option Product.t) :=
  throw StoreError.

(** middleware/errorHandler.ts: the response to an error passed to
    [next]. *)
Definition errorHandler (error : ServerError) : Response Reply :=
  match error with
  | SequelizeValidationError => Resp 400 (Json (Message "Validation error"))
  | SequelizeUniqueConstraintError =>
      Resp 409 (Json (Message "Resource already exists"))
  | OtherError statusCode =>
      Resp (match statusCode with
            | Some c => if (c =? 0)%Z then 500 else c
            | None => 500
            end)
           (Json Failure)
  end.

(** [product.update(values)]; a rejection leaves the handler through
    [catch (error) { next(error) }]. *)
Definition Product_update (w : World) (p' : Product.t) : M Product.t :=
  match update_error w with
  | None =>
      modify (update_product p') ;;;
      ret p'
  | Some error => respond (errorHandler error)
  end.

(** [try { body } catch (error) { next(error) }] for the errors of redis,
    which carry no status code. *)
Definition errorHandled (m : M (Response Reply)) : State -> Response Reply * State :=
  fun s =>
    match m s with
    | (Ok r, s') => (r, s')
    | (Return r, s') => (r, s')
    | (Throw _, s') => (errorHandler (OtherError None), s')
    end.

(** *** GET /api/products/:id *)

Definition getProduct (w : World) (id : string)
  : State -> Response Reply * State :=
  errorHandled
    (let cacheKey := ("product:" ++ id)%string in
     cachedProduct <- redis_get w cacheKey ;;
     match cachedProduct with
     | Some json => respond (Resp 200 (Json (Plain json)))
     | None =>
         product <- Product_findOne_active_with_category id ;;
         match product with
         | None => respond (Resp 404 (Json (Message "Product not found")))
         | Some product =>
             redis_setEx w cacheKey (OneProduct product) ;;;
             ret (Resp 200 (Json (Plain (OneProduct product))))
         end
     end).

(** *** DELETE /api/products/:id *)

Definition deleteProduct (w : World) (id : string)
  : State -> Response Reply * State :=
  errorHandled
    (product <- Product_findByPk id ;;
     match product with
     | None => respond (Resp 404 (Json (Message "Product not found")))
     | Some product =>
         Product_update w (Product.set_isActive product false) ;;;
         redis_del w ("product:" ++ id) ;;;
         redis_del w "products:*" ;;;
         ret (Resp 200 (Json (Message "Product deleted successfully")))
     end).

(** *** PUT /api/products/:id/stock *)

(** [quantity] is [None] when the body carries no number there
    ([typeof quantity !== 'number']); [operation] is [None] when the body
    has none. *)
Record StockBody : Type := {
  sb_quantity : option Q;
  sb_operation : option string
}.

Definition putStock (w : World) (id : string) (b : StockBody)
  : State -> Response Reply * State :=
  errorHandled
    (let operation :=
       match sb_operation b with Some o => o | None => "set"%string end in
     match sb_quantity b with
     | None => respond (Resp 400 (Json (Message "Invalid quantity")))
     | Some quantity =>
         if Js.lt quantity 0 then
           respond (Resp 400 (Json (Message "Invalid quantity")))
         else
           product <- Product_findByPk id ;;
           match product with
           | None => respond (Resp 404 (Json (Message "Product not found")))
           | Some product =>
               newStock <-
                 (if String.eqb operation "add" then
                    ret (Product.stock product + quantity)
                  else if String.eqb operation "subtract" then
                    ret (Product.Math_max 0 (Product.stock product - quantity))
                  else if String.eqb operation "set" then ret quantity
                  else respond (Resp 400 (Json (Message "Invalid operation")))) ;;
               product' <- Product_update w (Product.set_stock product newStock) ;;
               redis_del w ("product:" ++ id) ;;;
               redis_del w "products:*" ;;;
               ret (Resp 200
                      (Json (WithProduct "Stock updated successfully" product')))
           end
     end).

(** *** Requests in sequence *)

Inductive Request : Type :=
| GetProduct (w : World) (id : string)
| DeleteProduct (w : World) (id : string)
| PutStock (w : World) (id : string) (b : StockBody).

Definition after (r : Request) (s : State) : State :=
  match r with
  | GetProduct w id => snd (getProduct w id s)
  | DeleteProduct w id => snd (deleteProduct w id s)
  | PutStock w id b => snd (putStock w id b s)
  end.

Fixpoint afterAll (rs : list Request) (s : State) : State :=
  match rs with
  | [] => s
  | r :: rest => afterAll rest (after r s)
  end.

(** *** Vocabulary *)

(** No product has a negative stock. *)
Definition stocked (s : State) : Prop :=
  Forall (fun p => 0 <= Product.stock p) (products s).

(** The product stored under an id, if any. *)
Definition productById (id : string) (s : State) : option Product.t :=
  find (fun p => String.eqb (Product.id p) id) (products s).

(** *** Examples *)

Definition calm : World := {| update_error := None; redis_ok := true |}.

(** A laptop with the given stock. *)
Definition laptop (stock : Q) (active : bool) : Product.t :=
  {| Product.id := "p-1"; Product.name := "Laptop";
     Product.description := "A laptop"; Product.price := 99999 # 100;
     Product.categoryId := "c-1"; Product.sku := "LAP-1";
     Product.stock := stock; Product.imageUrl := None; Product.images := None;
     Product.rating := 4; Product.reviewCount := 12;
     Product.isActive := active; Product.weight := None;
     Product.dimensions := None; Product.tags := None |}.

Definition shelf (stock : Q) : State :=
  {| products := [laptop stock true]; cache := [] |}.

Definition change (quantity : Q) (operation : string) : StockBody :=
  {| sb_quantity := Some quantity; sb_operation := Some operation |}.

End ProductService.


(* ------------------------------------------------------------------ *)
(** ** JavaScript numbers as binary64 doubles *)

(** The handlers above compute with exact rationals.  A JavaScript
    [number] is a binary64 double: this module gives its arithmetic (IEEE
    754, round to nearest, ties to even), and the two modules that follow
    give on it the amounts of an order (routes/orders.ts) and the refund of
    a payment (models/Payment.ts, routes/payments.ts). *)

Module Binary64.

Definition prec : Z := 53.
Definition emax : Z := 1024.

Definition number : Type := spec_float.

(** [a + b], [a - b], [a * b], [a / b] *)
Definition add : number -> number -> number := SFadd prec emax.
Definition sub : number -> number -> number := SFsub prec emax.
Definition mul : number -> number -> number := SFmul prec emax.
Definition div : number -> number -> number := SFdiv prec emax.

(** The double of a whole number. *)
Definition ofZ (n : Z) : number := binary_normalize prec emax n 0 false.

(** The double that the decimal numeral [m] x 10^-[k] denotes, in the
    source or in a JSON body: the double nearest to it, for [m] and 10^[k]
    below 2^53. *)
Definition literal (m : Z) (k : positive) : number :=
  div (ofZ m) (ofZ (Z.pow_pos 10 k)).

(** [a < b], [a > b], [a >= b] *)
Definition lt (a b : number) : bool := SFltb a b.
Definition gt (a b : number) : bool := SFltb b a.
Definition ge (a b : number) : bool := SFleb b a.

(** The rational that a finite double is. *)
Definition toQ (x : number) : Q :=
  match x with
  | S754_finite s m e =>
      let n := if s then Z.neg m else Z.pos m in
      if (0 <=? e)%Z then inject_Z (n * 2 ^ e) else n # (2 ^ Z.to_pos (- e))
  | _ => 0
  end.

(** [Math.round(x)]: the nearest integer, ties towards +infinity (the sign
    of a zero result is not kept). *)
Definition Math_round (x : number) : number :=
  match x with
  | S754_finite s m e =>
      if (0 <=? e)%Z then x
      else
        let n := if s then Z.neg m else Z.pos m in
        ofZ ((2 * n + 2 ^ (- e)) / 2 ^ (- e + 1))
  | _ => x
  end.

(** Truthiness of a number: [0], [-0] and [NaN] are falsy. *)
Definition truthy (x : number) : bool :=
  match x with
  | S754_zero _ | S754_nan => false
  | _ => true
  end.

(** [a || b] where [a] may be [undefined]. *)
Definition or_else (a : option number) (b : number) : number :=
  match a with
  | Some x => if truthy x then x else b
  | None => b
  end.

End Binary64.

(** *** The amounts of POST /api/orders (routes/orders.ts) *)

Module OrderService64.

Import Binary64.

(** [quantity] and [unitPrice] of an item of the request. *)
Record ItemBody : Type := {
  item_quantity : Z;
  item_unitPrice : number
}.

Definition calculateTax (subtotal taxRate : number) : number :=
  div (Math_round (mul (mul subtotal taxRate) (ofZ 100))) (ofZ 100).

Definition defaultTaxRate : number := literal 8 2.

Definition calculateShipping (subtotal : number) (items : list ItemBody)
  : number :=
  if ge subtotal (ofZ 100) then ofZ 0
  else
    let baseRate := literal 999 2 in
    let perItemRate := literal 299 2 in
    add baseRate
        (mul (sub (ofZ (Z.of_nat (List.length items))) (ofZ 1)) perItemRate).

(** [subtotal] along the loop over the items, for items that are all
    found and in stock. *)
Fixpoint itemLoop (items : list ItemBody) (subtotal : number) : number :=
  match items with
  | [] => subtotal
  | item :: rest =>
      let totalPrice := mul (ofZ (item_quantity item)) (item_unitPrice item) in
      itemLoop rest (add subtotal totalPrice)
  end.

(** The amounts passed to [Order.create]. *)
Record Amounts : Type := {
  totalAmount : number;
  subtotal : number;
  taxAmount : number;
  shippingAmount : number;
  discountAmount : number
}.

Definition amounts (items : list ItemBody) : Amounts :=
  let subtotal := itemLoop items (ofZ 0) in
  let taxAmount := calculateTax subtotal defaultTaxRate in
  let shippingAmount := calculateShipping subtotal items in
  let discountAmount := ofZ 0 in
  let totalAmount :=
    sub (add (add subtotal taxAmount) shippingAmount) discountAmount in
  {| totalAmount := totalAmount; subtotal := subtotal; taxAmount := taxAmount;
     shippingAmount := shippingAmount; discountAmount := discountAmount |}.

(** [quantity] x the price [m] x 10^-[k]. *)
Definition line (quantity m : Z) (k : positive) : ItemBody :=
  {| item_quantity := quantity; item_unitPrice := literal m k |}.

End OrderService64.

(** *** The refund of a payment (models/Payment.ts, routes/payments.ts) *)

Module PaymentService64.

Import Binary64.

Module PaymentStatus := PaymentService.PaymentStatus.

Module Payment.

(** The fields of a payment that a refund reads and writes. *)
Record t : Type := {
  amount : number;
  status : PaymentStatus.t;
  refundedAmount : number
}.

Definition canBeRefunded (p : t) : bool :=
  PaymentStatus.eqb (status p) PaymentStatus.SUCCEEDED
  && lt (refundedAmount p) (amount p).

Definition getRemainingRefundableAmount (p : t) : number :=
  sub (amount p) (refundedAmount p).

(** The assignments of [addRefund], before [this.save()]. *)
Definition addRefund_fields (p : t) (refundAmount : number) : t :=
  let refundedAmount' := add (refundedAmount p) refundAmount in
  {| amount := amount p;
     status := if ge refundedAmount' (amount p)
               then PaymentStatus.REFUNDED
               else PaymentStatus.PARTIALLY_REFUNDED;
     refundedAmount := refundedAmount' |}.

End Payment.

(** What POST /api/payments/:id/refund does with the payment it found,
    when the gateway accepts the refund and the store the write: the
    refusal, or the cents sent to the gateway and the payment saved. *)
Inductive RefundOutcome : Type :=
| CannotBeRefunded            (* 400 Payment cannot be refunded *)
| ExceedsRemaining            (* 400 Refund amount exceeds remaining .. *)
| Refunded (cents : number) (payment : Payment.t).

Definition refund (amount : option number) (payment : Payment.t)
  : RefundOutcome :=
  if negb (Payment.canBeRefunded payment) then CannotBeRefunded
  else
    let refundAmount :=
      or_else amount (Payment.getRemainingRefundableAmount payment) in
    if gt refundAmount (Payment.getRemainingRefundableAmount payment)
    then ExceedsRemaining
    else Refunded (Math_round (mul refundAmount (ofZ 100)))
                  (Payment.addRefund_fields payment refundAmount).

(** [payment.status = PaymentStatus.SUCCEEDED] of the confirm route, for an
    intent that the gateway reports as succeeded, and of
    [handlePaymentIntentSucceeded]; neither writes [refundedAmount]. *)
Definition succeeded (p : Payment.t) : Payment.t :=
  {| Payment.amount := Payment.amount p;
     Payment.status := PaymentStatus.SUCCEEDED;
     Payment.refundedAmount := Payment.refundedAmount p |}.

(** A payment of [m] x 10^-[k] that succeeded, nothing refunded. *)
Definition paid (m : Z) (k : positive) : Payment.t :=
  {| Payment.amount := literal m k;
     Payment.status := PaymentStatus.SUCCEEDED;
     Payment.refundedAmount := ofZ 0 |}.

End PaymentService64.


(* ------------------------------------------------------------------ *)
(** ** Lemmas on lists and on the handler monad *)

Section Lists.

Variable A : Type.

(** Looking up again after the rows selected by [h] were overwritten with
    [o'], which the lookup accepts. *)
Lemma find_overwrite (f h : A -> bool) (o o' : A) (l : list A) :
  find f l = Some o -> h o = true -> f o' = true ->
  find f (map (fun r => if h r then o' else r) l) = Some o'.
Proof.
  intros Hfind Hh Hf. induction l as [|r l IH]; simpl in *; [discriminate|].
  destruct (f r) eqn:Hfr.
  - injection Hfind as ->. rewrite Hh, Hf. reflexivity.
  - destruct (h r); [rewrite Hf; reflexivity|].
    rewrite Hfr. apply IH, Hfind.
Qed.

Lemma find_some_in (f : A -> bool) (o : A) (l : list A) :
  find f l = Some o -> In o l /\ f o = true.
Proof. apply find_some. Qed.

(** Overwriting twice with the same row is overwriting once. *)
Lemma overwrite_twice (h : A -> bool) (o : A) (l : list A) :
  h o = true ->
  map (fun r => if h r then o else r) (map (fun r => if h r then o else r) l)
  = map (fun r => if h r then o else r) l.
Proof.
  intros Hh. rewrite map_map. apply map_ext. intros r.
  destruct (h r) eqn:E; [rewrite Hh|rewrite E]; reflexivity.
Qed.

Lemma filter_twice (f : A -> bool) (l : list A) :
  filter f (filter f l) = filter f l.
Proof.
  induction l as [|a l IH]; simpl; [reflexivity|].
  destruct (f a) eqn:E; simpl; [rewrite E, IH|]; auto.
Qed.

End Lists.

(* ------------------------------------------------------------------ *)
(** ** Properties of the order service *)

Section OrderProperties.

Import Http Auth OrderService.

Ltac run :=
  unfold handler, bind, ret, respond, throw, modify, gets, swallow in *;
  simpl in *.

Ltac splits := repeat match goal with |- _ /\ _ => split end.

Lemma canBeCancelled_iff (o : Order.t) :
  Order.canBeCancelled o = true
  <-> Order.status o = OrderStatus.PENDING \/ Order.status o = OrderStatus.CONFIRMED.
Proof.
  unfold Order.canBeCancelled. destruct (Order.status o); simpl;
    split; intros H; try discriminate; auto;
    destruct H as [H|H]; discriminate.
Qed.

Lemma visibleOrder_after_save (user : User) (orderId : Z) (s : State)
      (order order' : Order.t) :
  Spec.visibleOrder user orderId s = Some order ->
  Order.id order' = Order.id order ->
  Order.userId order' = Order.userId order ->
  Spec.visibleOrder user orderId (update_order order' s) = Some order'.
Proof.
  unfold Spec.visibleOrder, update_order. simpl. intros Hf Hid Hu.
  destruct (find_some_in _ _ Hf) as [_ Hacc].
  apply find_overwrite with (o := order); auto.
  - rewrite Hid. apply Z.eqb_refl.
  - rewrite Hid, Hu. exact Hacc.
Qed.

(** C4 (as amended).  An order that is neither pending nor confirmed, which
    covers the terminal statuses, rejects the cancel operation and a
    generic update to [cancelled], and nothing changes; any other status
    asked of the generic update is written as it is. *)
Theorem C4_only_cancellation_is_guarded
        (w : World) (user : User) (orderId : Z) (s : State) (order : Order.t) :
  Spec.visibleOrder user orderId s = Some order ->
  Order.status order <> OrderStatus.PENDING ->
  Order.status order <> OrderStatus.CONFIRMED ->
  cancelOrder w user orderId s = (Resp 400 (Error "Order cannot be cancelled"), s)
  /\ (forall b,
        updateOrderValidation orderId b = true ->
        upd_status b = Some OrderStatus.CANCELLED ->
        updateOrder w user orderId b s
        = (Resp 400 (Error "Order cannot be cancelled"), s))
  /\ (forall b st,
        updateOrderValidation orderId b = true ->
        upd_status b = Some st -> st <> OrderStatus.CANCELLED ->
        save_ok w = true -> redis_ok w = true ->
        exists o',
          code (fst (updateOrder w user orderId b s)) = 200%Z
          /\ Spec.visibleOrder user orderId (snd (updateOrder w user orderId b s))
             = Some o'
          /\ Order.status o' = st).
Proof.
  intros Hvis Hp Hc.
  assert (Hcan : Order.canBeCancelled order = false).
  { destruct (Order.canBeCancelled order) eqn:E; [|reflexivity].
    apply canBeCancelled_iff in E. tauto. }
  unfold Spec.visibleOrder in Hvis.
  split; [|split].
  - unfold cancelOrder, Order_findOne. run. rewrite Hvis, Hcan. reflexivity.
  - intros b Hval Hst. unfold updateOrder, Order_findOne. run.
    rewrite Hval. simpl. rewrite Hvis, Hst, Hcan. reflexivity.
  - intros b st Hval Hst Hne Hsave Hredis.
    unfold updateOrder, Order_findOne, Order_save, redis_del. run.
    rewrite Hval. simpl. rewrite Hvis, Hst.
    assert (E : OrderStatus.eqb st OrderStatus.CANCELLED = false)
      by (destruct st; try reflexivity; congruence).
    rewrite E, Hsave, Hredis. simpl.
    eexists. split; [reflexivity|]. split.
    + apply (visibleOrder_after_save user orderId s (order := order)).
      * exact Hvis.
      * destruct (upd_paymentStatus b), (upd_notes b); reflexivity.
      * destruct (upd_paymentStatus b), (upd_notes b); reflexivity.
    + destruct (upd_paymentStatus b), (upd_notes b); reflexivity.
Qed.

(** C4 (counterexample).  Order 1 is delivered, a terminal status; its owner
    asks the generic update for [pending]: the answer is 200 and the stored
    status is [pending]. *)
Lemma C4_counterexample :
  let s := Examples.Orders.with1 OrderStatus.DELIVERED PaymentStatus.PAID in
  let r := updateOrder Examples.Orders.calm Examples.alice 1
             (Examples.Orders.change (Some OrderStatus.PENDING) None) s in
  map Order.status (orders s) = [OrderStatus.DELIVERED]
  /\ code (fst r) = 200%Z
  /\ map Order.status (orders (snd r)) = [OrderStatus.PENDING].
Proof. repeat split. Qed.

(** C5 (as amended).  The generic update writes the payment status that the
    request carries, for any caller to whom the order is visible, and keeps
    the stored one when the request carries none. *)
Theorem C5_update_writes_paymentStatus
        (w : World) (user : User) (orderId : Z) (b : UpdateOrderBody)
        (s : State) (order : Order.t) :
  updateOrderValidation orderId b = true ->
  Spec.visibleOrder user orderId s = Some order ->
  (upd_status b = Some OrderStatus.CANCELLED -> Order.canBeCancelled order = true) ->
  save_ok w = true -> redis_ok w = true ->
  exists o',
    code (fst (updateOrder w user orderId b s)) = 200%Z
    /\ Spec.visibleOrder user orderId (snd (updateOrder w user orderId b s)) = Some o'
    /\ Order.paymentStatus o'
       = match upd_paymentStatus b with
         | Some requested => requested
         | None => Order.paymentStatus order
         end.
Proof.
  intros Hval Hvis Hcan Hsave Hredis.
  unfold updateOrder, Order_findOne, Order_save, redis_del. run.
  rewrite Hval. simpl. unfold Spec.visibleOrder in Hvis. rewrite Hvis.
  assert (Hguard :
            match upd_status b with
            | Some st => OrderStatus.eqb st OrderStatus.CANCELLED
                         && negb (Order.canBeCancelled order)
            | None => false
            end = false).
  { destruct (upd_status b) as [st|]; [|reflexivity].
    destruct st; try reflexivity. rewrite Hcan; reflexivity. }
  destruct (upd_status b) as [st|]; [rewrite Hguard|];
    rewrite Hsave, Hredis; simpl;
    (eexists; split; [reflexivity|]; split;
     [ apply (visibleOrder_after_save user orderId s (order := order));
       [exact Hvis | |];
       destruct (upd_paymentStatus b), (upd_notes b); reflexivity
     | destruct (upd_paymentStatus b), (upd_notes b); reflexivity ]).
Qed.

(** C5 (counterexample).  A customer asks the generic update to mark their own
    unpaid order as paid: the answer is 200 and the stored payment status is
    [paid], without any payment. *)
Lemma C5_counterexample :
  let s := Examples.Orders.with1 OrderStatus.PENDING PaymentStatus.PENDING in
  let r := updateOrder Examples.Orders.calm Examples.alice 1
             (Examples.Orders.change None (Some PaymentStatus.PAID)) s in
  isAdmin Examples.alice = false
  /\ map Order.paymentStatus (orders s) = [PaymentStatus.PENDING]
  /\ code (fst r) = 200%Z
  /\ map Order.paymentStatus (orders (snd r)) = [PaymentStatus.PAID].
Proof. repeat split. Qed.

(** *** The loop over the requested items *)

Lemma logged_nil (s : State) : Spec.logged [] s = s.
Proof. destruct s. unfold Spec.logged. simpl. rewrite app_nil_r. reflexivity. Qed.

Lemma logged_app (c1 c2 : list HttpCall) (s : State) :
  Spec.logged c2 (Spec.logged c1 s) = Spec.logged (c1 ++ c2) s.
Proof. unfold Spec.logged. simpl. rewrite app_assoc. reflexivity. Qed.

Lemma log_append_inv (l c1 c2 : list HttpCall) : l ++ c1 = l ++ c2 -> c1 = c2.
Proof. apply app_inv_head. Qed.

(** The loop only adds to the log of requests.  It ends normally exactly
    when every item is in stock, with the running sum of the line totals;
    it returns early with the insufficient-stock response and never after a
    stock request failed without doing so. *)
Lemma itemLoop_spec (w : World) (items : list ItemBody) :
  forall (acc : list ValidatedItem) (sub : Q) (s : State),
  exists calls,
    snd (itemLoop w items acc sub s) = Spec.logged calls s
    /\ match fst (itemLoop w items acc sub s) with
       | Ok (v, sub') =>
           forallb (Spec.inStock w) items = true
           /\ sub' == sub + Spec.lineSum items
           /\ List.length v = (List.length acc + List.length items)%nat
           /\ existsb Spec.stockFailure calls = false
       | Return r =>
           Spec.insufficientStock r /\ forallb (Spec.inStock w) items = false
       | Throw _ =>
           existsb Spec.stockFailure calls = false
           /\ forallb (Spec.inStock w) items = false
       end.
Proof.
  induction items as [|item rest IH]; intros acc sub s.
  - exists []. rewrite logged_nil. simpl. splits; auto.
    unfold Spec.lineSum. ring.
  - simpl. unfold validateAndGetProductDetails, checkProductStock, Spec.inStock.
    destruct (product_get w (item_productId item)) as [product|] eqn:Hp.
    + destruct (stock_get w (item_productId item)) as [stock|] eqn:Hs.
      * run. unfold Js.ge.
        destruct (Qle_bool (inject_Z (item_quantity item)) stock) eqn:Hq; simpl.
        -- match goal with
           | |- context [itemLoop w rest ?a ?b ?t] =>
               destruct (IH a b t) as [calls [Hst Hout]];
               destruct (itemLoop w rest a b t) as [[[v sub']|r|e] s1] eqn:Hrun
           end; simpl in *; subst s1;
           exists ([GetProduct (item_productId item) true;
                    GetStock (item_productId item) (Some stock)] ++ calls);
           (split; [unfold log; rewrite <- logged_app; unfold Spec.logged;
                    simpl; rewrite <- !app_assoc; reflexivity|]).
           ++ destruct Hout as [Hall [Hsum [Hlen Hnf]]]. splits; auto.
              ** rewrite Hsum. ring.
              ** rewrite Hlen, length_app. simpl. lia.
           ++ exact Hout.
           ++ exact Hout.
        -- exists [GetProduct (item_productId item) true;
                   GetStock (item_productId item) (Some stock)].
           split; [unfold log, Spec.logged; simpl; rewrite <- app_assoc; reflexivity|].
           split; [eexists; reflexivity|reflexivity].
      * run.
        exists [GetProduct (item_productId item) true;
                GetStock (item_productId item) None].
        split; [unfold log, Spec.logged; simpl; rewrite <- app_assoc; reflexivity|].
        split; [eexists; reflexivity|reflexivity].
    + run. exists [GetProduct (item_productId item) false].
      split; [reflexivity|]. split; reflexivity.
Qed.

Lemma forallb_filter_id (A : Type) (f : A -> bool) (l : list A) :
  forallb f l = true -> filter f l = l.
Proof.
  induction l as [|a l IH]; simpl; [reflexivity|].
  destruct (f a); simpl; [intros H; rewrite IH; auto|discriminate].
Qed.

(** *** The inserts of the order items *)

(** Every insert is attempted.  The rows written are those the store
    accepted, all carry the order's id, and no other table is touched;
    [Promise.all] resolves exactly when the store accepted all of them. *)
Lemma createItems_spec (w : World) (oid : Z) (vitems : list ValidatedItem) :
  forall (k : nat) (s : State),
  exists rs rows s',
    createItems w k oid vitems s = (Ok rs, s')
    /\ orders s' = orders s
    /\ orderItems s' = orderItems s ++ rows
    /\ orderSeq s' = orderSeq s
    /\ cache s' = cache s
    /\ httpLog s' = httpLog s
    /\ Forall (fun r => OrderItem.orderId r = oid) rows
    /\ List.length rows
       = List.length (filter (OrderItem_create_ok w) (seq k (List.length vitems)))
    /\ (forall l, all_fulfilled rs = Some l ->
          l = rows
          /\ forallb (OrderItem_create_ok w) (seq k (List.length vitems)) = true)
    /\ (all_fulfilled rs = None ->
          forallb (OrderItem_create_ok w) (seq k (List.length vitems)) = false).
Proof.
  induction vitems as [|item rest IH]; intros k s.
  - exists [], [], s. simpl. rewrite app_nil_r. splits; auto.
    + intros l H. injection H as <-. split; reflexivity.
    + discriminate.
  - simpl. unfold OrderItem_create.
    destruct (OrderItem_create_ok w k) eqn:Hok; run.
    + match goal with
      | |- context [createItems w (S k) oid rest ?t] =>
          destruct (IH (S k) t) as
            (rs & rows & s' & Hrun & Ho & Hi & Hseq & Hc & Hl & Hall & Hlen & Hs & Hn);
          rewrite Hrun
      end.
      simpl in *.
      match type of Hi with
      | _ = (_ ++ [?row]) ++ _ => exists (Some row :: rs), (row :: rows), s'
      end.
      splits; try assumption; try reflexivity.
      * rewrite Hi, <- app_assoc. reflexivity.
      * constructor; [reflexivity|exact Hall].
      * simpl. rewrite Hlen. reflexivity.
      * intros l H. simpl in H.
        destruct (all_fulfilled rs) as [l'|] eqn:E; [|discriminate].
        injection H as <-. destruct (Hs l' eq_refl) as [-> Hf].
        simpl. rewrite ?Hok. split; auto.
      * intros H. simpl in H.
        destruct (all_fulfilled rs) as [l'|] eqn:E; [discriminate|].
        simpl. rewrite ?Hok. auto.
    + destruct (IH (S k) s) as
        (rs & rows & s' & Hrun & Ho & Hi & Hseq & Hc & Hl & Hall & Hlen & Hs & Hn).
      rewrite Hrun. exists (None :: rs), rows, s'.
      splits; auto; simpl; rewrite ?Hok; auto; discriminate.
Qed.

(** *** POST /api/orders once the order row is written *)

(** When the request is valid, every item is in stock and the store accepts
    the order row: the row is written with the computed amounts, then the
    items are inserted one by one, and the answer depends on those inserts
    and on the cache only. *)
Lemma createOrder_persisting (w : World) (user : User) (b : CreateOrderBody)
      (s : State) :
  createOrderValidation b = true ->
  forallb (Spec.inStock w) (items b) = true ->
  Order_create_ok w = true ->
  exists o rs rows s2 calls,
    createOrder w user b s
    = match all_fulfilled rs with
      | None => (Resp 500 (Error "Failed to create order"), s2)
      | Some l =>
          if redis_ok w then
            (Resp 201 (Json ("Order created successfully"%string,
                             {| json_order := o; json_items := Some l |})),
             set_cache ((Order.id o, {| json_order := o; json_items := Some l |})
                        :: filter (fun e => negb (fst e =? Order.id o)%Z) (cache s2))
                       s2)
          else (Resp 500 (Error "Failed to create order"), s2)
      end
    /\ Order.subtotal o == Spec.lineSum (items b)
    /\ Order.taxAmount o = calculateTax (Order.subtotal o) defaultTaxRate
    /\ Order.shippingAmount o = calculateShipping (Order.subtotal o) (items b)
    /\ Order.discountAmount o = 0
    /\ Order.totalAmount o
       = Order.subtotal o + Order.taxAmount o + Order.shippingAmount o
         - Order.discountAmount o
    /\ Order.status o = OrderStatus.PENDING
    /\ orders s2 = orders s ++ [o]
    /\ orderItems s2 = orderItems s ++ rows
    /\ httpLog s2 = httpLog s ++ calls
    /\ existsb Spec.stockFailure calls = false
    /\ Forall (fun r => OrderItem.orderId r = Order.id o) rows
    /\ List.length rows
       = List.length (filter (OrderItem_create_ok w)
                             (seq 0 (List.length (items b))))
    /\ (forall l, all_fulfilled rs = Some l ->
          l = rows
          /\ forallb (OrderItem_create_ok w) (seq 0 (List.length (items b))) = true)
    /\ (all_fulfilled rs = None ->
          forallb (OrderItem_create_ok w) (seq 0 (List.length (items b))) = false).
Proof.
  intros Hval Hstock Hoc.
  unfold createOrder, handler, bind. rewrite Hval. simpl.
  destruct (itemLoop_spec w (items b) [] 0 s) as [calls [Hs1 Hout]].
  destruct (itemLoop w (items b) [] 0 s) as [[[v sub]|r|e] s1]; simpl in *;
    [|destruct Hout; congruence|destruct Hout; congruence].
  destruct Hout as (_ & Hsum & Hlen & Hnf). subst s1.
  unfold Order_create. rewrite Hoc. unfold gets, modify, ret. simpl.
  match goal with
  | |- context [createItems w 0 ?oid v ?t] =>
      destruct (createItems_spec w oid v 0 t)
        as (rs & rows & s2 & Hrun & Ho & Hi & Hseq & Hc & Hl & Hall & Hrows & Hs & Hn);
      rewrite Hrun
  end.
  simpl in *. rewrite Hlen in *.
  match type of Ho with
  | _ = _ ++ [?o] => exists o, rs, rows, s2, calls
  end.
  simpl. splits; try assumption; try reflexivity.
  - unfold Promise_all, redis_setex, throw, ret, modify.
    destruct (all_fulfilled rs); [|reflexivity].
    destruct (redis_ok w); reflexivity.
  - rewrite Hsum. ring.
Qed.

(** Nothing is written when the request is invalid, an item is not in stock
    or its product is not found, or the store rejects the order row. *)
Lemma createOrder_no_trace (w : World) (user : User) (b : CreateOrderBody)
      (s : State) :
  createOrderValidation b = false
  \/ forallb (Spec.inStock w) (items b) = false
  \/ Order_create_ok w = false ->
  orders (snd (createOrder w user b s)) = orders s
  /\ orderItems (snd (createOrder w user b s)) = orderItems s
  /\ code (fst (createOrder w user b s)) <> 201%Z.
Proof.
  intros H. unfold createOrder, handler, bind.
  destruct (createOrderValidation b) eqn:Hval; simpl;
    [|splits; auto; discriminate].
  destruct (itemLoop_spec w (items b) [] 0 s) as [calls [Hs1 Hout]].
  destruct (itemLoop w (items b) [] 0 s) as [[[v sub]|r|e] s1]; simpl in *;
    subst s1.
  - destruct Hout as (Hall & _).
    unfold Order_create. destruct (Order_create_ok w) eqn:Hoc.
    + destruct H as [H|[H|H]]; congruence.
    + simpl. splits; auto; discriminate.
  - destruct Hout as [[name ->] _]. simpl. splits; auto; discriminate.
  - simpl. splits; auto; discriminate.
Qed.

(** C1 (as amended).  The order row and the item rows are written by
    separate inserts, the order first.  A failure before the order row is
    written leaves no row behind; an answer 201 means that the order row and
    one item row per requested item, each with the order's id, were written;
    once the order row is written it stays, together with the item rows the
    store accepted, and the answer is 500 when an item insert was rejected. *)
Theorem C1_order_row_then_item_rows
        (w : World) (user : User) (b : CreateOrderBody) (s : State) :
  (createOrderValidation b = false
   \/ forallb (Spec.inStock w) (items b) = false
   \/ Order_create_ok w = false ->
   orders (snd (createOrder w user b s)) = orders s
   /\ orderItems (snd (createOrder w user b s)) = orderItems s
   /\ code (fst (createOrder w user b s)) <> 201%Z)
  /\ (code (fst (createOrder w user b s)) = 201%Z ->
      exists o rows,
        orders (snd (createOrder w user b s)) = orders s ++ [o]
        /\ orderItems (snd (createOrder w user b s)) = orderItems s ++ rows
        /\ List.length rows = List.length (items b)
        /\ Forall (fun r => OrderItem.orderId r = Order.id o) rows)
  /\ (createOrderValidation b = true ->
      forallb (Spec.inStock w) (items b) = true ->
      Order_create_ok w = true ->
      exists o rows,
        orders (snd (createOrder w user b s)) = orders s ++ [o]
        /\ orderItems (snd (createOrder w user b s)) = orderItems s ++ rows
        /\ Forall (fun r => OrderItem.orderId r = Order.id o) rows
        /\ List.length rows
           = List.length (filter (OrderItem_create_ok w)
                                 (seq 0 (List.length (items b))))
        /\ (forallb (OrderItem_create_ok w) (seq 0 (List.length (items b))) = false ->
            code (fst (createOrder w user b s)) = 500%Z)).
Proof.
  assert (Hthird :
    createOrderValidation b = true ->
    forallb (Spec.inStock w) (items b) = true ->
    Order_create_ok w = true ->
    exists o rows,
      orders (snd (createOrder w user b s)) = orders s ++ [o]
      /\ orderItems (snd (createOrder w user b s)) = orderItems s ++ rows
      /\ Forall (fun r => OrderItem.orderId r = Order.id o) rows
      /\ List.length rows
         = List.length (filter (OrderItem_create_ok w)
                               (seq 0 (List.length (items b))))
      /\ (forallb (OrderItem_create_ok w) (seq 0 (List.length (items b))) = false ->
          code (fst (createOrder w user b s)) = 500%Z)
      /\ (code (fst (createOrder w user b s)) = 201%Z ->
          forallb (OrderItem_create_ok w) (seq 0 (List.length (items b))) = true)).
  { intros Hval Hstock Hoc.
    destruct (createOrder_persisting w user b s Hval Hstock Hoc)
      as (o & rs & rows & s2 & calls & Hrun & _ & _ & _ & _ & _ & _
          & Ho & Hi & _ & _ & Hall & Hlen & Hs & Hn).
    exists o, rows. rewrite Hrun.
    destruct (all_fulfilled rs) as [l|] eqn:E.
    - destruct (Hs l eq_refl) as [-> Hok].
      destruct (redis_ok w); simpl; splits; auto; congruence.
    - specialize (Hn eq_refl). simpl. splits; auto; congruence. }
  split; [apply createOrder_no_trace|]. split.
  - intros H201. pose proof (createOrder_no_trace w user b s) as Hne.
    destruct (createOrderValidation b) eqn:Hval;
      [|destruct Hne as (_ & _ & Hne); [auto|contradiction]].
    destruct (forallb (Spec.inStock w) (items b)) eqn:Hstock;
      [|destruct Hne as (_ & _ & Hne); [auto|contradiction]].
    destruct (Order_create_ok w) eqn:Hoc;
      [|destruct Hne as (_ & _ & Hne); [auto|contradiction]].
    destruct (Hthird eq_refl eq_refl eq_refl)
      as (o & rows & Ho & Hi & Hall & Hlen & _ & Hok).
    exists o, rows. splits; auto.
    rewrite Hlen, (forallb_filter_id _ _ (Hok H201)), length_seq. reflexivity.
  - intros Hval Hstock Hoc.
    destruct (Hthird Hval Hstock Hoc) as (o & rows & Ho & Hi & Hall & Hlen & H500 & _).
    exists o, rows. splits; auto.
Qed.

(** C1 (counterexample).  Every product is in stock and the store accepts
    the order row but rejects the item rows: the request is answered 500
    and order 1 is stored without any item. *)
Lemma C1_counterexample :
  let r := createOrder Examples.Orders.itemInsertFails Examples.alice
             Examples.Orders.twoLines Examples.Orders.empty in
  code (fst r) = 500%Z
  /\ map Order.id (orders (snd r)) = [1%Z]
  /\ Spec.itemsOf 1 (snd r) = [].
Proof. repeat split. Qed.

(** Witness of C1's theorem: the rejected request with no line, the
    accepted request of two lines, and the same request when the item
    inserts are rejected. *)
Lemma C1_witness :
  (orders (snd (createOrder Examples.Orders.calm Examples.alice
                  (Examples.Orders.request []) Examples.Orders.empty)) = []
   /\ orderItems (snd (createOrder Examples.Orders.calm Examples.alice
                         (Examples.Orders.request []) Examples.Orders.empty)) = []
   /\ code (fst (createOrder Examples.Orders.calm Examples.alice
                   (Examples.Orders.request []) Examples.Orders.empty)) <> 201%Z)
  /\ (exists o rows,
        orders (snd (createOrder Examples.Orders.calm Examples.alice
                       Examples.Orders.twoLines Examples.Orders.empty)) = [] ++ [o]
        /\ orderItems (snd (createOrder Examples.Orders.calm Examples.alice
                              Examples.Orders.twoLines Examples.Orders.empty))
           = [] ++ rows
        /\ List.length rows = 2%nat
        /\ Forall (fun r => OrderItem.orderId r = Order.id o) rows)
  /\ (exists o rows,
        orders (snd (createOrder Examples.Orders.itemInsertFails Examples.alice
                       Examples.Orders.twoLines Examples.Orders.empty)) = [] ++ [o]
        /\ orderItems (snd (createOrder Examples.Orders.itemInsertFails Examples.alice
                              Examples.Orders.twoLines Examples.Orders.empty))
           = [] ++ rows
        /\ Forall (fun r => OrderItem.orderId r = Order.id o) rows
        /\ List.length rows = 0%nat
        /\ code (fst (createOrder Examples.Orders.itemInsertFails
                        Examples.alice Examples.Orders.twoLines
                        Examples.Orders.empty)) = 500%Z).
Proof.
  split; [|split].
  - apply (C1_order_row_then_item_rows Examples.Orders.calm Examples.alice
             (Examples.Orders.request []) Examples.Orders.empty).
    left. reflexivity.
  - apply (C1_order_row_then_item_rows Examples.Orders.calm Examples.alice
             Examples.Orders.twoLines Examples.Orders.empty).
    reflexivity.
  - destruct (C1_order_row_then_item_rows Examples.Orders.itemInsertFails
                Examples.alice Examples.Orders.twoLines Examples.Orders.empty)
      as (_ & _ & H).
    destruct (H eq_refl eq_refl eq_refl) as (o & rows & H1 & H2 & H3 & H4 & H5).
    exists o, rows. splits; auto.
Defined.

(** C8.  The stock check answers [false] when the request to the product
    service fails; and when, while an order is being created, a stock
    request failed or timed out, the answer is the insufficient-stock
    response (400) and neither an order row nor an item row is written. *)
Theorem C8_stock_check_fails_closed :
  (forall (w : World) (productId quantity : Z) (s : State),
      stock_get w productId = None ->
      fst (checkProductStock w productId quantity s) = Ok false)
  /\ (forall (w : World) (user : User) (b : CreateOrderBody) (s : State)
             (calls : list HttpCall),
         httpLog (snd (createOrder w user b s)) = httpLog s ++ calls ->
         existsb Spec.stockFailure calls = true ->
         Spec.insufficientStock (fst (createOrder w user b s))
         /\ orders (snd (createOrder w user b s)) = orders s
         /\ orderItems (snd (createOrder w user b s)) = orderItems s).
Proof.
  split.
  - intros w productId quantity s H. unfold checkProductStock. run.
    rewrite H. reflexivity.
  - intros w user b s calls Hlog Hfail.
    destruct (createOrderValidation b) eqn:Hval.
    + destruct (forallb (Spec.inStock w) (items b)) eqn:Hstock.
      * exfalso. revert Hlog.
        destruct (Order_create_ok w) eqn:Hoc.
        -- destruct (createOrder_persisting w user b s Hval Hstock Hoc)
             as (o & rs & rows & s2 & calls0 & Hrun & _ & _ & _ & _ & _ & _
                 & _ & _ & Hl & Hnf & _).
           rewrite Hrun.
           destruct (all_fulfilled rs); [destruct (redis_ok w)|]; simpl;
             rewrite Hl; intros E; apply log_append_inv in E; congruence.
        -- unfold createOrder, handler, bind. rewrite Hval. simpl.
           destruct (itemLoop_spec w (items b) [] 0 s) as [calls0 [Hs1 Hout]].
           destruct (itemLoop w (items b) [] 0 s) as [[[v sub]|r|e] s1];
             simpl in *; subst s1;
             [|destruct Hout; congruence|destruct Hout; congruence].
           unfold Order_create. rewrite Hoc. simpl.
           intros E; apply log_append_inv in E.
           destruct Hout as (_ & _ & _ & Hnf). congruence.
      * revert Hlog. unfold createOrder, handler, bind. rewrite Hval. simpl.
        destruct (itemLoop_spec w (items b) [] 0 s) as [calls0 [Hs1 Hout]].
        destruct (itemLoop w (items b) [] 0 s) as [[[v sub]|r|e] s1];
          simpl in *; subst s1.
        -- destruct Hout; congruence.
        -- intros _. destruct Hout as [Hins _]. splits; auto.
        -- intros E; apply log_append_inv in E.
           destruct Hout as [Hnf _]. congruence.
    + exfalso. revert Hlog. unfold createOrder, handler, bind.
      rewrite Hval. simpl. intros E.
      rewrite <- (app_nil_r (httpLog s)) in E at 1.
      apply log_append_inv in E. subst calls. discriminate.
Qed.

(** Witness of C8's theorem: the stock request of the second product times
    out. *)
Lemma C8_witness :
  fst (OrderService.checkProductStock Examples.Orders.stockTimeout 2 1
         Examples.Orders.empty) = Ok false
  /\ Spec.insufficientStock
    (fst (createOrder Examples.Orders.stockTimeout Examples.alice
            Examples.Orders.twoLines Examples.Orders.empty))
  /\ orders (snd (createOrder Examples.Orders.stockTimeout Examples.alice
                    Examples.Orders.twoLines Examples.Orders.empty)) = []
  /\ orderItems (snd (createOrder Examples.Orders.stockTimeout Examples.alice
                        Examples.Orders.twoLines Examples.Orders.empty)) = [].
Proof.
  split.
  - apply (proj1 C8_stock_check_fails_closed Examples.Orders.stockTimeout
             2%Z 1%Z Examples.Orders.empty).
    reflexivity.
  - apply (proj2 C8_stock_check_fails_closed Examples.Orders.stockTimeout
             Examples.alice Examples.Orders.twoLines Examples.Orders.empty
             [GetProduct 1 true; GetStock 1 (Some 10);
              GetProduct 2 true; GetStock 2 None]);
      reflexivity.
Defined.

(** *** Amounts *)

Lemma calculateTax_rounds (subtotal : Q) :
  Spec.roundedHalfUp2 (subtotal * defaultTaxRate)
                      (calculateTax subtotal defaultTaxRate).
Proof.
  unfold Spec.roundedHalfUp2, calculateTax, Js.Math_round.
  set (y := subtotal * defaultTaxRate * 100).
  exists (Qfloor (y + (1 # 2))). split; [reflexivity|].
  pose proof (Qfloor_le (y + (1 # 2))) as Hle.
  pose proof (Qlt_floor (y + (1 # 2))) as Hlt.
  rewrite inject_Z_plus in Hlt.
  change (inject_Z 1) with 1 in Hlt.
  split; lra.
Qed.

Lemma calculateShipping_free (subtotal : Q) (l : list ItemBody) :
  100 <= subtotal -> calculateShipping subtotal l == 0.
Proof.
  intros H. unfold calculateShipping, Js.ge.
  apply Qle_bool_iff in H. rewrite H. reflexivity.
Qed.

Lemma calculateShipping_paid (subtotal : Q) (l : list ItemBody) :
  subtotal < 100 ->
  calculateShipping subtotal l
  == (999 # 100) + (299 # 100) * (inject_Z (Z.of_nat (List.length l)) - 1).
Proof.
  intros H. unfold calculateShipping, Js.ge.
  destruct (Qle_bool 100 subtotal) eqn:E.
  - apply Qle_bool_iff in E. lra.
  - ring.
Qed.

(** C6 (the code at the failing inputs).  The handler computes the amounts
    on doubles, and there the formulas of the claim do not give the amounts
    of the claim.
    - 2 x 999.99 and 1 x 299.99: the subtotal is not the double of 2299.97
      but the next one above it (it prints as 2299.9700000000003), and the
      total is the one above the double of 2483.97; tax and shipping are
      184 and 0.
    - 14.29, 49.91 and 35.80, one of each: the prices add up to 100, from
      which shipping is free, but the subtotal of the handler is the double
      below 100 and the order is charged 15.97 for shipping.
    - 1 x 1.8125: the subtotal is exact and 8% of it, 0.145, rounded
      half-up to two decimals is 0.15, but the handler's tax is 0.14. *)
Theorem C6_amounts_on_doubles :
  (let a := OrderService64.amounts
              [OrderService64.line 2 99999 2; OrderService64.line 1 29999 2] in
   OrderService64.subtotal a = S754_finite false 5057687517071934 (-41)
   /\ Binary64.literal 229997 2 = S754_finite false 5057687517071933 (-41)
   /\ 229997 # 100 < Binary64.toQ (OrderService64.subtotal a)
   /\ OrderService64.taxAmount a = Binary64.ofZ 184
   /\ OrderService64.shippingAmount a = Binary64.ofZ 0
   /\ Binary64.lt (Binary64.literal 248397 2) (OrderService64.totalAmount a)
      = true)
  /\ (let a := OrderService64.amounts
                 [OrderService64.line 1 1429 2; OrderService64.line 1 4991 2;
                  OrderService64.line 1 3580 2] in
      Spec.lineSum [Examples.Orders.line 1 1 (1429 # 100);
                    Examples.Orders.line 2 1 (4991 # 100);
                    Examples.Orders.line 3 1 (3580 # 100)] == 100
      /\ Binary64.lt (OrderService64.subtotal a) (Binary64.ofZ 100) = true
      /\ Binary64.toQ (OrderService64.subtotal a) < 100
      /\ OrderService64.shippingAmount a = Binary64.literal 1597 2)
  /\ (let a := OrderService64.amounts [OrderService64.line 1 18125 4] in
      Binary64.toQ (OrderService64.subtotal a) == 18125 # 10000
      /\ Spec.roundedHalfUp2 ((18125 # 10000) * (8 # 100)) (15 # 100)
      /\ OrderService64.taxAmount a = Binary64.literal 14 2
      /\ Binary64.toQ (OrderService64.taxAmount a) < 15 # 100).
Proof.
  cbv zeta. splits;
    try match goal with
        | |- Spec.roundedHalfUp2 _ _ =>
            exists 15%Z; splits; vm_compute; try reflexivity; discriminate
        end;
    vm_compute; reflexivity.
Qed.


(** Witness of C4's theorem: order 1 is cancelled; it is cancelled again,
    updated to [cancelled], and updated to [shipped]. *)
Lemma C4_witness :
  cancelOrder Examples.Orders.calm Examples.alice 1
    (Examples.Orders.with1 OrderStatus.CANCELLED PaymentStatus.PAID)
  = (Resp 400 (Error "Order cannot be cancelled"),
     Examples.Orders.with1 OrderStatus.CANCELLED PaymentStatus.PAID)
  /\ updateOrder Examples.Orders.calm Examples.alice 1
       (Examples.Orders.change (Some OrderStatus.CANCELLED) None)
       (Examples.Orders.with1 OrderStatus.CANCELLED PaymentStatus.PAID)
     = (Resp 400 (Error "Order cannot be cancelled"),
        Examples.Orders.with1 OrderStatus.CANCELLED PaymentStatus.PAID)
  /\ (exists o',
         code (fst (updateOrder Examples.Orders.calm Examples.alice 1
                      (Examples.Orders.change (Some OrderStatus.SHIPPED) None)
                      (Examples.Orders.with1 OrderStatus.CANCELLED
                                             PaymentStatus.PAID))) = 200%Z
         /\ Spec.visibleOrder Examples.alice 1
              (snd (updateOrder Examples.Orders.calm Examples.alice 1
                      (Examples.Orders.change (Some OrderStatus.SHIPPED) None)
                      (Examples.Orders.with1 OrderStatus.CANCELLED
                                             PaymentStatus.PAID)))
            = Some o'
         /\ Order.status o' = OrderStatus.SHIPPED).
Proof.
  destruct (C4_only_cancellation_is_guarded Examples.Orders.calm Examples.alice
              1%Z (Examples.Orders.with1 OrderStatus.CANCELLED PaymentStatus.PAID)
              (order := Examples.Orders.order1 OrderStatus.CANCELLED
                                               PaymentStatus.PAID)
              eq_refl) as (H1 & H2 & H3); [discriminate|discriminate|].
  split; [exact H1|]. split.
  - apply H2; reflexivity.
  - apply (H3 (Examples.Orders.change (Some OrderStatus.SHIPPED) None)
              OrderStatus.SHIPPED); try reflexivity. discriminate.
Defined.

(** Witness of C5's theorem: the owner of the unpaid order 1 sets its
    payment status to [paid]. *)
Lemma C5_witness :
  exists o',
    code (fst (updateOrder Examples.Orders.calm Examples.alice 1
                 (Examples.Orders.change None (Some PaymentStatus.PAID))
                 (Examples.Orders.with1 OrderStatus.PENDING
                                        PaymentStatus.PENDING))) = 200%Z
    /\ Spec.visibleOrder Examples.alice 1
         (snd (updateOrder Examples.Orders.calm Examples.alice 1
                 (Examples.Orders.change None (Some PaymentStatus.PAID))
                 (Examples.Orders.with1 OrderStatus.PENDING
                                        PaymentStatus.PENDING)))
       = Some o'
    /\ Order.paymentStatus o' = PaymentStatus.PAID.
Proof.
  apply (C5_update_writes_paymentStatus Examples.Orders.calm Examples.alice
           1%Z (Examples.Orders.change None (Some PaymentStatus.PAID))
           (Examples.Orders.with1 OrderStatus.PENDING PaymentStatus.PENDING)
           (order := Examples.Orders.order1 OrderStatus.PENDING
                                            PaymentStatus.PENDING));
    reflexivity.
Defined.

End OrderProperties.


(* ------------------------------------------------------------------ *)
(** ** Properties of the payment service *)

Section PaymentProperties.

Import Http Auth PaymentService.

Ltac run :=
  unfold handler, bind, ret, respond, throw, modify, gets, swallow in *;
  simpl in *.

Ltac splits := repeat match goal with |- _ /\ _ => split end.

Lemma Forall_overwrite (A : Type) (P : A -> Prop) (h : A -> bool) (o : A)
      (l : list A) :
  Forall P l -> P o -> Forall P (map (fun r => if h r then o else r) l).
Proof.
  intros Hl Ho. induction Hl as [|a l Ha Hl IH]; simpl; constructor; auto.
  destruct (h a); assumption.
Qed.

(** *** Refunds *)

Lemma canBeRefunded_iff (p : Payment.t) :
  Payment.canBeRefunded p = true
  <-> Payment.status p = PaymentStatus.SUCCEEDED
      /\ Payment.refundedAmount p < Payment.amount p.
Proof.
  unfold Payment.canBeRefunded, Js.lt. rewrite andb_true_iff, negb_true_iff.
  split; intros [H1 H2]; split.
  - destruct (Payment.status p); try discriminate; reflexivity.
  - apply Qnot_le_lt. intros H. apply Qle_bool_iff in H. congruence.
  - rewrite H1. reflexivity.
  - destruct (Qle_bool (Payment.amount p) (Payment.refundedAmount p)) eqn:E;
      [|reflexivity].
    apply Qle_bool_iff in E. lra.
Qed.

Lemma gt_false_iff (a b : Q) : Js.gt a b = false <-> a <= b.
Proof.
  unfold Js.gt. rewrite negb_false_iff. apply Qle_bool_iff.
Qed.

Lemma gt_true_iff (a b : Q) : Js.gt a b = true <-> b < a.
Proof.
  unfold Js.gt. rewrite negb_true_iff. split; intros H.
  - apply Qnot_le_lt. intros H'. apply Qle_bool_iff in H'. congruence.
  - destruct (Qle_bool a b) eqn:E; [|reflexivity].
    apply Qle_bool_iff in E. lra.
Qed.

(** The amount that the refund route sends to the gateway is positive, for
    a request that passed the validation and a payment that may be
    refunded. *)
Lemma refundAmount_pos (paymentId : Z) (b : RefundBody) (p : Payment.t) :
  refundValidation paymentId b = true ->
  Payment.canBeRefunded p = true ->
  0 <= Js.or_else (rf_amount b) (Payment.getRemainingRefundableAmount p).
Proof.
  unfold refundValidation, Js.or_else, Payment.getRemainingRefundableAmount.
  intros Hval Hcan. apply canBeRefunded_iff in Hcan. destruct Hcan as [_ Hlt].
  apply andb_true_iff in Hval. destruct Hval as [_ Hval].
  destruct (rf_amount b) as [a|]; [|lra].
  apply Qle_bool_iff in Hval. destruct (Js.truthy a); lra.
Qed.

(** C2 (the code at the failing inputs).
    - Payment 1 of 100.00 is partially refunded, by 30.00, and its owner
      asks for a refund of 80.00, more than the 70.00 that remain: the
      answer is that the payment cannot be refunded, not that the amount
      exceeds the balance, since [canBeRefunded] rejects every partially
      refunded payment.
    - A payment of 0.57 succeeded and its owner is refunded 0.06; the
      owner confirms the payment again while the gateway reports the intent
      as succeeded, which puts the status back to succeeded and keeps the
      0.06; the owner then asks for a refund without an amount.  On the
      doubles of the handler the remainder is 0.57 - 0.06 and the new
      refunded amount 0.06 + (0.57 - 0.06), which is the double above 0.57
      (it prints as 0.5700000000000001): the refunded amount exceeds the
      amount of the payment. *)
Theorem C2_refund_leaves_the_bounds :
  (let p := Examples.Payments.payment1 PaymentStatus.PARTIALLY_REFUNDED 100 30 in
   let s := Examples.Payments.with1 PaymentStatus.PARTIALLY_REFUNDED 100 30 in
   Payment.getRemainingRefundableAmount p == 70
   /\ refund (Examples.Payments.gateway "" "") Examples.alice 1
             (Examples.Payments.refundOf 80) s
      = (Resp 400 (Error "Payment cannot be refunded"), s))
  /\ (let s0 := Examples.Payments.with1 PaymentStatus.SUCCEEDED (57 # 100) 0 in
      let s1 := snd (refund (Examples.Payments.gateway "" "") Examples.alice 1
                       (Examples.Payments.refundOf (6 # 100)) s0) in
      let s2 := snd (confirm (Examples.Payments.gateway "" "succeeded")
                       Examples.alice Examples.Payments.confirm1 s1) in
      option_map Payment.status (Spec.visiblePayment Examples.alice 1 s1)
      = Some PaymentStatus.PARTIALLY_REFUNDED
      /\ match Spec.visiblePayment Examples.alice 1 s2 with
         | Some p2 =>
             Payment.status p2 = PaymentStatus.SUCCEEDED
             /\ Payment.refundedAmount p2 == 6 # 100
             /\ Payment.canBeRefunded p2 = true
         | None => False
         end)
  /\ match PaymentService64.refund (Some (Binary64.literal 6 2))
                                   (PaymentService64.paid 57 2) with
     | PaymentService64.Refunded _ p1 =>
         PaymentService64.Payment.status p1 = PaymentStatus.PARTIALLY_REFUNDED
         /\ PaymentService64.Payment.refundedAmount p1 = Binary64.literal 6 2
         /\ match PaymentService64.refund None (PaymentService64.succeeded p1)
            with
            | PaymentService64.Refunded _ p2 =>
                PaymentService64.Payment.amount p2 = Binary64.literal 57 2
                /\ Binary64.gt (PaymentService64.Payment.refundedAmount p2)
                               (PaymentService64.Payment.amount p2) = true
                /\ Binary64.toQ (PaymentService64.Payment.amount p2)
                   < Binary64.toQ (PaymentService64.Payment.refundedAmount p2)
            | _ => False
            end
     | _ => False
     end.
Proof.
  cbv zeta. splits; try reflexivity; vm_compute; splits; reflexivity.
Qed.

(** C9 (the code at the failing input).  Payment 1 of 100.00 is partially
    refunded, by 30.00, so that 70.00 remain; yet [canBeRefunded] is false
    for it, and the refund of a further 30.00 is rejected, the payment
    cannot be refunded, with nothing changed. *)
Theorem C9_partially_refunded_is_rejected :
  let p := Examples.Payments.payment1 PaymentStatus.PARTIALLY_REFUNDED 100 30 in
  let s := Examples.Payments.with1 PaymentStatus.PARTIALLY_REFUNDED 100 30 in
  Payment.status p = PaymentStatus.PARTIALLY_REFUNDED
  /\ Payment.getRemainingRefundableAmount p == 70
  /\ Payment.canBeRefunded p = false
  /\ refund (Examples.Payments.gateway "" "") Examples.alice 1
            (Examples.Payments.refundOf 30) s
     = (Resp 400 (Error "Payment cannot be refunded"), s).
Proof. cbv zeta. splits; reflexivity. Qed.


(** *** One active payment per order *)

Lemma find_none_filter (A : Type) (f : A -> bool) (l : list A) :
  find f l = None -> filter f l = [].
Proof.
  induction l as [|a l IH]; simpl; [reflexivity|].
  destruct (f a); [discriminate|exact IH].
Qed.







(** *** Confirmation *)

(** The assignments of the confirm route leave alone what the lookups go
    by. *)
Lemma confirmAssign_keys (p : Payment.t) (paymentIntent : PaymentIntent) :
  Payment.id (fst (confirmAssign p paymentIntent)) = Payment.id p
  /\ Payment.orderId (fst (confirmAssign p paymentIntent)) = Payment.orderId p
  /\ Payment.userId (fst (confirmAssign p paymentIntent)) = Payment.userId p
  /\ Payment.stripePaymentIntentId (fst (confirmAssign p paymentIntent))
     = Payment.stripePaymentIntentId p.
Proof.
  unfold confirmAssign, confirmSwitch.
  repeat match goal with
         | |- context [if ?c then _ else _] => destruct c
         | |- context [match ?l with [] => _ | _ :: _ => _ end] => destruct l
         | |- context [match ?o with Some _ => _ | None => _ end] => destruct o
         end; simpl; splits; reflexivity.
Qed.

(** Confirming again with the same answer of the gateway assigns the same
    values. *)
Lemma confirmAssign_twice (p : Payment.t) (paymentIntent : PaymentIntent) :
  confirmAssign (fst (confirmAssign p paymentIntent)) paymentIntent
  = confirmAssign p paymentIntent.
Proof.
  unfold confirmAssign, confirmSwitch.
  repeat match goal with
         | |- context [if ?c then _ else _] => destruct c
         | |- context [match ?l with [] => _ | _ :: _ => _ end] => destruct l
         | |- context [match ?o with Some _ => _ | None => _ end] => destruct o
         end; simpl; reflexivity.
Qed.

(** Unless the gateway reports [succeeded], the details assigned are the
    empty object. *)
Lemma confirmAssign_details (p : Payment.t) (paymentIntent : PaymentIntent) :
  pi_status paymentIntent <> "succeeded"%string ->
  Payment.paymentMethodDetails (fst (confirmAssign p paymentIntent))
  = Some emptyObject.
Proof.
  intros Hne. unfold confirmAssign, confirmSwitch.
  destruct (String.eqb (pi_status paymentIntent) "succeeded") eqn:E.
  - apply String.eqb_eq in E. contradiction.
  - repeat match goal with
           | |- context [if ?c then _ else _] => destruct c
           end; reflexivity.
Qed.

Lemma confirmSync_run (orderId : Z) (newStatus : PaymentStatus.t) (s : State) :
  confirmSync orderId newStatus s
  = (Ok tt,
     {| payments := payments s; paymentSeq := paymentSeq s; cache := cache s;
        httpLog := httpLog s ++ Spec.syncCalls orderId newStatus |}).
Proof.
  unfold confirmSync, updateOrderPaymentStatus, Spec.syncCalls.
  destruct newStatus; run; try reflexivity;
    destruct s; simpl; rewrite app_nil_r; reflexivity.
Qed.

(** The lookup of the confirm route. *)
Lemma findOne_confirm_run (user : User) (b : ConfirmBody) (s : State) :
  Payment_findOne_confirm user (cf_paymentIntentId b) (cf_orderId b) s
  = if isAdmin user then (Throw StoreError, s)
    else (Ok (Spec.confirmTarget user b s), s).
Proof.
  unfold Payment_findOne_confirm, Spec.confirmTarget, Payment_findOne, gets,
    throw.
  destruct (isAdmin user); reflexivity.
Qed.

Lemma confirmTarget_not_admin (user : User) (b : ConfirmBody) (s : State)
      (payment : Payment.t) :
  Spec.confirmTarget user b s = Some payment -> isAdmin user = false.
Proof.
  unfold Spec.confirmTarget. destruct (isAdmin user); [discriminate|reflexivity].
Qed.

Lemma confirmTarget_find (user : User) (b : ConfirmBody) (s : State)
      (payment : Payment.t) :
  Spec.confirmTarget user b s = Some payment ->
  find (fun p =>
          some_eqb (Payment.stripePaymentIntentId p) (cf_paymentIntentId b)
          && (Payment.orderId p =? cf_orderId b)%Z
          && (Payment.userId p =? userId user)%Z)
       (payments s)
  = Some payment.
Proof.
  unfold Spec.confirmTarget. destruct (isAdmin user); [discriminate|auto].
Qed.

(** The confirm route, once the payment is found and the gateway has
    answered. *)
Lemma confirm_found (w : World) (user : User) (b : ConfirmBody) (s : State)
      (payment : Payment.t) (paymentIntent : PaymentIntent) :
  confirmPaymentValidation b = true ->
  Spec.confirmTarget user b s = Some payment ->
  paymentIntents_retrieve w (cf_paymentIntentId b) = Some paymentIntent ->
  confirm w user b s
  = let payment' := fst (confirmAssign payment paymentIntent) in
    let newStatus := snd (confirmAssign payment paymentIntent) in
    let written :=
      {| payments :=
           map (fun r => if (Payment.id r =? Payment.id payment')%Z
                         then payment' else r) (payments s);
         paymentSeq := paymentSeq s;
         cache := cache s;
         httpLog := (httpLog s ++ [StripeRetrieveIntent (cf_paymentIntentId b)])
                    ++ Spec.syncCalls (cf_orderId b) newStatus |} in
    if save_ok w then
      if redis_ok w then
        (Resp 200 (Json (PaymentJson "Payment status updated" payment')),
         set_cache
           (filter (fun e => negb (fst e =? Payment.id payment')%Z) (cache s))
           written)
      else (Resp 500 (Error "Failed to confirm payment"), written)
    else (Resp 500 (Error "Failed to confirm payment"),
          log (StripeRetrieveIntent (cf_paymentIntentId b)) s).
Proof.
  intros Hval Htarget Hretrieve.
  pose proof (confirmTarget_not_admin _ _ _ Htarget) as Hadmin.
  unfold confirm, handler, bind. rewrite Hval. cbn [negb]. cbv zeta.
  rewrite findOne_confirm_run, Hadmin, Htarget.
  unfold modify at 1. rewrite Hretrieve.
  unfold Payment_save. destruct (save_ok w); [|reflexivity].
  unfold modify at 1. rewrite confirmSync_run.
  unfold redis_del. destruct (redis_ok w); reflexivity.
Qed.

(** C10.  When the confirm route finds the payment, which it does for a
    caller who is not an admin only (the lookup of an admin is rejected and
    the call answered 500, before the gateway is asked), and the gateway
    reports a status other than [succeeded], the payment is stored with the
    empty object as its payment-method details, whatever they were
    before. *)
Theorem C10_confirm_erases_details
        (w : World) (user : User) (b : ConfirmBody) (s : State)
        (payment : Payment.t) (paymentIntent : PaymentIntent) :
  confirmPaymentValidation b = true ->
  isAdmin user = false ->
  Spec.confirmTarget user b s = Some payment ->
  paymentIntents_retrieve w (cf_paymentIntentId b) = Some paymentIntent ->
  pi_status paymentIntent <> "succeeded"%string ->
  save_ok w = true ->
  (exists r, In r (payments (snd (confirm w user b s)))
             /\ Payment.id r = Payment.id payment)
  /\ (forall r, In r (payments (snd (confirm w user b s))) ->
                Payment.id r = Payment.id payment ->
                Payment.paymentMethodDetails r = Some emptyObject).
Proof.
  intros Hval _ Htarget Hretrieve Hstatus Hsave.
  rewrite (confirm_found w user b s Hval Htarget Hretrieve). cbv zeta.
  rewrite Hsave.
  destruct (confirmAssign_keys payment paymentIntent) as (Hid & _).
  pose proof (@confirmAssign_details payment paymentIntent Hstatus) as Hdetails.
  set (payment' := fst (confirmAssign payment paymentIntent)) in *.
  assert (Hpay : payments (snd (if redis_ok w
      then (Resp 200 (Json (PaymentJson "Payment status updated" payment')),
            set_cache
              (filter (fun e => negb (fst e =? Payment.id payment')%Z) (cache s))
              {| payments :=
                   map (fun r => if (Payment.id r =? Payment.id payment')%Z
                                 then payment' else r) (payments s);
                 paymentSeq := paymentSeq s; cache := cache s;
                 httpLog := (httpLog s ++ [StripeRetrieveIntent (cf_paymentIntentId b)])
                            ++ Spec.syncCalls (cf_orderId b)
                                 (snd (confirmAssign payment paymentIntent)) |})
      else (Resp 500 (Error "Failed to confirm payment"),
            {| payments :=
                 map (fun r => if (Payment.id r =? Payment.id payment')%Z
                               then payment' else r) (payments s);
               paymentSeq := paymentSeq s; cache := cache s;
               httpLog := (httpLog s ++ [StripeRetrieveIntent (cf_paymentIntentId b)])
                          ++ Spec.syncCalls (cf_orderId b)
                               (snd (confirmAssign payment paymentIntent)) |})))
    = map (fun r => if (Payment.id r =? Payment.id payment')%Z
                    then payment' else r) (payments s))
    by (destruct (redis_ok w); reflexivity).
  rewrite Hpay. clear Hpay. split.
  - exists payment'. split; [|exact Hid].
    apply confirmTarget_find, find_some in Htarget.
    destruct Htarget as [Hin _].
    apply in_map_iff. exists payment. split; [|exact Hin].
    rewrite Hid, Z.eqb_refl. reflexivity.
  - intros r Hin Hr. apply in_map_iff in Hin. destruct Hin as (r0 & Heq & _).
    destruct (Payment.id r0 =? Payment.id payment')%Z eqn:E.
    + subst r. exact Hdetails.
    + subst r. apply Z.eqb_neq in E. congruence.
Qed.

(** Witness of C10's theorem: payment 1 carries a card snapshot and the
    gateway reports [processing]. *)
Lemma C10_witness :
  (exists r,
      In r (payments (snd (confirm (Examples.Payments.gateway "" "processing")
                             Examples.alice Examples.Payments.confirm1
                             (Examples.Payments.with1 PaymentStatus.SUCCEEDED 100 0))))
      /\ Payment.id r = 1%Z)
  /\ (forall r,
         In r (payments (snd (confirm (Examples.Payments.gateway "" "processing")
                                Examples.alice Examples.Payments.confirm1
                                (Examples.Payments.with1 PaymentStatus.SUCCEEDED 100 0)))) ->
         Payment.id r = 1%Z ->
         Payment.paymentMethodDetails r = Some emptyObject)
  /\ Payment.paymentMethodDetails
       (Examples.Payments.payment1 PaymentStatus.SUCCEEDED 100 0)
     = Some (cardOf Examples.Payments.visa).
Proof.
  destruct (C10_confirm_erases_details
              (Examples.Payments.gateway "" "processing") Examples.alice
              Examples.Payments.confirm1
              (Examples.Payments.with1 PaymentStatus.SUCCEEDED 100 0)
              (payment := Examples.Payments.payment1 PaymentStatus.SUCCEEDED 100 0)
              (paymentIntent := Examples.Payments.intent "pi_1" "processing")
              eq_refl eq_refl eq_refl eq_refl) as [H1 H2].
  - discriminate.
  - reflexivity.
  - splits; [exact H1|exact H2|reflexivity].
Defined.


(** *** Confirming twice *)

Lemma confirm_invalid (w : World) (user : User) (b : ConfirmBody) (s : State) :
  confirmPaymentValidation b = false ->
  confirm w user b s = (Resp 400 ValidationErrors, s).
Proof.
  intros Hval. unfold confirm, handler, bind. rewrite Hval. reflexivity.
Qed.

(** An admin's confirmation fails in the lookup: nothing is read, sent or
    stored. *)
Lemma confirm_admin (w : World) (user : User) (b : ConfirmBody) (s : State) :
  confirmPaymentValidation b = true ->
  isAdmin user = true ->
  confirm w user b s = (Resp 500 (Error "Failed to confirm payment"), s).
Proof.
  intros Hval Hadmin. unfold confirm, handler, bind. rewrite Hval. cbn [negb].
  cbv zeta. rewrite findOne_confirm_run, Hadmin. reflexivity.
Qed.

Lemma confirm_missing (w : World) (user : User) (b : ConfirmBody) (s : State) :
  confirmPaymentValidation b = true ->
  isAdmin user = false ->
  Spec.confirmTarget user b s = None ->
  confirm w user b s = (Resp 404 (Error "Payment not found"), s).
Proof.
  intros Hval Hadmin Htarget. unfold confirm, handler, bind. rewrite Hval.
  cbn [negb]. cbv zeta. rewrite findOne_confirm_run, Hadmin, Htarget.
  reflexivity.
Qed.

Lemma confirm_gateway_down (w : World) (user : User) (b : ConfirmBody)
      (s : State) (payment : Payment.t) :
  confirmPaymentValidation b = true ->
  Spec.confirmTarget user b s = Some payment ->
  paymentIntents_retrieve w (cf_paymentIntentId b) = None ->
  confirm w user b s
  = (Resp 500 (Error "Failed to confirm payment"),
     log (StripeRetrieveIntent (cf_paymentIntentId b)) s).
Proof.
  intros Hval Htarget Hretrieve.
  pose proof (confirmTarget_not_admin _ _ _ Htarget) as Hadmin.
  unfold confirm, handler, bind. rewrite Hval. cbn [negb]. cbv zeta.
  rewrite findOne_confirm_run, Hadmin, Htarget.
  unfold modify at 1. rewrite Hretrieve. reflexivity.
Qed.

Lemma confirmTarget_payments (user : User) (b : ConfirmBody) (s s' : State) :
  payments s' = payments s ->
  Spec.confirmTarget user b s' = Spec.confirmTarget user b s.
Proof. unfold Spec.confirmTarget. intros ->. reflexivity. Qed.

(** After the write the route finds the payment it wrote. *)
Lemma confirmTarget_written (user : User) (b : ConfirmBody) (s s' : State)
      (payment : Payment.t) (paymentIntent : PaymentIntent) :
  Spec.confirmTarget user b s = Some payment ->
  payments s'
  = map (fun r => if (Payment.id r =?
                        Payment.id (fst (confirmAssign payment paymentIntent)))%Z
                  then fst (confirmAssign payment paymentIntent) else r)
        (payments s) ->
  Spec.confirmTarget user b s' = Some (fst (confirmAssign payment paymentIntent)).
Proof.
  intros Htarget Hpay.
  pose proof (confirmTarget_not_admin _ _ _ Htarget) as Hadmin.
  apply confirmTarget_find in Htarget.
  unfold Spec.confirmTarget. rewrite Hadmin, Hpay.
  destruct (confirmAssign_keys payment paymentIntent) as (Hid & Ho & Hu & Hi).
  apply find_overwrite with (o := payment).
  - exact Htarget.
  - rewrite Hid. apply Z.eqb_refl.
  - apply find_some in Htarget. destruct Htarget as [_ Hacc].
    rewrite Ho, Hu, Hi. exact Hacc.
Qed.

Lemma log_tail (l a calls : list HttpCall) : l ++ calls = l ++ a -> calls = a.
Proof. apply app_inv_head. Qed.

(** Two confirmations in a row, in the same environment: the second one
    answers as the first, leaves the table and the cache as the first left
    them, and sends again every request that the first one sent. *)
Lemma confirm_twice (w : World) (user : User) (b : ConfirmBody) (s : State) :
  fst (confirm w user b (snd (confirm w user b s))) = fst (confirm w user b s)
  /\ payments (snd (confirm w user b (snd (confirm w user b s))))
     = payments (snd (confirm w user b s))
  /\ cache (snd (confirm w user b (snd (confirm w user b s))))
     = cache (snd (confirm w user b s))
  /\ (forall calls,
         httpLog (snd (confirm w user b s)) = httpLog s ++ calls ->
         httpLog (snd (confirm w user b (snd (confirm w user b s))))
         = httpLog (snd (confirm w user b s)) ++ calls).
Proof.
  destruct (confirmPaymentValidation b) eqn:Hval.
  2:{ rewrite !confirm_invalid by assumption. simpl. splits; auto. }
  destruct (isAdmin user) eqn:Hadmin.
  1:{ rewrite !(confirm_admin w user b _ Hval Hadmin). simpl. splits; auto. }
  destruct (Spec.confirmTarget user b s) as [payment|] eqn:Htarget.
  2:{ rewrite !(confirm_missing w user b s Hval Hadmin Htarget). simpl.
      rewrite (confirm_missing w user b s Hval Hadmin Htarget). simpl.
      splits; auto. }
  destruct (paymentIntents_retrieve w (cf_paymentIntentId b))
    as [paymentIntent|] eqn:Hretrieve.
  2:{ rewrite (confirm_gateway_down w user b s Hval Htarget Hretrieve). simpl.
      rewrite (@confirm_gateway_down w user b _ payment Hval);
        [|exact Htarget|exact Hretrieve].
      simpl. splits; auto.
      intros calls H. apply log_tail in H. subst calls. reflexivity. }
  rewrite (confirm_found w user b s Hval Htarget Hretrieve). cbv zeta.
  destruct (save_ok w) eqn:Hsave.
  2:{ simpl.
      rewrite (@confirm_found w user b _ payment paymentIntent Hval);
        [|exact Htarget|exact Hretrieve].
      cbv zeta. rewrite Hsave. simpl. splits; auto.
      intros calls H. apply log_tail in H. subst calls. reflexivity. }
  destruct (confirmAssign_keys payment paymentIntent) as (Hid & _).
  pose proof (confirmAssign_twice payment paymentIntent) as Htwice.
  set (payment' := fst (confirmAssign payment paymentIntent)) in *.
  destruct (redis_ok w) eqn:Hredis; cbn [fst snd];
    (rewrite (@confirm_found w user b _ payment' paymentIntent Hval);
     [ | apply (@confirmTarget_written user b s _ payment paymentIntent Htarget);
         reflexivity
       | exact Hretrieve ]);
    cbv zeta; rewrite Hsave, Hredis, Htwice; fold payment'; cbn;
    (splits;
     [ reflexivity
     | apply overwrite_twice, Z.eqb_refl
     | try apply filter_twice; reflexivity
     | intros calls H; rewrite <- app_assoc in H; apply log_tail in H;
       subst calls; rewrite <- !app_assoc; reflexivity ]).
Qed.


(** *** Delivering the event "payment succeeded" twice *)

Lemma succeededAssign_keys (p : Payment.t) (paymentIntent : PaymentIntent) :
  Payment.id (succeededAssign p paymentIntent) = Payment.id p
  /\ Payment.orderId (succeededAssign p paymentIntent) = Payment.orderId p
  /\ Payment.stripePaymentIntentId (succeededAssign p paymentIntent)
     = Payment.stripePaymentIntentId p.
Proof.
  unfold succeededAssign.
  destruct (charges_data paymentIntent) as [|charge ?]; simpl;
    [|destruct (payment_method_details_card charge)]; splits; reflexivity.
Qed.

Lemma succeededAssign_twice (p : Payment.t) (paymentIntent : PaymentIntent) :
  succeededAssign (succeededAssign p paymentIntent) paymentIntent
  = succeededAssign p paymentIntent.
Proof.
  unfold succeededAssign.
  destruct (charges_data paymentIntent) as [|charge ?]; simpl;
    [|destruct (payment_method_details_card charge)]; reflexivity.
Qed.

(** The webhook route on the event "payment succeeded". *)
Lemma webhook_succeeded (w : World) (paymentIntent : PaymentIntent) (s : State) :
  stripeWebhook w true (Spec.succeededEvent paymentIntent) s
  = (Resp 200 (Json Received),
     match Spec.webhookTarget paymentIntent s with
     | None => s
     | Some payment =>
         let payment' := succeededAssign payment paymentIntent in
         if save_ok w then
           {| payments :=
                map (fun r => if (Payment.id r =? Payment.id payment')%Z
                              then payment' else r) (payments s);
              paymentSeq := paymentSeq s;
              cache :=
                if redis_ok w
                then filter (fun e => negb (fst e =? Payment.id payment')%Z) (cache s)
                else cache s;
              httpLog :=
                httpLog s ++ [PutOrderPaymentStatus (Payment.orderId payment') "paid"] |}
         else s
     end).
Proof.
  unfold stripeWebhook, Spec.succeededEvent, Spec.webhookTarget. simpl.
  unfold handler, handlePaymentIntentSucceeded, swallow, bind, asPaymentIntent,
    Payment_findOne, gets, ret.
  destruct (find (byIntent paymentIntent) (payments s)) as [payment|];
    [|reflexivity].
  unfold Payment_save, updateOrderPaymentStatus, redis_del, swallow, modify, throw.
  destruct (save_ok w); [|reflexivity].
  destruct (redis_ok w); reflexivity.
Qed.

Lemma webhookTarget_written (paymentIntent : PaymentIntent) (s s' : State)
      (payment : Payment.t) :
  Spec.webhookTarget paymentIntent s = Some payment ->
  payments s'
  = map (fun r => if (Payment.id r =?
                        Payment.id (succeededAssign payment paymentIntent))%Z
                  then succeededAssign payment paymentIntent else r)
        (payments s) ->
  Spec.webhookTarget paymentIntent s'
  = Some (succeededAssign payment paymentIntent).
Proof.
  unfold Spec.webhookTarget. intros Htarget ->.
  destruct (succeededAssign_keys payment paymentIntent) as (Hid & Ho & Hi).
  apply find_overwrite with (o := payment).
  - exact Htarget.
  - rewrite Hid. apply Z.eqb_refl.
  - apply find_some in Htarget. destruct Htarget as [_ Hacc].
    unfold byIntent in *. rewrite Hi. exact Hacc.
Qed.

Lemma webhook_twice (w : World) (paymentIntent : PaymentIntent) (s : State) :
  fst (stripeWebhook w true (Spec.succeededEvent paymentIntent)
         (snd (stripeWebhook w true (Spec.succeededEvent paymentIntent) s)))
  = fst (stripeWebhook w true (Spec.succeededEvent paymentIntent) s)
  /\ payments
       (snd (stripeWebhook w true (Spec.succeededEvent paymentIntent)
               (snd (stripeWebhook w true (Spec.succeededEvent paymentIntent) s))))
     = payments (snd (stripeWebhook w true (Spec.succeededEvent paymentIntent) s))
  /\ (forall calls,
         httpLog (snd (stripeWebhook w true (Spec.succeededEvent paymentIntent) s))
         = httpLog s ++ calls ->
         httpLog
           (snd (stripeWebhook w true (Spec.succeededEvent paymentIntent)
                   (snd (stripeWebhook w true (Spec.succeededEvent paymentIntent) s))))
         = httpLog (snd (stripeWebhook w true (Spec.succeededEvent paymentIntent) s))
           ++ calls).
Proof.
  rewrite (webhook_succeeded w paymentIntent s). cbn [fst snd].
  destruct (Spec.webhookTarget paymentIntent s) as [payment|] eqn:Htarget.
  2:{ rewrite (webhook_succeeded w paymentIntent s), Htarget. simpl.
      splits; auto. }
  cbv zeta. destruct (save_ok w) eqn:Hsave.
  2:{ rewrite (webhook_succeeded w paymentIntent s), Htarget. cbv zeta.
      rewrite Hsave. simpl. splits; auto. }
  rewrite webhook_succeeded.
  erewrite webhookTarget_written; [|exact Htarget|reflexivity].
  cbv zeta. rewrite Hsave, succeededAssign_twice. cbn.
  splits.
  - reflexivity.
  - apply overwrite_twice, Z.eqb_refl.
  - intros calls H. apply log_tail in H. subst calls. reflexivity.
Qed.

(** C7 (as amended).  A second confirmation in the same environment, and a
    second delivery of the same event "payment succeeded", answer as the
    first one and leave the stored payments as the first one left them; but
    every request that the first one sent, the order-paid synchronisation
    among them, is sent again. *)
Theorem C7_repeat_keeps_payment_and_repeats_requests :
  (forall (w : World) (user : User) (b : ConfirmBody) (s : State),
      fst (confirm w user b (snd (confirm w user b s)))
      = fst (confirm w user b s)
      /\ payments (snd (confirm w user b (snd (confirm w user b s))))
         = payments (snd (confirm w user b s))
      /\ (forall calls,
             httpLog (snd (confirm w user b s)) = httpLog s ++ calls ->
             httpLog (snd (confirm w user b (snd (confirm w user b s))))
             = httpLog (snd (confirm w user b s)) ++ calls))
  /\ (forall (w : World) (paymentIntent : PaymentIntent) (s : State),
         fst (stripeWebhook w true (Spec.succeededEvent paymentIntent)
                (snd (stripeWebhook w true (Spec.succeededEvent paymentIntent) s)))
         = fst (stripeWebhook w true (Spec.succeededEvent paymentIntent) s)
         /\ payments
              (snd (stripeWebhook w true (Spec.succeededEvent paymentIntent)
                      (snd (stripeWebhook w true
                              (Spec.succeededEvent paymentIntent) s))))
            = payments
                (snd (stripeWebhook w true (Spec.succeededEvent paymentIntent) s))
         /\ (forall calls,
                httpLog
                  (snd (stripeWebhook w true (Spec.succeededEvent paymentIntent) s))
                = httpLog s ++ calls ->
                httpLog
                  (snd (stripeWebhook w true (Spec.succeededEvent paymentIntent)
                          (snd (stripeWebhook w true
                                  (Spec.succeededEvent paymentIntent) s))))
                = httpLog
                    (snd (stripeWebhook w true
                            (Spec.succeededEvent paymentIntent) s))
                  ++ calls)).
Proof.
  split.
  - intros w user b s.
    destruct (confirm_twice w user b s) as (H1 & H2 & _ & H4). splits; auto.
  - intros w paymentIntent s. apply webhook_twice.
Qed.

(** C7 (counterexample).  Payment 1 is pending and the gateway reports its
    intent as succeeded.  Two confirmations in a row are both answered 200
    and send the order-paid synchronisation twice; so do two deliveries of
    the event "payment succeeded". *)
Lemma C7_counterexample :
  let w := Examples.Payments.gateway "" "succeeded" in
  let s := Examples.Payments.with1 PaymentStatus.PENDING 100 0 in
  let c1 := confirm w Examples.alice Examples.Payments.confirm1 s in
  let c2 := confirm w Examples.alice Examples.Payments.confirm1 (snd c1) in
  let ev := Spec.succeededEvent (Examples.Payments.paidIntent "pi_1") in
  let h1 := stripeWebhook w true ev s in
  let h2 := stripeWebhook w true ev (snd h1) in
  map (fun r => code r) [fst c1; fst c2; fst h1; fst h2] = [200; 200; 200; 200]%Z
  /\ map Payment.status (payments (snd c1)) = [PaymentStatus.SUCCEEDED]
  /\ filter Spec.isPaidSync (httpLog (snd c2))
     = [PutOrderPaymentStatus 1 "paid"; PutOrderPaymentStatus 1 "paid"]
  /\ filter Spec.isPaidSync (httpLog (snd h2))
     = [PutOrderPaymentStatus 1 "paid"; PutOrderPaymentStatus 1 "paid"].
Proof. cbv zeta. splits; reflexivity. Qed.

(** Witness of C7's theorem: two confirmations of payment 1, and two
    deliveries of the event for its intent. *)
Lemma C7_witness :
  httpLog
    (snd (confirm (Examples.Payments.gateway "" "succeeded") Examples.alice
            Examples.Payments.confirm1
            (snd (confirm (Examples.Payments.gateway "" "succeeded")
                    Examples.alice Examples.Payments.confirm1
                    (Examples.Payments.with1 PaymentStatus.PENDING 100 0)))))
  = httpLog
      (snd (confirm (Examples.Payments.gateway "" "succeeded") Examples.alice
              Examples.Payments.confirm1
              (Examples.Payments.with1 PaymentStatus.PENDING 100 0)))
    ++ [StripeRetrieveIntent "pi_1"; PutOrderPaymentStatus 1 "paid"]
  /\ httpLog
       (snd (stripeWebhook (Examples.Payments.gateway "" "succeeded") true
               (Spec.succeededEvent (Examples.Payments.paidIntent "pi_1"))
               (snd (stripeWebhook (Examples.Payments.gateway "" "succeeded") true
                       (Spec.succeededEvent (Examples.Payments.paidIntent "pi_1"))
                       (Examples.Payments.with1 PaymentStatus.PENDING 100 0)))))
     = httpLog
         (snd (stripeWebhook (Examples.Payments.gateway "" "succeeded") true
                 (Spec.succeededEvent (Examples.Payments.paidIntent "pi_1"))
                 (Examples.Payments.with1 PaymentStatus.PENDING 100 0)))
       ++ [PutOrderPaymentStatus 1 "paid"].
Proof.
  split.
  - apply (proj1 C7_repeat_keeps_payment_and_repeats_requests
             (Examples.Payments.gateway "" "succeeded") Examples.alice
             Examples.Payments.confirm1
             (Examples.Payments.with1 PaymentStatus.PENDING 100 0)).
    reflexivity.
  - apply (proj2 C7_repeat_keeps_payment_and_repeats_requests
             (Examples.Payments.gateway "" "succeeded")
             (Examples.Payments.paidIntent "pi_1")
             (Examples.Payments.with1 PaymentStatus.PENDING 100 0)).
    reflexivity.
Defined.

End PaymentProperties.

(* ------------------------------------------------------------------ *)
(** ** Further properties of the order service *)

Section OrderReading.

Import Http Auth OrderService OrderQueries.

Ltac run :=
  unfold handler, bind, ret, respond, throw, modify, gets, swallow in *;
  simpl in *.

Ltac splits := repeat match goal with |- _ /\ _ => split end.

(** GET /api/orders/:id, case by case. *)
Lemma getOrder_cases (w : World) (user : User) (orderId : Z) (s : State) :
  getOrder w user orderId s
  = if redis_ok w then
      let fromTables :=
        match Facts.storedOrder user orderId s with
        | Some v => (Resp 200 (Json v), Facts.withCached orderId v s)
        | None => (Resp 404 (Error "Order not found"), s)
        end in
      match Facts.cachedOrder orderId s with
      | Some v => if Facts.mayRead user v then (Resp 200 (Json v), s)
                  else fromTables
      | None => fromTables
      end
    else (Resp 500 (Error "Failed to retrieve order"), s).
Proof.
  unfold getOrder, redis_get, redis_put, Order_findOne_items,
    Facts.cachedOrder, Facts.storedOrder, Facts.mayRead, Facts.withCached,
    Spec.visibleOrder, Spec.itemsOf, handler, bind, gets, respond, ret, modify,
    throw.
  destruct (redis_ok w); [|reflexivity].
  destruct (find (fun e => (fst e =? orderId)%Z) (cache s)) as [[k v]|];
    cbn [snd];
    [destruct ((Order.userId (json_order v) =? userId user)%Z || isAdmin user);
     [reflexivity|]|];
    destruct (find _ (orders s)); reflexivity.
Qed.

Lemma storedOrder_mayRead (user : User) (orderId : Z) (s : State) (v : OrderJson) :
  Facts.storedOrder user orderId s = Some v -> Facts.mayRead user v = true.
Proof.
  unfold Facts.storedOrder, Facts.mayRead, Spec.visibleOrder.
  destruct (find _ (orders s)) as [order|] eqn:Hfind; [|discriminate].
  intros H. injection H as <-. simpl.
  apply find_some in Hfind. destruct Hfind as [_ Hacc].
  apply andb_true_iff in Hacc. destruct Hacc as [_ Hacc].
  rewrite orb_comm. exact Hacc.
Qed.

(** X1.  Whatever the cache and the tables hold, an order that GET
    /api/orders/:id hands out belongs to the caller, unless the caller is an
    admin. *)
Theorem getOrder_only_own_orders
        (w : World) (user : User) (orderId : Z) (s s' : State) (json : OrderJson) :
  getOrder w user orderId s = (Resp 200 (Json json), s') ->
  isAdmin user = true \/ Order.userId (json_order json) = userId user.
Proof.
  rewrite getOrder_cases. cbv zeta. intros H.
  assert (Hread : Facts.mayRead user json = true).
  { destruct (redis_ok w); [|discriminate].
    destruct (Facts.cachedOrder orderId s) as [v|].
    - destruct (Facts.mayRead user v) eqn:Hv.
      + injection H as <- _. exact Hv.
      + destruct (Facts.storedOrder user orderId s) as [v'|] eqn:Hs;
          [|discriminate].
        injection H as <- _. eapply storedOrder_mayRead; exact Hs.
    - destruct (Facts.storedOrder user orderId s) as [v'|] eqn:Hs;
        [|discriminate].
      injection H as <- _. eapply storedOrder_mayRead; exact Hs. }
  unfold Facts.mayRead in Hread. apply orb_true_iff in Hread.
  destruct Hread as [Hu|Ha]; [right; apply Z.eqb_eq, Hu|left; exact Ha].
Qed.

(** Witness of X1: the owner of order 1 reads it. *)
Lemma getOrder_only_own_orders_witness :
  isAdmin Examples.alice = true
  \/ Order.userId (Examples.Orders.order1 OrderStatus.PENDING PaymentStatus.PENDING)
     = userId Examples.alice.
Proof.
  apply (@getOrder_only_own_orders Examples.Orders.calm Examples.alice 1%Z
           (Examples.Orders.with1 OrderStatus.PENDING PaymentStatus.PENDING)
           (snd (getOrder Examples.Orders.calm Examples.alice 1
                   (Examples.Orders.with1 OrderStatus.PENDING
                                          PaymentStatus.PENDING)))
           {| json_order := Examples.Orders.order1 OrderStatus.PENDING
                                                   PaymentStatus.PENDING;
              json_items := Some [] |}).
  reflexivity.
Defined.

Lemma cachedOrder_withCached (orderId : Z) (v : OrderJson) (s : State) :
  Facts.cachedOrder orderId (Facts.withCached orderId v s) = Some v.
Proof.
  unfold Facts.cachedOrder, Facts.withCached. simpl.
  rewrite Z.eqb_refl. reflexivity.
Qed.

Lemma find_filter_none (A : Type) (f : A -> bool) (l : list A) :
  find f (filter (fun e => negb (f e)) l) = None.
Proof.
  induction l as [|a l IH]; simpl; [reflexivity|].
  destruct (f a) eqn:E; simpl; [exact IH|rewrite E; exact IH].
Qed.

Lemma cachedOrder_withoutCached (orderId : Z) (s : State) :
  Facts.cachedOrder orderId (Facts.withoutCached orderId s) = None.
Proof.
  unfold Facts.cachedOrder, Facts.withoutCached. simpl.
  rewrite (find_filter_none (fun e : Z * OrderJson => (fst e =? orderId)%Z)).
  reflexivity.
Qed.

(** X2.  Reading an order twice in a row gives the second time the answer
    of the first and changes nothing any more: what the first read put in
    the cache is what the second one returns. *)
Theorem getOrder_twice (w : World) (user : User) (orderId : Z) (s : State) :
  getOrder w user orderId (snd (getOrder w user orderId s))
  = (fst (getOrder w user orderId s), snd (getOrder w user orderId s)).
Proof.
  rewrite (getOrder_cases w user orderId s). cbv zeta.
  destruct (redis_ok w) eqn:Hredis;
    [|simpl; rewrite getOrder_cases, Hredis; reflexivity].
  assert (Htables :
    forall r t,
      match Facts.storedOrder user orderId s with
      | Some v => (Resp 200 (Json v), Facts.withCached orderId v s)
      | None => (Resp 404 (Error "Order not found"), s)
      end = (r, t) ->
      (Facts.cachedOrder orderId s = None
       \/ exists v, Facts.cachedOrder orderId s = Some v
                    /\ Facts.mayRead user v = false) ->
      getOrder w user orderId t = (r, t)).
  { intros r t H Hcache. rewrite getOrder_cases, Hredis. cbv zeta.
    destruct (Facts.storedOrder user orderId s) as [v|] eqn:Hs.
    - injection H as <- <-. rewrite cachedOrder_withCached.
      rewrite (@storedOrder_mayRead user orderId s v Hs). reflexivity.
    - injection H as <- <-. rewrite Hs.
      destruct Hcache as [->|(v & -> & ->)]; reflexivity. }
  destruct (Facts.cachedOrder orderId s) as [v|] eqn:Hc.
  - destruct (Facts.mayRead user v) eqn:Hv.
    + simpl. rewrite getOrder_cases, Hredis, Hc, Hv. reflexivity.
    + destruct (match Facts.storedOrder user orderId s with
                | Some v0 => _ | None => _ end) as [r t] eqn:E.
      simpl. apply (Htables r t eq_refl). right. exists v. split; auto.
  - destruct (match Facts.storedOrder user orderId s with
              | Some v0 => _ | None => _ end) as [r t] eqn:E.
    simpl. apply (Htables r t eq_refl). left. reflexivity.
Qed.


(** *** Writing, then reading *)

(** PUT /api/orders/:id, case by case. *)
Lemma updateOrder_cases (w : World) (user : User) (orderId : Z)
      (b : UpdateOrderBody) (s : State) :
  updateOrder w user orderId b s
  = if updateOrderValidation orderId b then
      match Spec.visibleOrder user orderId s with
      | None => (Resp 404 (Error "Order not found"), s)
      | Some order =>
          if Facts.cancelRefused b order then
            (Resp 400 (Error "Order cannot be cancelled"), s)
          else if save_ok w then
            if redis_ok w then
              (Resp 200 (Json ("Order updated successfully"%string,
                               {| json_order := Facts.updated b order;
                                  json_items := None |})),
               Facts.withoutCached orderId (update_order (Facts.updated b order) s))
            else (Resp 500 (Error "Failed to update order"),
                  update_order (Facts.updated b order) s)
          else (Resp 500 (Error "Failed to update order"), s)
      end
    else (Resp 400 ValidationErrors, s).
Proof.
  unfold updateOrder, Order_findOne, Order_save, redis_del, Spec.visibleOrder,
    Facts.cancelRefused, Facts.updated, Facts.withoutCached,
    handler, bind, gets, respond, ret, modify, throw.
  destruct (updateOrderValidation orderId b); [|reflexivity]. cbn [negb].
  destruct (find _ (orders s)) as [order|]; [|reflexivity].
  destruct (upd_status b) as [status|];
    [destruct (OrderStatus.eqb status OrderStatus.CANCELLED
               && negb (Order.canBeCancelled order)); [reflexivity|]|];
    destruct (save_ok w); try reflexivity;
    destruct (redis_ok w); reflexivity.
Qed.

(** POST /api/orders/:id/cancel, case by case. *)
Lemma cancelOrder_cases (w : World) (user : User) (orderId : Z) (s : State) :
  cancelOrder w user orderId s
  = match Spec.visibleOrder user orderId s with
    | None => (Resp 404 (Error "Order not found"), s)
    | Some order =>
        if Order.canBeCancelled order then
          if save_ok w then
            if redis_ok w then
              (Resp 200 (Json ("Order cancelled successfully"%string,
                               {| json_order :=
                                    Order.set_status order OrderStatus.CANCELLED;
                                  json_items := None |})),
               Facts.withoutCached orderId
                 (update_order (Order.set_status order OrderStatus.CANCELLED) s))
            else (Resp 500 (Error "Failed to cancel order"),
                  update_order (Order.set_status order OrderStatus.CANCELLED) s)
          else (Resp 500 (Error "Failed to cancel order"), s)
        else (Resp 400 (Error "Order cannot be cancelled"), s)
    end.
Proof.
  unfold cancelOrder, Order_findOne, Order_updateStatus, Order_save, redis_del,
    Spec.visibleOrder, Facts.withoutCached,
    handler, bind, gets, respond, ret, modify, throw.
  destruct (find _ (orders s)) as [order|]; [|reflexivity].
  destruct (Order.canBeCancelled order); [|reflexivity]. cbn [negb].
  destruct (save_ok w); [|reflexivity].
  destruct (redis_ok w); reflexivity.
Qed.

Lemma updated_keys (b : UpdateOrderBody) (order : Order.t) :
  Order.id (Facts.updated b order) = Order.id order
  /\ Order.userId (Facts.updated b order) = Order.userId order.
Proof.
  unfold Facts.updated.
  destruct (upd_status b), (upd_paymentStatus b), (upd_notes b); split; reflexivity.
Qed.

Lemma visibleOrder_id (user : User) (orderId : Z) (s : State) (order : Order.t) :
  Spec.visibleOrder user orderId s = Some order -> Order.id order = orderId.
Proof.
  unfold Spec.visibleOrder. intros H. apply find_some in H. destruct H as [_ H].
  apply andb_true_iff in H. destruct H as [H _]. apply Z.eqb_eq, H.
Qed.

(** After a write of [order'] over the visible order and the removal of the
    cached snapshot, a read goes to the tables and returns [order']. *)
Lemma getOrder_after_write (w : World) (user : User) (orderId : Z) (s : State)
      (order order' : Order.t) :
  Spec.visibleOrder user orderId s = Some order ->
  Order.id order' = Order.id order ->
  Order.userId order' = Order.userId order ->
  redis_ok w = true ->
  fst (getOrder w user orderId (Facts.withoutCached orderId (update_order order' s)))
  = Resp 200 (Json {| json_order := order';
                      json_items := Some (Spec.itemsOf orderId s) |}).
Proof.
  intros Hvis Hid Hu Hredis.
  rewrite getOrder_cases, Hredis, cachedOrder_withoutCached. cbv zeta.
  unfold Facts.storedOrder.
  assert (Hvis' : Spec.visibleOrder user orderId
                    (Facts.withoutCached orderId (update_order order' s))
                  = Some order').
  { apply (visibleOrder_after_save user orderId s (order := order)); assumption. }
  rewrite Hvis'. simpl.
  rewrite Hid, (visibleOrder_id _ _ _ Hvis). reflexivity.
Qed.

(** X3.  After a generic update was answered 200, the next read of the
    order by the same caller returns the order as the update returned it,
    with the items of the order: the cached snapshot was dropped and the
    read goes to the tables. *)
Theorem getOrder_after_update
        (w w' : World) (user : User) (orderId : Z) (b : UpdateOrderBody)
        (s s1 : State) (msg : string) (json : OrderJson) :
  updateOrder w user orderId b s = (Resp 200 (Json (msg, json)), s1) ->
  redis_ok w' = true ->
  fst (getOrder w' user orderId s1)
  = Resp 200 (Json {| json_order := json_order json;
                      json_items := Some (Spec.itemsOf orderId s) |}).
Proof.
  rewrite updateOrder_cases. intros H Hredis.
  destruct (updateOrderValidation orderId b); [|discriminate].
  destruct (Spec.visibleOrder user orderId s) as [order|] eqn:Hvis; [|discriminate].
  destruct (Facts.cancelRefused b order); [discriminate|].
  destruct (save_ok w); [|discriminate].
  destruct (redis_ok w); [|discriminate].
  injection H as _ <- <-. simpl.
  destruct (updated_keys b order) as [Hid Hu].
  apply (getOrder_after_write w' user orderId s (order := order)); assumption.
Qed.

(** Witness of X3: order 1 is marked shipped by its owner, then read. *)
Lemma getOrder_after_update_witness :
  fst (getOrder Examples.Orders.calm Examples.alice 1
         (snd (updateOrder Examples.Orders.calm Examples.alice 1
                 (Examples.Orders.change (Some OrderStatus.SHIPPED) None)
                 (Examples.Orders.with1 OrderStatus.PROCESSING PaymentStatus.PAID))))
  = Resp 200
      (Json {| json_order :=
                 Examples.Orders.order1 OrderStatus.SHIPPED PaymentStatus.PAID;
               json_items := Some [] |}).
Proof.
  apply (@getOrder_after_update Examples.Orders.calm Examples.Orders.calm
           Examples.alice 1%Z
           (Examples.Orders.change (Some OrderStatus.SHIPPED) None)
           (Examples.Orders.with1 OrderStatus.PROCESSING PaymentStatus.PAID)
           _ "Order updated successfully"
           {| json_order :=
                Examples.Orders.order1 OrderStatus.SHIPPED PaymentStatus.PAID;
              json_items := None |});
    reflexivity.
Defined.



Lemma find_none_all (A : Type) (f : A -> bool) (l : list A) :
  (forall a, In a l -> f a = false) -> find f l = None.
Proof.
  intros H. destruct (find f l) as [a|] eqn:E; [|reflexivity].
  apply find_some in E. destruct E as [Hin Hf]. rewrite (H a Hin) in Hf.
  discriminate.
Qed.

(** X5.  A caller who is not an admin and owns no order of the given id can
    neither update nor cancel it: both routes leave the state as it is, the
    cancel route answers 404 and the update route 404 or, for an invalid id,
    400. *)
Theorem foreign_order_is_out_of_reach
        (w : World) (user : User) (orderId : Z) (b : UpdateOrderBody) (s : State) :
  isAdmin user = false ->
  (forall o, In o (orders s) -> Order.id o = orderId ->
             Order.userId o <> userId user) ->
  cancelOrder w user orderId s = (Resp 404 (Error "Order not found"), s)
  /\ snd (updateOrder w user orderId b s) = s
  /\ (fst (updateOrder w user orderId b s) = Resp 404 (Error "Order not found")
      \/ fst (updateOrder w user orderId b s) = Resp 400 ValidationErrors).
Proof.
  intros Hadmin Hforeign.
  assert (Hvis : Spec.visibleOrder user orderId s = None).
  { unfold Spec.visibleOrder. apply find_none_all. intros o Hin.
    rewrite Hadmin. simpl.
    destruct (Order.id o =? orderId)%Z eqn:Hid; [|reflexivity]. simpl.
    apply Z.eqb_eq in Hid. apply Z.eqb_neq. apply (Hforeign o Hin Hid). }
  rewrite cancelOrder_cases, updateOrder_cases, Hvis.
  destruct (updateOrderValidation orderId b); simpl; auto.
Qed.

(** Witness of X5: user 8 on order 1 of user 7. *)
Lemma foreign_order_is_out_of_reach_witness :
  cancelOrder Examples.Orders.calm {| userId := 8; role := "customer" |} 1
    (Examples.Orders.with1 OrderStatus.PENDING PaymentStatus.PENDING)
  = (Resp 404 (Error "Order not found"),
     Examples.Orders.with1 OrderStatus.PENDING PaymentStatus.PENDING).
Proof.
  apply (@foreign_order_is_out_of_reach Examples.Orders.calm
           {| userId := 8; role := "customer" |} 1%Z
           (Examples.Orders.change None (Some PaymentStatus.PAID))
           (Examples.Orders.with1 OrderStatus.PENDING PaymentStatus.PENDING)).
  - reflexivity.
  - intros o [<-|[]] _. discriminate.
Defined.


(** *** What a created order holds *)

Lemma itemLoop_lines (w : World) (items : list ItemBody) :
  forall (acc : list ValidatedItem) (sub : Q) (s : State)
         (v : list ValidatedItem) (sub' : Q) (s' : State),
    itemLoop w items acc sub s = (Ok (v, sub'), s') ->
    exists vs, v = acc ++ vs /\ Forall2 (Facts.lineMatches w) items vs.
Proof.
  induction items as [|item rest IH]; intros acc sub s v sub' s' H.
  - simpl in H. injection H as <- _ _. exists []. rewrite app_nil_r.
    split; [reflexivity|constructor].
  - simpl in H. unfold validateAndGetProductDetails, checkProductStock in H.
    destruct (product_get w (item_productId item)) as [product|] eqn:Hp;
      [|run; discriminate].
    destruct (stock_get w (item_productId item)) as [stock|]; [|run; discriminate].
    run.
    destruct (Js.ge stock (inject_Z (item_quantity item))); simpl in H;
      [|discriminate].
    apply IH in H. destruct H as (vs & -> & Hall).
    eexists (_ :: vs). rewrite <- app_assoc. split; [reflexivity|].
    constructor; [|exact Hall].
    unfold Facts.lineMatches. simpl. splits; try reflexivity.
    exists product. splits; auto.
Qed.

Lemma createItems_rows (w : World) (oid : Z) (vitems : list ValidatedItem) :
  forall (k : nat) (s : State) (rs : list (option OrderItem.t)) (s' : State)
         (l : list OrderItem.t),
    createItems w k oid vitems s = (Ok rs, s') ->
    all_fulfilled rs = Some l ->
    Forall2 (Facts.rowCarries oid) vitems l.
Proof.
  induction vitems as [|item rest IH]; intros k s rs s' l Hrun Hall.
  - simpl in Hrun. injection Hrun as <- _. injection Hall as <-. constructor.
  - simpl in Hrun. unfold OrderItem_create in Hrun.
    destruct (OrderItem_create_ok w k); run.
    + destruct (createItems w (S k) oid rest _) as [[rs'|r|e] s2] eqn:Hrest;
        try discriminate.
      injection Hrun as <- _. simpl in Hall.
      destruct (all_fulfilled rs') as [l'|] eqn:Hl'; [|discriminate].
      injection Hall as <-. constructor.
      * unfold Facts.rowCarries. simpl. splits; reflexivity.
      * eapply IH; [exact Hrest|exact Hl'].
    + destruct (createItems w (S k) oid rest s) as [[rs'|r|e] s2] eqn:Hrest;
        try discriminate.
      injection Hrun as <- _. simpl in Hall. discriminate.
Qed.

Lemma Forall2_compose (A B C : Type) (P : A -> B -> Prop) (Q : B -> C -> Prop)
      (R : A -> C -> Prop) (la : list A) (lb : list B) (lc : list C) :
  (forall a b c, P a b -> Q b c -> R a c) ->
  Forall2 P la lb -> Forall2 Q lb lc -> Forall2 R la lc.
Proof.
  intros H HP. revert lc.
  induction HP as [|a b la lb Hab HP IH]; intros lc HQ; inversion HQ; subst;
    constructor; eauto.
Qed.

(** An answer 201 of POST /api/orders, taken apart. *)
Lemma createOrder_created (w : World) (user : User) (b : CreateOrderBody)
      (s s1 : State) (msg : string) (json : OrderJson) :
  createOrder w user b s = (Resp 201 (Json (msg, json)), s1) ->
  createOrderValidation b = true
  /\ Order.id (json_order json) = (orderSeq s + 1)%Z
  /\ Order.userId (json_order json) = userId user
  /\ Order.status (json_order json) = OrderStatus.PENDING
  /\ Order.paymentStatus (json_order json) = PaymentStatus.PENDING
  /\ Order.subtotal (json_order json) == Spec.lineSum (items b)
  /\ Order.taxAmount (json_order json)
     = calculateTax (Order.subtotal (json_order json)) defaultTaxRate
  /\ Order.shippingAmount (json_order json)
     = calculateShipping (Order.subtotal (json_order json)) (items b)
  /\ Order.discountAmount (json_order json) = 0
  /\ Order.calculateTotal (json_order json) = Order.totalAmount (json_order json)
  /\ orders s1 = orders s ++ [json_order json]
  /\ Facts.cachedOrder (Order.id (json_order json)) s1 = Some json
  /\ exists rows,
       json_items json = Some rows
       /\ orderItems s1 = orderItems s ++ rows
       /\ Forall2 (Facts.rowMatches w (Order.id (json_order json))) (items b) rows.
Proof.
  unfold createOrder, handler, bind.
  destruct (createOrderValidation b) eqn:Hval; [|discriminate]. simpl.
  pose proof (itemLoop_spec w (items b) [] 0 s) as [calls [Hs0 Hout]].
  destruct (itemLoop w (items b) [] 0 s) as [[[v sub]|r|e] s0] eqn:Hloop;
    simpl in *; [| |discriminate].
  2:{ destruct Hout as [[name ->] _]. discriminate. }
  destruct Hout as (_ & Hsum & _). subst s0.
  apply itemLoop_lines in Hloop. destruct Hloop as (vs & Hv & Hlines).
  simpl in Hv. subst vs.
  unfold Order_create. destruct (Order_create_ok w); [|discriminate].
  unfold gets, modify, ret. simpl.
  match goal with
  | |- context [createItems w 0 ?oid v ?t] =>
      destruct (createItems_spec w oid v 0 t)
        as (rs & rows & s2 & Hrun & Ho & Hi & _ & Hc & _ & _ & _ & Hs & _);
      rewrite Hrun;
      pose proof (fun l => @createItems_rows w oid v 0%nat t rs s2 l Hrun) as Hrows
  end.
  unfold Promise_all.
  destruct (all_fulfilled rs) as [l|] eqn:Hl; [|discriminate].
  unfold redis_setex, ret, modify, throw.
  destruct (redis_ok w); [|discriminate].
  intros H. injection H as _ <- <-. simpl in *.
  destruct (Hs l eq_refl) as [-> _].
  splits; try reflexivity; try assumption.
  - rewrite Hsum. ring.
  - unfold Facts.cachedOrder. simpl. rewrite Z.eqb_refl. reflexivity.
  - exists rows. splits; auto.
    eapply Forall2_compose; [|exact Hlines|apply Hrows; reflexivity].
    unfold Facts.lineMatches, Facts.rowCarries, Facts.rowMatches.
    intros a b0 c (H1 & H2 & H3 & H4 & p & H5 & H6 & H7 & H8)
           (G1 & G2 & G3 & G4 & G5 & G6 & G7 & G8).
    splits; try congruence.
    exists p. splits; congruence.
Qed.



(** X7.  After POST /api/orders answered 201, reading the new order with
    the same caller returns exactly the order and the items of the 201
    answer, from the cache, and changes nothing. *)
Theorem getOrder_after_create
        (w w' : World) (user : User) (b : CreateOrderBody) (s s1 : State)
        (msg : string) (json : OrderJson) :
  createOrder w user b s = (Resp 201 (Json (msg, json)), s1) ->
  redis_ok w' = true ->
  getOrder w' user (Order.id (json_order json)) s1 = (Resp 200 (Json json), s1).
Proof.
  intros H Hredis. apply createOrder_created in H.
  destruct H as (_ & _ & Hu & _ & _ & _ & _ & _ & _ & _ & _ & Hc & _).
  rewrite getOrder_cases, Hredis, Hc. cbv zeta.
  unfold Facts.mayRead. rewrite Hu, Z.eqb_refl. reflexivity.
Qed.

(** Witness of X7: the order of two lines is read back. *)
Lemma getOrder_after_create_witness :
  fst (getOrder Examples.Orders.calm Examples.alice 1
         (snd (createOrder Examples.Orders.calm Examples.alice
                 Examples.Orders.twoLines Examples.Orders.empty)))
  = Resp 200
      (Json (match fst (createOrder Examples.Orders.calm Examples.alice
                          Examples.Orders.twoLines Examples.Orders.empty) with
             | Resp _ (Json (_, j)) => j
             | _ => {| json_order := Examples.Orders.order1 OrderStatus.PENDING
                                       PaymentStatus.PENDING;
                       json_items := None |}
             end)).
Proof.
  pose proof (@getOrder_after_create Examples.Orders.calm Examples.Orders.calm
                Examples.alice Examples.Orders.twoLines Examples.Orders.empty
                (snd (createOrder Examples.Orders.calm Examples.alice
                        Examples.Orders.twoLines Examples.Orders.empty))
                "Order created successfully"
                (match fst (createOrder Examples.Orders.calm Examples.alice
                              Examples.Orders.twoLines Examples.Orders.empty) with
                 | Resp _ (Json (_, j)) => j
                 | _ => {| json_order := Examples.Orders.order1 OrderStatus.PENDING
                                           PaymentStatus.PENDING;
                           json_items := None |}
                 end) eq_refl eq_refl) as H.
  exact (f_equal fst H).
Defined.


(** *** Amounts of a created order *)

Lemma lineSum_nonneg (l : list ItemBody) :
  forallb itemValid l = true -> 0 <= Spec.lineSum l.
Proof.
  induction l as [|i l IH]; simpl; intros H; [lra|].
  apply andb_true_iff in H. destruct H as [Hi Hl].
  unfold itemValid in Hi. apply andb_true_iff in Hi. destruct Hi as [Hi Hp].
  apply andb_true_iff in Hi. destruct Hi as [_ Hq].
  apply Qle_bool_iff in Hp. apply Z.leb_le in Hq.
  assert (0 <= inject_Z (item_quantity i)).
  { change 0 with (inject_Z 0). rewrite <- Zle_Qle. lia. }
  specialize (IH Hl).
  assert (0 <= inject_Z (item_quantity i) * item_unitPrice i)
    by (apply Qmult_le_0_compat; assumption).
  lra.
Qed.

Lemma calculateTax_nonneg (subtotal : Q) :
  0 <= subtotal -> 0 <= calculateTax subtotal defaultTaxRate.
Proof.
  intros H. unfold calculateTax, Js.Math_round, defaultTaxRate.
  assert (Hf : (0 <= Qfloor (subtotal * (8 # 100) * 100 + (1 # 2)))%Z).
  { change 0%Z with (Qfloor 0). apply Qfloor_resp_le. lra. }
  rewrite Zle_Qle in Hf. change (inject_Z 0) with 0 in Hf.
  set (n := inject_Z (Qfloor (subtotal * (8 # 100) * 100 + (1 # 2)))) in *.
  apply Qle_shift_div_l; [reflexivity|lra].
Qed.

Lemma calculateShipping_nonneg (subtotal : Q) (l : list ItemBody) :
  (1 <= List.length l)%nat -> 0 <= calculateShipping subtotal l.
Proof.
  intros H. unfold calculateShipping. destruct (Js.ge subtotal 100); [lra|].
  assert (1 <= inject_Z (Z.of_nat (List.length l))).
  { change 1 with (inject_Z 1). rewrite <- Zle_Qle. lia. }
  set (n := inject_Z (Z.of_nat (List.length l))) in *. lra.
Qed.

(** X8.  Every order that POST /api/orders creates has a subtotal, a tax
    and a shipping amount that are not negative, a total that is at least
    the subtotal, and a total equal to what [calculateTotal] computes from
    the stored parts. *)
Theorem createOrder_amounts_are_sound
        (w : World) (user : User) (b : CreateOrderBody) (s s1 : State)
        (msg : string) (json : OrderJson) :
  createOrder w user b s = (Resp 201 (Json (msg, json)), s1) ->
  0 <= Order.subtotal (json_order json)
  /\ 0 <= Order.taxAmount (json_order json)
  /\ 0 <= Order.shippingAmount (json_order json)
  /\ Order.subtotal (json_order json) <= Order.totalAmount (json_order json)
  /\ Order.calculateTotal (json_order json) = Order.totalAmount (json_order json).
Proof.
  intros H. apply createOrder_created in H.
  destruct H as (Hval & _ & _ & _ & _ & Hsub & Htax & Hship & Hdisc & Htot & _).
  unfold createOrderValidation in Hval.
  repeat (apply andb_true_iff in Hval; destruct Hval as [Hval ?]).
  apply Nat.leb_le in Hval.
  assert (Ga : 0 <= Order.subtotal (json_order json)).
  { rewrite Hsub. apply lineSum_nonneg. assumption. }
  assert (Gb : 0 <= Order.taxAmount (json_order json)).
  { rewrite Htax. apply calculateTax_nonneg, Ga. }
  assert (Gc : 0 <= Order.shippingAmount (json_order json)).
  { rewrite Hship. apply calculateShipping_nonneg, Hval. }
  splits; auto.
  rewrite <- Htot. unfold Order.calculateTotal. rewrite Hdisc. lra.
Qed.

(** Witness of X8: the order of two lines. *)
Lemma createOrder_amounts_are_sound_witness :
  0 <= Order.subtotal
         (match fst (createOrder Examples.Orders.calm Examples.alice
                       Examples.Orders.twoLines Examples.Orders.empty) with
          | Resp _ (Json (_, j)) => json_order j
          | _ => Examples.Orders.order1 OrderStatus.PENDING PaymentStatus.PENDING
          end).
Proof.
  apply (@createOrder_amounts_are_sound Examples.Orders.calm Examples.alice
           Examples.Orders.twoLines Examples.Orders.empty
           (snd (createOrder Examples.Orders.calm Examples.alice
                   Examples.Orders.twoLines Examples.Orders.empty))
           "Order created successfully"
           (match fst (createOrder Examples.Orders.calm Examples.alice
                         Examples.Orders.twoLines Examples.Orders.empty) with
            | Resp _ (Json (_, j)) => j
            | _ => {| json_order := Examples.Orders.order1 OrderStatus.PENDING
                                      PaymentStatus.PENDING;
                      json_items := None |}
            end) eq_refl).
Defined.

(** *** Pagination *)

(** X9.  For a positive page size, the pagination object of the list routes
    reports the least number of pages that hold [count] rows, says that a
    next page exists exactly when rows remain after the current page, and
    that a previous page exists exactly when the page number exceeds 1. *)
Theorem paginate_counts_pages (pageQuery limitQuery : option Z) (count : Z) :
  (1 <= limit (snd (paginate pageQuery limitQuery count)))%Z ->
  ((totalPages (snd (paginate pageQuery limitQuery count)) - 1)
   * limit (snd (paginate pageQuery limitQuery count)) < count)%Z
  /\ (count <= totalPages (snd (paginate pageQuery limitQuery count))
               * limit (snd (paginate pageQuery limitQuery count)))%Z
  /\ (hasNext (snd (paginate pageQuery limitQuery count)) = true
      <-> (fst (paginate pageQuery limitQuery count)
           + limit (snd (paginate pageQuery limitQuery count)) < count)%Z)
  /\ (hasPrev (snd (paginate pageQuery limitQuery count)) = true
      <-> (1 < page (snd (paginate pageQuery limitQuery count)))%Z).
Proof.
  unfold paginate. simpl.
  set (p := parseIntOr pageQuery 1). set (l := parseIntOr limitQuery 10).
  intros Hl.
  set (x := inject_Z count / inject_Z l).
  assert (HlQ : 0 < inject_Z l).
  { change 0 with (inject_Z 0). rewrite <- Zlt_Qlt. lia. }
  assert (Hx : x * inject_Z l == inject_Z count).
  { unfold x. field. lra. }
  pose proof (Qle_ceiling x) as Hup. pose proof (Qceiling_lt x) as Hlow.
  assert (H1 : ((Qceiling x - 1) * l < count)%Z).
  { rewrite Zlt_Qlt, inject_Z_mult, <- Hx.
    apply Qmult_lt_compat_r; assumption. }
  assert (H2 : (count <= Qceiling x * l)%Z).
  { rewrite Zle_Qle, inject_Z_mult, <- Hx.
    apply Qmult_le_compat_r; [assumption|lra]. }
  splits; auto.
  - rewrite Z.ltb_lt. split; intros H; nia.
  - apply Z.ltb_lt.
Qed.

(** Witness of X9: page 2 of 25 rows, ten to a page. *)
Lemma paginate_counts_pages_witness :
  hasNext (snd (paginate (Some 2%Z) None 25)) = true
  <-> (fst (paginate (Some 2%Z) None 25)
       + limit (snd (paginate (Some 2%Z) None 25)) < 25)%Z.
Proof.
  apply (paginate_counts_pages (Some 2%Z) None 25). vm_compute. discriminate.
Defined.


(** *** The books of the order service *)

















End OrderReading.

(* ------------------------------------------------------------------ *)
(** ** Further properties of the payment service *)

Section PaymentRequests.

Import Http Auth PaymentService PaymentQueries.

Ltac run :=
  unfold handler, bind, ret, respond, throw, modify, gets, swallow in *;
  simpl in *.

Ltac splits := repeat match goal with |- _ /\ _ => split end.

Ltac unchanged := left; split; reflexivity.

Lemma evolves_refl (p : Payment.t) : Facts.evolves p p.
Proof. split; [reflexivity|apply Qle_refl]. Qed.

Lemma evolves_trans (p q r : Payment.t) :
  Facts.evolves p q -> Facts.evolves q r -> Facts.evolves p r.
Proof.
  intros [H1 H2] [H3 H4]. split; [congruence|].
  apply Qle_trans with (Payment.refundedAmount q); assumption.
Qed.

(** POST /api/payments/create-intent writes nothing or adds one payment. *)
Lemma createIntent_oneStep (w : World) (user : User) (b : CreateIntentBody)
      (s : State) :
  Facts.oneStep s (snd (createIntent w user b s)).
Proof.
  unfold createIntent, handler, bind.
  destruct (createPaymentIntentValidation b) eqn:Hval; simpl; [|unchanged].
  unfold getOrderDetails. run.
  destruct (order_get w (ci_orderId b)); simpl; [|unchanged].
  destruct (negb (_ =? userId user)%Z && negb (isAdmin user)); simpl; [unchanged|].
  unfold Payment_findOne. run.
  destruct (find _ (payments s)); simpl; [unchanged|].
  destruct (paymentIntents_create w _ _ _ _); simpl; [|unchanged].
  unfold Payment_create. destruct (Payment_create_ok w); run; [|unchanged].
  right. right.
  unfold redis_setex. destruct (redis_ok w); run;
    (eexists; splits; reflexivity).
Qed.

Lemma confirmAssign_evolves (p : Payment.t) (paymentIntent : PaymentIntent) :
  Facts.evolves p (fst (confirmAssign p paymentIntent)).
Proof.
  unfold confirmAssign, confirmSwitch, Facts.evolves, Facts.fixedPart.
  repeat match goal with
         | |- context [if ?c then _ else _] => destruct c
         | |- context [match ?l with [] => _ | _ :: _ => _ end] => destruct l
         | |- context [match ?o with Some _ => _ | None => _ end] => destruct o
         end; simpl; splits; try reflexivity; apply Qle_refl.
Qed.

(** POST /api/payments/confirm writes nothing or a later version of the
    payment it found. *)
Lemma confirm_oneStep (w : World) (user : User) (b : ConfirmBody) (s : State) :
  Facts.oneStep s (snd (confirm w user b s)).
Proof.
  destruct (confirmPaymentValidation b) eqn:Hval;
    [|rewrite confirm_invalid by assumption; unchanged].
  destruct (isAdmin user) eqn:Hadmin;
    [rewrite (confirm_admin w user b s Hval Hadmin); unchanged|].
  destruct (Spec.confirmTarget user b s) as [payment|] eqn:Htarget;
    [|rewrite (confirm_missing w user b s Hval Hadmin Htarget); unchanged].
  destruct (paymentIntents_retrieve w (cf_paymentIntentId b))
    as [paymentIntent|] eqn:Hretrieve;
    [|rewrite (confirm_gateway_down w user b s Hval Htarget Hretrieve); unchanged].
  rewrite (confirm_found w user b s Hval Htarget Hretrieve). cbv zeta.
  destruct (save_ok w); [|unchanged].
  right. left. exists payment, (fst (confirmAssign payment paymentIntent)).
  pose proof (confirmAssign_evolves payment paymentIntent) as He.
  apply confirmTarget_find, find_some in Htarget. destruct Htarget as [Hin _].
  destruct (redis_ok w); simpl; splits; auto.
Qed.

(** POST /api/payments/:id/refund writes nothing or a later version of the
    payment it found. *)
Lemma refund_oneStep (w : World) (user : User) (paymentId : Z) (b : RefundBody)
      (s : State) :
  Facts.oneStep s (snd (refund w user paymentId b s)).
Proof.
  unfold refund, handler, bind.
  destruct (refundValidation paymentId b) eqn:Hval; simpl; [|unchanged].
  unfold Payment_findOne, gets.
  destruct (find _ (payments s)) as [payment|] eqn:Hfind; simpl; [|unchanged].
  destruct (Payment.canBeRefunded payment) eqn:Hcan; simpl; [|unchanged].
  destruct (Js.gt _ _) eqn:Hgt; simpl; [unchanged|].
  destruct (refunds_create w _ _); simpl; [|unchanged].
  unfold Payment_addRefund, Payment_save, bind.
  destruct (save_ok w); simpl; [|unchanged].
  right. left.
  exists payment,
    (Payment.addRefund_fields payment
       (Js.or_else (rf_amount b) (Payment.getRemainingRefundableAmount payment))).
  pose proof (@refundAmount_pos paymentId b payment Hval Hcan) as Hpos.
  apply gt_false_iff in Hgt.
  apply find_some in Hfind. destruct Hfind as [Hin _].
  assert (He : Facts.evolves payment
                 (Payment.addRefund_fields payment
                    (Js.or_else (rf_amount b)
                       (Payment.getRemainingRefundableAmount payment)))).
  { unfold Facts.evolves, Facts.fixedPart, Payment.addRefund_fields.
    destruct (Js.ge _ _); simpl; split; try reflexivity; lra. }
  destruct (PaymentStatus.eqb _ _); unfold updateOrderPaymentStatus, redis_del;
    run; destruct (redis_ok w); simpl; splits; auto.
Qed.


(** The webhook handlers never fail and write nothing or a later version of
    the payment they found. *)
Lemma handleSucceeded_oneStep (w : World) (o : StripeObject) (s : State) :
  fst (handlePaymentIntentSucceeded w o s) = Ok tt
  /\ Facts.oneStep s (snd (handlePaymentIntentSucceeded w o s)).
Proof.
  unfold handlePaymentIntentSucceeded, asPaymentIntent, Payment_findOne.
  destruct o as [paymentIntent|d|]; run; try (split; [reflexivity|unchanged]).
  destruct (find _ (payments s)) as [payment|] eqn:Hfind; simpl;
    [|split; [reflexivity|unchanged]].
  unfold Payment_save, updateOrderPaymentStatus, redis_del.
  destruct (save_ok w); run; [|split; [reflexivity|unchanged]].
  apply find_some in Hfind. destruct Hfind as [Hin _].
  assert (He : Facts.evolves payment (succeededAssign payment paymentIntent)).
  { unfold succeededAssign, Facts.evolves, Facts.fixedPart.
    destruct (charges_data paymentIntent) as [|charge ?]; simpl;
      [|destruct (payment_method_details_card charge)]; simpl;
      splits; try reflexivity; apply Qle_refl. }
  destruct (redis_ok w); run; (split; [reflexivity|]); right; left;
    exists payment, (succeededAssign payment paymentIntent); splits; auto.
Qed.

Lemma handleFailed_oneStep (w : World) (o : StripeObject) (s : State) :
  fst (handlePaymentIntentFailed w o s) = Ok tt
  /\ Facts.oneStep s (snd (handlePaymentIntentFailed w o s)).
Proof.
  unfold handlePaymentIntentFailed, asPaymentIntent, Payment_findOne.
  destruct o as [paymentIntent|d|]; run; try (split; [reflexivity|unchanged]).
  destruct (find _ (payments s)) as [payment|] eqn:Hfind; simpl;
    [|split; [reflexivity|unchanged]].
  unfold Payment_save, updateOrderPaymentStatus, redis_del.
  destruct (save_ok w); run; [|split; [reflexivity|unchanged]].
  apply find_some in Hfind. destruct Hfind as [Hin _].
  destruct (redis_ok w); run; (split; [reflexivity|]); right; left;
    (exists payment,
       (Payment.set_failureReason
          (Payment.set_status payment PaymentStatus.FAILED)
          (Some (str_or_else (last_payment_error_message paymentIntent)
                             "Payment failed")));
     splits;
     [exact Hin
     |split; [reflexivity|apply Qle_refl]
     |reflexivity
     |reflexivity]).
Qed.

Lemma handleCanceled_oneStep (w : World) (o : StripeObject) (s : State) :
  fst (handlePaymentIntentCanceled w o s) = Ok tt
  /\ Facts.oneStep s (snd (handlePaymentIntentCanceled w o s)).
Proof.
  unfold handlePaymentIntentCanceled, asPaymentIntent, Payment_findOne.
  destruct o as [paymentIntent|d|]; run; try (split; [reflexivity|unchanged]).
  destruct (find _ (payments s)) as [payment|] eqn:Hfind; simpl;
    [|split; [reflexivity|unchanged]].
  unfold Payment_save, updateOrderPaymentStatus, redis_del.
  destruct (save_ok w); run; [|split; [reflexivity|unchanged]].
  apply find_some in Hfind. destruct Hfind as [Hin _].
  destruct (redis_ok w); run; (split; [reflexivity|]); right; left;
    (exists payment, (Payment.set_status payment PaymentStatus.CANCELLED);
     splits;
     [exact Hin
     |split; [reflexivity|apply Qle_refl]
     |reflexivity
     |reflexivity]).
Qed.

(** POST /api/webhooks/stripe, by the handler that the event type selects. *)
Lemma stripeWebhook_cases (w : World) (signatureValid : bool)
      (event : StripeEvent) (s : State) :
  stripeWebhook w signatureValid event s
  = if signatureValid then
      (Resp 200 (Json Received),
       if String.eqb (ev_type event) "payment_intent.succeeded" then
         snd (handlePaymentIntentSucceeded w (ev_data_object event) s)
       else if String.eqb (ev_type event) "payment_intent.payment_failed" then
         snd (handlePaymentIntentFailed w (ev_data_object event) s)
       else if String.eqb (ev_type event) "payment_intent.canceled" then
         snd (handlePaymentIntentCanceled w (ev_data_object event) s)
       else s)
    else (Resp 400 (Text "Webhook Error: "), s).
Proof.
  unfold stripeWebhook. destruct signatureValid; [|reflexivity]. cbn [negb].
  unfold handler, bind. cbv zeta.
  destruct (String.eqb (ev_type event) "payment_intent.succeeded").
  { pose proof (handleSucceeded_oneStep w (ev_data_object event) s) as [H _].
    destruct (handlePaymentIntentSucceeded w (ev_data_object event) s) as [o t].
    simpl in H. subst o. reflexivity. }
  destruct (String.eqb (ev_type event) "payment_intent.payment_failed").
  { pose proof (handleFailed_oneStep w (ev_data_object event) s) as [H _].
    destruct (handlePaymentIntentFailed w (ev_data_object event) s) as [o t].
    simpl in H. subst o. reflexivity. }
  destruct (String.eqb (ev_type event) "payment_intent.canceled").
  { pose proof (handleCanceled_oneStep w (ev_data_object event) s) as [H _].
    destruct (handlePaymentIntentCanceled w (ev_data_object event) s) as [o t].
    simpl in H. subst o. reflexivity. }
  repeat match goal with
         | |- context [if ?c then _ else _] => destruct c
         end; reflexivity.
Qed.

Lemma stripeWebhook_oneStep (w : World) (signatureValid : bool)
      (event : StripeEvent) (s : State) :
  Facts.oneStep s (snd (stripeWebhook w signatureValid event s)).
Proof.
  rewrite stripeWebhook_cases. destruct signatureValid; simpl; [|unchanged].
  destruct (String.eqb _ _); [apply handleSucceeded_oneStep|].
  destruct (String.eqb _ _); [apply handleFailed_oneStep|].
  destruct (String.eqb _ _); [apply handleCanceled_oneStep|unchanged].
Qed.

(** GET /api/payments/:id, case by case. *)
Lemma getPayment_cases (w : World) (user : User) (paymentId : Z) (s : State) :
  getPayment w user paymentId s
  = if redis_ok w then
      let fromTable :=
        match Spec.visiblePayment user paymentId s with
        | Some p =>
            (Resp 200 (Json p),
             set_cache
               ((paymentId, p)
                :: filter (fun e => negb (fst e =? paymentId)%Z) (cache s)) s)
        | None => (Resp 404 (Error "Payment not found"), s)
        end in
      match find (fun e => (fst e =? paymentId)%Z) (cache s) with
      | Some e =>
          if (Payment.userId (snd e) =? userId user)%Z || isAdmin user
          then (Resp 200 (Json (snd e)), s)
          else fromTable
      | None => fromTable
      end
    else (Resp 500 (Error "Failed to retrieve payment"), s).
Proof.
  unfold getPayment, redis_get, redis_put, Spec.visiblePayment, handler, bind,
    gets, respond, ret, modify, throw.
  destruct (redis_ok w); [|reflexivity].
  destruct (find (fun e => (fst e =? paymentId)%Z) (cache s)) as [[k v]|];
    cbn [snd];
    [destruct ((Payment.userId v =? userId user)%Z || isAdmin user);
     [reflexivity|]|];
    destruct (find _ (payments s)); reflexivity.
Qed.

(** Every request writes nothing, a later version of a stored payment, or a
    new payment. *)
Lemma after_oneStep (r : Request) (s : State) : Facts.oneStep s (after r s).
Proof.
  destruct r; simpl.
  - apply createIntent_oneStep.
  - apply confirm_oneStep.
  - apply refund_oneStep.
  - apply stripeWebhook_oneStep.
  - rewrite getPayment_cases. destruct (redis_ok w); [|unchanged].
    destruct (find _ (cache s)) as [e|];
      [destruct (_ || _); [unchanged|]|];
      destruct (Spec.visiblePayment user paymentId s); unchanged.
Qed.


(** *** What no sequence of requests does *)

Lemma nodup_same_id (l : list Payment.t) (p r : Payment.t) :
  NoDup (map Payment.id l) -> In p l -> In r l ->
  Payment.id r = Payment.id p -> r = p.
Proof.
  induction l as [|a l IH]; simpl; intros Hnd Hp Hr Hid; [contradiction|].
  inversion Hnd as [|x xs Hnotin Hnd']; subst.
  destruct Hp as [->|Hp], Hr as [->|Hr]; auto.
  - exfalso. apply Hnotin. rewrite <- Hid. apply in_map, Hr.
  - exfalso. apply Hnotin. rewrite Hid. apply in_map, Hp.
Qed.

Lemma nodup_snoc (l : list Z) (a : Z) :
  NoDup l -> ~ In a l -> NoDup (l ++ [a]).
Proof.
  induction l as [|x l IH]; simpl; intros Hnd Hnotin.
  - constructor; [intros []|constructor].
  - inversion Hnd as [|y ys Hx Hl]; subst. constructor.
    + intros Hin. apply in_app_or in Hin. destruct Hin as [Hin|[->|[]]]; tauto.
    + apply IH; tauto.
Qed.

Lemma fixedPart_id (p p' : Payment.t) :
  Facts.fixedPart p' = Facts.fixedPart p -> Payment.id p' = Payment.id p.
Proof. unfold Facts.fixedPart. intros H. congruence. Qed.

Lemma Forall2_refl_evolves (l : list Payment.t) : Forall2 Facts.evolves l l.
Proof. induction l; constructor; auto using evolves_refl. Qed.

Lemma oneStep_grows (s s' : State) :
  Facts.oneStep s s' -> Facts.distinctIds s ->
  Facts.distinctIds s' /\ Facts.grownFrom s s'.
Proof.
  unfold Facts.distinctIds, Facts.grownFrom.
  intros [[Hp Hq]|[(p & p' & Hin & He & Hp & Hq)|(p & Hp & Hid & Hq)]]
         [Hnd Hle].
  - rewrite Hp, Hq. splits; auto.
    exists (payments s), []. rewrite app_nil_r. split; [reflexivity|].
    apply Forall2_refl_evolves.
  - pose proof (fixedPart_id (proj1 He)) as Hid.
    assert (Hids : map Payment.id (payments s') = map Payment.id (payments s)).
    { rewrite Hp, map_map. apply map_ext. intros r.
      destruct (Payment.id r =? Payment.id p')%Z eqn:E; [|reflexivity].
      apply Z.eqb_eq in E. congruence. }
    splits.
    + rewrite Hids. exact Hnd.
    + rewrite Hq. rewrite Hp. apply Forall_overwrite; [exact Hle|].
      rewrite Hid. rewrite Forall_forall in Hle. apply Hle, Hin.
    + exists (payments s'), []. rewrite app_nil_r. split; [reflexivity|].
      rewrite Hp.
      assert (Hall : forall l, (forall r, In r l -> In r (payments s)) ->
                Forall2 Facts.evolves l
                  (map (fun r => if (Payment.id r =? Payment.id p')%Z
                                 then p' else r) l)).
      { induction l as [|a l IHl]; intros Hsub; simpl; constructor.
        - destruct (Payment.id a =? Payment.id p')%Z eqn:E;
            [|apply evolves_refl].
          apply Z.eqb_eq in E.
          assert (a = p).
          { apply (nodup_same_id (payments s)); auto.
            - apply Hsub. left. reflexivity.
            - congruence. }
          subst a. exact He.
        - apply IHl. intros r Hr. apply Hsub. right. exact Hr. }
      apply Hall. auto.
  - splits.
    + rewrite Hp, map_app. simpl. apply nodup_snoc; [exact Hnd|].
      intros Hi. apply in_map_iff in Hi. destruct Hi as (r & Hr & Hri).
      rewrite Forall_forall in Hle. specialize (Hle r Hri). lia.
    + rewrite Hq, Hp. apply Forall_app. split.
      * eapply Forall_impl; [|exact Hle]. simpl. intros a Ha. lia.
      * constructor; [lia|constructor].
    + exists (payments s), [p]. split; [exact Hp|apply Forall2_refl_evolves].
Qed.

Lemma Forall2_evolves_trans (l1 l2 l3 : list Payment.t) :
  Forall2 Facts.evolves l1 l2 -> Forall2 Facts.evolves l2 l3 ->
  Forall2 Facts.evolves l1 l3.
Proof.
  intros H. revert l3. induction H as [|a b l1 l2 Hab H IH]; intros l3 H3;
    inversion H3; subst; constructor; eauto using evolves_trans.
Qed.

Lemma grownFrom_trans (s1 s2 s3 : State) :
  Facts.grownFrom s1 s2 -> Facts.grownFrom s2 s3 -> Facts.grownFrom s1 s3.
Proof.
  intros (k1 & n1 & H1 & F1) (k2 & n2 & H2 & F2).
  rewrite H1 in F2. apply Forall2_app_inv_l in F2.
  destruct F2 as (k2a & k2b & Fa & Fb & ->).
  exists k2a, (k2b ++ n2). split; [rewrite H2, app_assoc; reflexivity|].
  apply Forall2_evolves_trans with k1; assumption.
Qed.

(** X11.  When the ids of the payments are distinct, they stay distinct
    whatever requests are served, and the table only grows: no payment is
    removed or moves, the id, order, user, intent, amount, currency and
    method of a stored payment never change, and its refunded amount never
    goes down. *)
Theorem payments_are_kept_under_all_requests (rs : list Request) (s : State) :
  Facts.distinctIds s ->
  Facts.distinctIds (afterAll rs s) /\ Facts.grownFrom s (afterAll rs s).
Proof.
  revert s. induction rs as [|r rest IH]; intros s Hs; simpl.
  - split; [exact Hs|].
    exists (payments s), []. rewrite app_nil_r. split; [reflexivity|].
    apply Forall2_refl_evolves.
  - destruct (oneStep_grows (after_oneStep r s) Hs) as [Hd Hg].
    destruct (IH _ Hd) as [Hd' Hg']. split; [exact Hd'|].
    apply grownFrom_trans with (after r s); assumption.
Qed.


(** *** Refunds, one at a time *)

(** POST /api/payments/:id/refund, case by case. *)
Lemma refund_cases (w : World) (user : User) (paymentId : Z) (b : RefundBody)
      (s : State) :
  refund w user paymentId b s
  = if refundValidation paymentId b then
      match Spec.visiblePayment user paymentId s with
      | None => (Resp 404 (Error "Payment not found"), s)
      | Some p =>
          if Payment.canBeRefunded p then
            let a := Js.or_else (rf_amount b)
                                (Payment.getRemainingRefundableAmount p) in
            if Js.gt a (Payment.getRemainingRefundableAmount p) then
              (Resp 400 (Error "Refund amount exceeds remaining refundable amount"),
               s)
            else
              let cents := Js.Math_round (a * 100) in
              let asked := log (StripeCreateRefund (Payment.stripeChargeId p) cents) s in
              match refunds_create w (Payment.stripeChargeId p) cents with
              | None => (Resp 500 (Error "Failed to process refund"), asked)
              | Some rf =>
                  let p' := Payment.addRefund_fields p a in
                  if save_ok w then
                    let written := update_payment p' asked in
                    let synced :=
                      if PaymentStatus.eqb (Payment.status p') PaymentStatus.REFUNDED
                      then log (PutOrderPaymentStatus (Payment.orderId p') "refunded")
                               written
                      else written in
                    if redis_ok w then
                      (Resp 200
                         (Json (RefundJson "Refund processed successfully" rf a
                                  match rf_reason b with
                                  | Some r => r
                                  | None => "Customer request"%string
                                  end p')),
                       set_cache
                         (filter (fun e => negb (fst e =? paymentId)%Z) (cache synced))
                         synced)
                    else (Resp 500 (Error "Failed to process refund"), synced)
                  else (Resp 500 (Error "Failed to process refund"), asked)
              end
          else (Resp 400 (Error "Payment cannot be refunded"), s)
      end
    else (Resp 400 ValidationErrors, s).
Proof.
  unfold refund, Spec.visiblePayment, Payment_findOne, Payment_addRefund,
    Payment_save, updateOrderPaymentStatus, redis_del,
    handler, bind, gets, respond, ret, modify, throw, swallow.
  destruct (refundValidation paymentId b); [|reflexivity]. cbn [negb].
  destruct (find _ (payments s)) as [p|]; [|reflexivity].
  destruct (Payment.canBeRefunded p); [|reflexivity]. cbn [negb]. cbv zeta.
  destruct (Js.gt _ _); [reflexivity|].
  destruct (refunds_create w _ _); [|reflexivity].
  destruct (save_ok w); [|reflexivity].
  destruct (PaymentStatus.eqb _ _); destruct (redis_ok w); reflexivity.
Qed.









(** X13.  The refund route records a refund only after the gateway was
    asked and accepted: when the gateway rejects every refund the payments
    stay as they are and the answer is not 200, and whenever no refund
    request went out to the gateway the payments stay as they are. *)
Theorem refund_needs_the_gateway
        (w : World) (user : User) (paymentId : Z) (b : RefundBody) (s : State) :
  ((forall charge cents, refunds_create w charge cents = None) ->
   payments (snd (refund w user paymentId b s)) = payments s
   /\ code (fst (refund w user paymentId b s)) <> 200%Z)
  /\ (forall calls,
         httpLog (snd (refund w user paymentId b s)) = httpLog s ++ calls ->
         existsb Facts.isRefundCall calls = false ->
         payments (snd (refund w user paymentId b s)) = payments s).
Proof.
  rewrite refund_cases.
  destruct (refundValidation paymentId b);
    [|split; [intros; split; [reflexivity|discriminate]|reflexivity]].
  destruct (Spec.visiblePayment user paymentId s) as [p|];
    [|split; [intros; split; [reflexivity|discriminate]|reflexivity]].
  destruct (Payment.canBeRefunded p);
    [|split; [intros; split; [reflexivity|discriminate]|reflexivity]].
  cbv zeta.
  destruct (Js.gt _ _);
    [split; [intros; split; [reflexivity|discriminate]|reflexivity]|].
  split.
  - intros Hdown. rewrite Hdown. simpl. split; [reflexivity|discriminate].
  - intros calls Hlog Hnone. exfalso.
    assert (Hhas : exists rest,
               calls = StripeCreateRefund (Payment.stripeChargeId p)
                         (Js.Math_round
                            (Js.or_else (rf_amount b)
                               (Payment.getRemainingRefundableAmount p) * 100))
                       :: rest).
    { revert Hlog.
      destruct (refunds_create w _ _); [destruct (save_ok w)|];
        [destruct (PaymentStatus.eqb _ _); destruct (redis_ok w)| |];
        simpl; rewrite <- ?app_assoc; intros E; apply log_tail in E;
        subst calls; eexists; reflexivity. }
    destruct Hhas as [rest ->]. simpl in Hnone. discriminate.
Qed.

(** Witness of X13: the gateway rejects the refund of payment 1. *)
Lemma refund_needs_the_gateway_witness :
  payments
    (snd (refund
            {| order_get := fun _ => Some 7%Z;
               paymentIntents_create := fun _ _ _ _ => None;
               paymentIntents_retrieve := fun _ => None;
               refunds_create := fun _ _ => None;
               Payment_create_ok := true; save_ok := true; redis_ok := true |}
            Examples.alice 1 (Examples.Payments.refundOf 30)
            (Examples.Payments.with1 PaymentStatus.SUCCEEDED 100 0)))
  = [Examples.Payments.payment1 PaymentStatus.SUCCEEDED 100 0]
  /\ payments
       (snd (refund (Examples.Payments.gateway "" "") Examples.alice 1
               (Examples.Payments.refundOf 150)
               (Examples.Payments.with1 PaymentStatus.SUCCEEDED 100 0)))
     = [Examples.Payments.payment1 PaymentStatus.SUCCEEDED 100 0].
Proof.
  split.
  - apply (proj1 (refund_needs_the_gateway _ Examples.alice 1%Z
                    (Examples.Payments.refundOf 30)
                    (Examples.Payments.with1 PaymentStatus.SUCCEEDED 100 0))).
    reflexivity.
  - apply (proj2 (refund_needs_the_gateway (Examples.Payments.gateway "" "")
                    Examples.alice 1%Z (Examples.Payments.refundOf 150)
                    (Examples.Payments.with1 PaymentStatus.SUCCEEDED 100 0)) []);
      reflexivity.
Defined.







(** Witness of X11: an intent is created, fails, and a second one is
    created. *)
Lemma payments_are_kept_under_all_requests_witness :
  Facts.distinctIds
    (afterAll
       [ CreateIntent (Examples.Payments.gateway "pi_1" "") Examples.alice
           Examples.Payments.pay50;
         Webhook (Examples.Payments.gateway "pi_1" "") true
           (Examples.Payments.event "payment_intent.payment_failed"
              (Examples.Payments.intent "pi_1" "requires_payment_method"));
         CreateIntent (Examples.Payments.gateway "pi_2" "") Examples.alice
           Examples.Payments.pay50 ]
       Examples.Payments.empty)
  /\ Facts.grownFrom Examples.Payments.empty
       (afterAll
          [ CreateIntent (Examples.Payments.gateway "pi_1" "") Examples.alice
              Examples.Payments.pay50;
            Webhook (Examples.Payments.gateway "pi_1" "") true
              (Examples.Payments.event "payment_intent.payment_failed"
                 (Examples.Payments.intent "pi_1" "requires_payment_method"));
            CreateIntent (Examples.Payments.gateway "pi_2" "") Examples.alice
              Examples.Payments.pay50 ]
          Examples.Payments.empty).
Proof.
  apply payments_are_kept_under_all_requests.
  split; constructor.
Defined.


(** *** The cache of payments *)












Lemma find_unique (l : list Payment.t) (f : Payment.t -> bool) (p : Payment.t) :
  NoDup (map Payment.id l) -> In p l -> f p = true ->
  (forall r, f r = true -> Payment.id r = Payment.id p) ->
  find f l = Some p.
Proof.
  intros Hnd Hin Hf Hid.
  destruct (find f l) as [r|] eqn:Hfind.
  - apply find_some in Hfind. destruct Hfind as [Hr Hfr].
    f_equal. apply (@nodup_same_id l p r Hnd Hin Hr). apply Hid, Hfr.
  - pose proof (find_none _ _ Hfind _ Hin) as H. congruence.
Qed.

(** X16.  When the ids of the table are distinct and the cache is fresh,
    the payment that GET /api/payments/:id hands out with 200 is the stored
    payment of that id, and it belongs to the caller unless the caller is an
    admin: the route never shows a stale or a foreign payment. *)
Theorem getPayment_is_never_stale
        (w : World) (user : User) (paymentId : Z) (s : State) (p : Payment.t) :
  Facts.distinctIds s ->
  Facts.cacheFresh s ->
  fst (getPayment w user paymentId s) = Resp 200 (Json p) ->
  Spec.visiblePayment user paymentId s = Some p
  /\ Facts.paymentById paymentId s = Some p
  /\ (isAdmin user = true \/ Payment.userId p = userId user).
Proof.
  intros [Hnd _] Hfresh Hres.
  assert (Hvis : Spec.visiblePayment user paymentId s = Some p).
  { revert Hres. rewrite getPayment_cases.
    destruct (redis_ok w); [|discriminate]. cbv zeta.
    destruct (find (fun e => (fst e =? paymentId)%Z) (cache s)) as [e|] eqn:Hc.
    - destruct ((Payment.userId (snd e) =? userId user)%Z || isAdmin user)
        eqn:Hmay.
      + simpl. intros H. injection H as <-.
        apply find_some in Hc. destruct Hc as [He Hk]. apply Z.eqb_eq in Hk.
        unfold Facts.cacheFresh in Hfresh. rewrite Forall_forall in Hfresh.
        destruct (Hfresh e He) as [Hid Hin].
        apply find_unique; auto.
        * rewrite Hid, Hk, Z.eqb_refl, orb_comm. exact Hmay.
        * intros r Hr. apply andb_true_iff in Hr. destruct Hr as [Hr _].
          apply Z.eqb_eq in Hr. congruence.
      + destruct (Spec.visiblePayment user paymentId s); simpl; intros H;
          [injection H as <-; reflexivity|discriminate].
    - destruct (Spec.visiblePayment user paymentId s); simpl; intros H;
        [injection H as <-; reflexivity|discriminate]. }
  pose proof Hvis as Hfind. unfold Spec.visiblePayment in Hfind.
  apply find_some in Hfind. destruct Hfind as [Hin Hp].
  apply andb_true_iff in Hp. destruct Hp as [Hid Hmay].
  splits; [exact Hvis| |].
  - apply find_unique; auto.
    intros r Hr. apply Z.eqb_eq in Hr, Hid. congruence.
  - apply orb_true_iff in Hmay. destruct Hmay as [Ha|Hu];
      [left; exact Ha|right; apply Z.eqb_eq, Hu].
Qed.



(** Witness of X16: the payment of a new intent, read from the cache. *)
Lemma getPayment_is_never_stale_witness :
  exists p,
    fst (getPayment (Examples.Payments.gateway "" "") Examples.alice 1
           (snd (createIntent (Examples.Payments.gateway "pi_1" "")
                   Examples.alice Examples.Payments.pay50
                   Examples.Payments.empty)))
    = Resp 200 (Json p)
    /\ Facts.paymentById 1
         (snd (createIntent (Examples.Payments.gateway "pi_1" "")
                 Examples.alice Examples.Payments.pay50
                 Examples.Payments.empty))
       = Some p.
Proof.
  eexists. split; [reflexivity|].
  eapply (@getPayment_is_never_stale (Examples.Payments.gateway "" "")
            Examples.alice 1%Z).
  - split; simpl.
    + constructor; [intros []|constructor].
    + constructor; [simpl; lia|constructor].
  - constructor; [split; [reflexivity|left; reflexivity]|constructor].
  - reflexivity.
Defined.


(** *** Creating an intent *)

(** POST /api/payments/create-intent, case by case. *)
Lemma createIntent_cases (w : World) (user : User) (b : CreateIntentBody)
      (s : State) :
  createIntent w user b s
  = if createPaymentIntentValidation b then
      let currency :=
        match ci_currency b with Some c => c | None => "USD"%string end in
      let asked := log (GetOrder (ci_orderId b)) s in
      match order_get w (ci_orderId b) with
      | None => (Resp 500 (Error "Failed to create payment intent"), asked)
      | Some owner =>
          if negb (owner =? userId user)%Z && negb (isAdmin user) then
            (Resp 403 (Error "Access denied to this order"), asked)
          else
            match Spec.activePayments (ci_orderId b) s with
            | _ :: _ =>
                (Resp 400 (Error "Payment already exists for this order"), asked)
            | [] =>
                let cents := Js.Math_round (ci_amount b * 100) in
                let sent := log (StripeCreateIntent cents (ci_orderId b)) asked in
                match paymentIntents_create w cents currency (ci_orderId b)
                        (userId user) with
                | None =>
                    (Resp 500 (Error "Failed to create payment intent"), sent)
                | Some paymentIntent =>
                    let p :=
                      {| Payment.id := paymentSeq s + 1;
                         Payment.orderId := ci_orderId b;
                         Payment.userId := userId user;
                         Payment.stripePaymentIntentId :=
                           Some (pi_id paymentIntent);
                         Payment.stripeChargeId := None;
                         Payment.amount := ci_amount b;
                         Payment.currency := currency;
                         Payment.status := PaymentStatus.PENDING;
                         Payment.paymentMethod := ci_paymentMethod b;
                         Payment.paymentMethodDetails := None;
                         Payment.refundedAmount := 0;
                         Payment.failureReason := None;
                         Payment.metadata :=
                           [("stripeClientSecret"%string,
                             client_secret paymentIntent)] |} in
                    if Payment_create_ok w then
                      let stored := insert_payment p sent in
                      if redis_ok w then
                        (Resp 201
                           (Json (IntentCreated (paymentSeq s + 1)
                                    (client_secret paymentIntent) (ci_amount b)
                                    currency PaymentStatus.PENDING)),
                         set_cache
                           ((paymentSeq s + 1, p)%Z
                            :: filter (fun e => negb (fst e =? paymentSeq s + 1)%Z)
                                      (cache s))
                           stored)
                      else
                        (Resp 500 (Error "Failed to create payment intent"),
                         stored)
                    else
                      (Resp 500 (Error "Failed to create payment intent"), sent)
                end
            end
      end
    else (Resp 400 ValidationErrors, s).
Proof.
  unfold createIntent, handler, bind.
  destruct (createPaymentIntentValidation b); simpl; [|reflexivity].
  unfold getOrderDetails. run.
  destruct (order_get w (ci_orderId b)); simpl; [|reflexivity].
  destruct (negb (_ =? userId user)%Z && negb (isAdmin user)); simpl;
    [reflexivity|].
  unfold Payment_findOne. run.
  destruct (find _ (payments s)) as [existing|] eqn:Hfind; simpl.
  - destruct (Spec.activePayments (ci_orderId b) s) eqn:Hact; [|reflexivity].
    apply find_some in Hfind. destruct Hfind as [Hin Hf].
    assert (Hin' : In existing (Spec.activePayments (ci_orderId b) s)).
    { unfold Spec.activePayments. apply filter_In. split; assumption. }
    rewrite Hact in Hin'. destruct Hin'.
  - unfold Spec.activePayments. rewrite (find_none_filter _ _ Hfind).
    destruct (paymentIntents_create w _ _ _ _); simpl; [|reflexivity].
    unfold Payment_create. destruct (Payment_create_ok w); run; [|reflexivity].
    unfold redis_setex. destruct (redis_ok w); run; reflexivity.
Qed.




(** X18.  The create-intent route asks the order service before anything
    else: for a valid request of a caller who is not an admin, when the
    order is not reported as the caller's own, the answer is 403 (an order
    of somebody else) or 500 (no order reported), the one request that left
    the service is the GET of the order, and no intent is created at the
    gateway, no payment stored and nothing cached. *)
Theorem createIntent_checks_the_order_first
        (w : World) (user : User) (b : CreateIntentBody) (s : State) :
  createPaymentIntentValidation b = true ->
  isAdmin user = false ->
  order_get w (ci_orderId b) <> Some (userId user) ->
  createIntent w user b s
  = (match order_get w (ci_orderId b) with
     | Some _ => Resp 403 (Error "Access denied to this order")
     | None => Resp 500 (Error "Failed to create payment intent")
     end,
     log (GetOrder (ci_orderId b)) s).
Proof.
  intros Hval Hadmin Hother.
  rewrite createIntent_cases, Hval, Hadmin. cbv zeta.
  destruct (order_get w (ci_orderId b)) as [owner|]; [|reflexivity].
  destruct (owner =? userId user)%Z eqn:Hown; [|reflexivity].
  apply Z.eqb_eq in Hown. subst owner. contradiction.
Qed.

(** Witness of X18: user 8 asks to pay for order 1 of user 7. *)
Lemma createIntent_checks_the_order_first_witness :
  createIntent (Examples.Payments.gateway "pi_1" "")
    {| userId := 8; role := "customer" |}
    Examples.Payments.pay50 Examples.Payments.empty
  = (Resp 403 (Error "Access denied to this order"),
     log (GetOrder 1) Examples.Payments.empty).
Proof.
  apply (@createIntent_checks_the_order_first
           (Examples.Payments.gateway "pi_1" "")
           {| userId := 8; role := "customer" |}
           Examples.Payments.pay50 Examples.Payments.empty);
    [reflexivity|reflexivity|discriminate].
Defined.


(** *** Events of the gateway *)

(** The webhook route on the events "payment failed" and "payment
    canceled", for an intent whose payment is stored. *)
Lemma webhook_failure_written (w : World) (ev : StripeEvent)
      (paymentIntent : PaymentIntent) (s : State) (p : Payment.t) :
  ev_data_object ev = ObjPaymentIntent paymentIntent ->
  ev_type ev = "payment_intent.payment_failed"%string
  \/ ev_type ev = "payment_intent.canceled"%string ->
  Spec.webhookTarget paymentIntent s = Some p ->
  save_ok w = true ->
  exists p',
    Facts.fixedPart p' = Facts.fixedPart p
    /\ Payment.refundedAmount p' = Payment.refundedAmount p
    /\ Payment.status p'
       = (if String.eqb (ev_type ev) "payment_intent.canceled"
          then PaymentStatus.CANCELLED else PaymentStatus.FAILED)
    /\ payments (snd (stripeWebhook w true ev s))
       = map (fun r => if (Payment.id r =? Payment.id p')%Z then p' else r)
             (payments s)
    /\ httpLog (snd (stripeWebhook w true ev s))
       = httpLog s ++ [PutOrderPaymentStatus (Payment.orderId p) "failed"].
Proof.
  destruct ev as [ty o]. simpl. intros -> Hty Htarget Hsave.
  unfold Spec.webhookTarget in Htarget.
  destruct Hty as [-> | ->];
    [exists (Payment.set_failureReason
               (Payment.set_status p PaymentStatus.FAILED)
               (Some (str_or_else (last_payment_error_message paymentIntent)
                                  "Payment failed")))
    |exists (Payment.set_status p PaymentStatus.CANCELLED)];
    unfold stripeWebhook; simpl;
    unfold handler, handlePaymentIntentFailed, handlePaymentIntentCanceled,
      swallow, bind, asPaymentIntent, Payment_findOne, gets, ret;
    rewrite Htarget;
    unfold Payment_save, updateOrderPaymentStatus, redis_del, swallow, modify,
      throw;
    rewrite Hsave; destruct (redis_ok w); simpl;
    splits; reflexivity.
Qed.

Lemma the_one_passing (A : Type) (f : A -> bool) (l : list A) (p r : A) :
  (List.length (filter f l) <= 1)%nat ->
  In p l -> f p = true -> In r l -> f r = true -> r = p.
Proof.
  intros Hlen Hp Hfp Hr Hfr.
  assert (Hp' : In p (filter f l)) by (apply filter_In; split; assumption).
  assert (Hr' : In r (filter f l)) by (apply filter_In; split; assumption).
  destruct (filter f l) as [|a [|c rest]]; simpl in *;
    [contradiction| |lia].
  destruct Hp' as [<-|[]]. destruct Hr' as [<-|[]]. reflexivity.
Qed.

Lemma filter_none (A : Type) (f : A -> bool) (l : list A) :
  (forall a, In a l -> f a = false) -> filter f l = [].
Proof.
  intros H. destruct (filter f l) as [|a rest] eqn:E; [reflexivity|].
  assert (Ha : In a (filter f l)) by (rewrite E; left; reflexivity).
  apply filter_In in Ha. destruct Ha as [Hin Hf].
  rewrite (H a Hin) in Hf. discriminate.
Qed.

(** X19.  When the gateway reports that the intent of the one active
    payment of an order failed or was canceled, and the write succeeds, the
    payment is stored failed resp. cancelled, the order service is told
    "failed", the order is left without an active payment, and a
    create-intent request for the order that is served next, on the state
    the event left, is not answered that a payment already exists, whoever
    sends it and in whatever environment. *)
Theorem failed_intent_frees_the_order
        (w : World) (ev : StripeEvent) (paymentIntent : PaymentIntent)
        (s : State) (p : Payment.t) :
  ev_data_object ev = ObjPaymentIntent paymentIntent ->
  ev_type ev = "payment_intent.payment_failed"%string
  \/ ev_type ev = "payment_intent.canceled"%string ->
  Spec.webhookTarget paymentIntent s = Some p ->
  save_ok w = true ->
  Spec.oneActivePerOrder s ->
  isActive p = true ->
  (exists p',
      Spec.webhookTarget paymentIntent (snd (stripeWebhook w true ev s)) = Some p'
      /\ Facts.evolves p p'
      /\ Payment.status p'
         = (if String.eqb (ev_type ev) "payment_intent.canceled"
            then PaymentStatus.CANCELLED else PaymentStatus.FAILED))
  /\ httpLog (snd (stripeWebhook w true ev s))
     = httpLog s ++ [PutOrderPaymentStatus (Payment.orderId p) "failed"]
  /\ Spec.activePayments (Payment.orderId p) (snd (stripeWebhook w true ev s)) = []
  /\ forall w' user b,
       ci_orderId b = Payment.orderId p ->
       fst (createIntent w' user b (snd (stripeWebhook w true ev s)))
       <> Resp 400 (Error "Payment already exists for this order").
Proof.
  intros Hobj Hty Htarget Hsave Hone Hact.
  destruct (webhook_failure_written w ev s Hobj Hty Htarget Hsave)
    as (p' & Hfixed & Hrefunded & Hst & Hpay & Hlog).
  assert (Hkeys : Payment.id p' = Payment.id p
                  /\ Payment.orderId p' = Payment.orderId p
                  /\ Payment.stripePaymentIntentId p'
                     = Payment.stripePaymentIntentId p).
  { unfold Facts.fixedPart in Hfixed. injection Hfixed. intros. splits; assumption. }
  destruct Hkeys as (Hid & Hoid & Hintent).
  assert (Hdead : isActive p' = false).
  { unfold isActive. rewrite Hst. destruct (String.eqb _ _); reflexivity. }
  assert (Hfree : Spec.activePayments (Payment.orderId p)
                    (snd (stripeWebhook w true ev s)) = []).
  { unfold Spec.activePayments. rewrite Hpay. apply filter_none.
    intros x Hx. apply in_map_iff in Hx. destruct Hx as (r & <- & Hr).
    destruct (Payment.id r =? Payment.id p')%Z eqn:Hsame.
    - rewrite Hdead. apply andb_false_r.
    - destruct ((Payment.orderId r =? Payment.orderId p)%Z && isActive r)
        eqn:Hpass; [|reflexivity].
      exfalso. apply Z.eqb_neq in Hsame. apply Hsame. rewrite Hid. f_equal.
      unfold Spec.webhookTarget in Htarget. apply find_some in Htarget.
      destruct Htarget as [Hin _].
      apply (@the_one_passing _
               (fun q => (Payment.orderId q =? Payment.orderId p)%Z && isActive q)
               (payments s) p r); auto.
      + apply (Hone (Payment.orderId p)).
      + rewrite Z.eqb_refl, Hact. reflexivity. }
  splits.
  - exists p'. splits.
    + unfold Spec.webhookTarget in *. rewrite Hpay.
      apply find_overwrite with (o := p).
      * exact Htarget.
      * rewrite Hid. apply Z.eqb_refl.
      * apply find_some in Htarget. destruct Htarget as [_ Hacc].
        unfold byIntent in *. rewrite Hintent. exact Hacc.
    + split; [exact Hfixed|rewrite Hrefunded; apply Qle_refl].
    + exact Hst.
  - exact Hlog.
  - exact Hfree.
  - intros w' user b Hb. rewrite createIntent_cases, Hb, Hfree. cbv zeta.
    repeat match goal with
           | |- context [if ?c then _ else _] => destruct c
           | |- context [match ?c with Some _ => _ | None => _ end] => destruct c
           end; discriminate.
Qed.

(** Witness of X19: the intent of the pending payment 1 fails. *)
Lemma failed_intent_frees_the_order_witness :
  Spec.activePayments 1
    (snd (stripeWebhook (Examples.Payments.gateway "" "") true
            (Examples.Payments.event "payment_intent.payment_failed"
               (Examples.Payments.intent "pi_1" "requires_payment_method"))
            (Examples.Payments.with1 PaymentStatus.PENDING 50 0)))
  = [].
Proof.
  refine (proj1 (proj2 (proj2
    (@failed_intent_frees_the_order (Examples.Payments.gateway "" "")
       (Examples.Payments.event "payment_intent.payment_failed"
          (Examples.Payments.intent "pi_1" "requires_payment_method"))
       (Examples.Payments.intent "pi_1" "requires_payment_method")
       (Examples.Payments.with1 PaymentStatus.PENDING 50 0)
       (Examples.Payments.payment1 PaymentStatus.PENDING 50 0)
       eq_refl (or_introl eq_refl) eq_refl eq_refl _ eq_refl)))).
  intros orderId. unfold Spec.activePayments. simpl.
  destruct (_ && _); simpl; lia.
Defined.


(** X20.  For a succeeded intent whose first charge was paid by card, the
    confirm route called by the owner of the payment (it retrieves the
    intent from the gateway; the lookup of an admin is rejected, so that an
    admin's call finds no payment) and the webhook event "payment
    succeeded" store the same payment, leave the same cache, and both tell
    the order service "paid"; the confirm route sends the retrieval in
    addition. *)
Theorem confirm_and_webhook_agree
        (w : World) (user : User) (b : ConfirmBody) (s : State) (p : Payment.t)
        (paymentIntent : PaymentIntent) (charge : Charge) (others : list Charge)
        (c : StripeCard) :
  confirmPaymentValidation b = true ->
  isAdmin user = false ->
  Spec.confirmTarget user b s = Some p ->
  Spec.webhookTarget paymentIntent s = Some p ->
  paymentIntents_retrieve w (cf_paymentIntentId b) = Some paymentIntent ->
  pi_status paymentIntent = "succeeded"%string ->
  charges_data paymentIntent = charge :: others ->
  payment_method_details_card charge = Some c ->
  save_ok w = true ->
  payments (snd (confirm w user b s))
  = payments (snd (stripeWebhook w true (Spec.succeededEvent paymentIntent) s))
  /\ cache (snd (confirm w user b s))
     = cache (snd (stripeWebhook w true (Spec.succeededEvent paymentIntent) s))
  /\ httpLog (snd (confirm w user b s))
     = httpLog s ++ [StripeRetrieveIntent (cf_paymentIntentId b);
                     PutOrderPaymentStatus (Payment.orderId p) "paid"]
  /\ httpLog (snd (stripeWebhook w true (Spec.succeededEvent paymentIntent) s))
     = httpLog s ++ [PutOrderPaymentStatus (Payment.orderId p) "paid"].
Proof.
  intros Hval _ Htarget Hevent Hretrieve Hst Hcharges Hcard Hsave.
  rewrite (confirm_found w user b s Hval Htarget Hretrieve), webhook_succeeded,
    Hevent.
  cbv zeta. rewrite Hsave.
  assert (Hoid : cf_orderId b = Payment.orderId p).
  { apply confirmTarget_find, find_some in Htarget.
    destruct Htarget as [_ Hacc].
    apply andb_true_iff in Hacc. destruct Hacc as [Hacc _].
    apply andb_true_iff in Hacc. destruct Hacc as [_ Hacc].
    apply Z.eqb_eq in Hacc. symmetry. exact Hacc. }
  unfold confirmAssign, confirmSwitch, succeededAssign.
  rewrite Hst, Hcharges, Hcard, Hoid. simpl.
  destruct (redis_ok w); simpl; rewrite <- ?app_assoc; splits; reflexivity.
Qed.

(** Witness of X20: the pending payment 1, whose intent pi_1 succeeded. *)
Lemma confirm_and_webhook_agree_witness :
  payments
    (snd (confirm (Examples.Payments.gateway "" "succeeded") Examples.alice
            Examples.Payments.confirm1
            (Examples.Payments.with1 PaymentStatus.PENDING 50 0)))
  = payments
      (snd (stripeWebhook (Examples.Payments.gateway "" "succeeded") true
              (Spec.succeededEvent (Examples.Payments.paidIntent "pi_1"))
              (Examples.Payments.with1 PaymentStatus.PENDING 50 0))).
Proof.
  apply (@confirm_and_webhook_agree
           (Examples.Payments.gateway "" "succeeded") Examples.alice
           Examples.Payments.confirm1
           (Examples.Payments.with1 PaymentStatus.PENDING 50 0)
           (Examples.Payments.payment1 PaymentStatus.PENDING 50 0)
           (Examples.Payments.paidIntent "pi_1")
           {| charge_id := "ch_1";
              payment_method_details_card := Some Examples.Payments.visa |}
           [] Examples.Payments.visa);
    reflexivity.
Defined.

Lemma handlers_need_the_store (w : World) (o : StripeObject) (s : State) :
  save_ok w = false ->
  snd (handlePaymentIntentSucceeded w o s) = s
  /\ snd (handlePaymentIntentFailed w o s) = s
  /\ snd (handlePaymentIntentCanceled w o s) = s.
Proof.
  intros Hsave.
  unfold handlePaymentIntentSucceeded, handlePaymentIntentFailed,
    handlePaymentIntentCanceled, asPaymentIntent, Payment_findOne, Payment_save.
  rewrite Hsave.
  destruct o as [paymentIntent|d|]; run; splits; try reflexivity;
    destruct (find _ (payments s)); reflexivity.
Qed.

Lemma handlers_need_a_payment (w : World) (paymentIntent : PaymentIntent)
      (s : State) :
  Spec.webhookTarget paymentIntent s = None ->
  snd (handlePaymentIntentSucceeded w (ObjPaymentIntent paymentIntent) s) = s
  /\ snd (handlePaymentIntentFailed w (ObjPaymentIntent paymentIntent) s) = s
  /\ snd (handlePaymentIntentCanceled w (ObjPaymentIntent paymentIntent) s) = s.
Proof.
  unfold Spec.webhookTarget. intros Hnone.
  unfold handlePaymentIntentSucceeded, handlePaymentIntentFailed,
    handlePaymentIntentCanceled, asPaymentIntent, Payment_findOne.
  run. rewrite Hnone. splits; reflexivity.
Qed.

(** X21.  The webhook route answers 400 to an event whose signature does
    not verify and 200 to every other event, whatever happens while the
    event is handled.  The state is left as it was when the signature does
    not verify, when the store rejects the write, and when no payment is
    stored for the intent of the event: in the last two cases the gateway is
    told that the event was received although nothing was recorded. *)
Theorem stripeWebhook_always_acknowledges
        (w : World) (signatureValid : bool) (ev : StripeEvent) (s : State) :
  fst (stripeWebhook w signatureValid ev s)
  = (if signatureValid then Resp 200 (Json Received)
     else Resp 400 (Text "Webhook Error: "))
  /\ (signatureValid = false -> snd (stripeWebhook w signatureValid ev s) = s)
  /\ (save_ok w = false -> snd (stripeWebhook w signatureValid ev s) = s)
  /\ (forall paymentIntent,
         ev_data_object ev = ObjPaymentIntent paymentIntent ->
         Spec.webhookTarget paymentIntent s = None ->
         snd (stripeWebhook w signatureValid ev s) = s).
Proof.
  rewrite stripeWebhook_cases. splits.
  - destruct signatureValid; reflexivity.
  - intros ->. reflexivity.
  - intros Hsave.
    destruct (@handlers_need_the_store w (ev_data_object ev) s Hsave)
      as (H1 & H2 & H3).
    destruct signatureValid; simpl; [|reflexivity].
    repeat match goal with
           | |- context [if ?c then _ else _] => destruct c
           end; auto.
  - intros paymentIntent Hobj Hnone. rewrite Hobj.
    destruct (@handlers_need_a_payment w paymentIntent s Hnone) as (H1 & H2 & H3).
    destruct signatureValid; simpl; [|reflexivity].
    repeat match goal with
           | |- context [if ?c then _ else _] => destruct c
           end; auto.
Qed.

(** Witness of X21: the store rejects the write of a succeeded payment. *)
Lemma stripeWebhook_always_acknowledges_witness :
  stripeWebhook
    {| order_get := fun _ => Some 7%Z;
       paymentIntents_create := fun _ _ _ _ => None;
       paymentIntents_retrieve := fun _ => None;
       refunds_create := fun _ _ => None;
       Payment_create_ok := true; save_ok := false; redis_ok := true |}
    true (Spec.succeededEvent (Examples.Payments.paidIntent "pi_1"))
    (Examples.Payments.with1 PaymentStatus.PENDING 50 0)
  = (Resp 200 (Json Received), Examples.Payments.with1 PaymentStatus.PENDING 50 0).
Proof.
  pose proof (@stripeWebhook_always_acknowledges
                {| order_get := fun _ => Some 7%Z;
                   paymentIntents_create := fun _ _ _ _ => None;
                   paymentIntents_retrieve := fun _ => None;
                   refunds_create := fun _ _ => None;
                   Payment_create_ok := true; save_ok := false;
                   redis_ok := true |}
                true (Spec.succeededEvent (Examples.Payments.paidIntent "pi_1"))
                (Examples.Payments.with1 PaymentStatus.PENDING 50 0))
    as (H1 & _ & H3 & _).
  apply injective_projections; [exact H1|apply H3; reflexivity].
Defined.

(** X22.  A caller who is not an admin and owns no payment of the table can
    neither refund nor confirm one: both routes leave the state as it is,
    so that nothing is sent to the gateway, and answer 404 or, for an
    invalid request, 400. *)
Theorem foreign_payment_is_out_of_reach
        (w : World) (user : User) (paymentId : Z) (rb : RefundBody)
        (cb : ConfirmBody) (s : State) :
  isAdmin user = false ->
  (forall p, In p (payments s) -> Payment.userId p <> userId user) ->
  refund w user paymentId rb s
  = (if refundValidation paymentId rb
     then Resp 404 (Error "Payment not found") else Resp 400 ValidationErrors,
     s)
  /\ confirm w user cb s
     = (if confirmPaymentValidation cb
        then Resp 404 (Error "Payment not found") else Resp 400 ValidationErrors,
        s).
Proof.
  intros Hadmin Hforeign.
  assert (Hmay : forall p, In p (payments s) ->
                 isAdmin user || (Payment.userId p =? userId user)%Z = false).
  { intros p Hin. rewrite Hadmin. simpl. apply Z.eqb_neq, Hforeign, Hin. }
  split.
  - rewrite refund_cases.
    assert (Hvis : Spec.visiblePayment user paymentId s = None).
    { unfold Spec.visiblePayment. apply find_none_all. intros p Hin.
      rewrite (Hmay p Hin). apply andb_false_r. }
    rewrite Hvis. destruct (refundValidation paymentId rb); reflexivity.
  - destruct (confirmPaymentValidation cb) eqn:Hval.
    + apply confirm_missing; [exact Hval|exact Hadmin|].
      unfold Spec.confirmTarget. rewrite Hadmin. apply find_none_all.
      intros p Hin. specialize (Hmay p Hin). rewrite Hadmin in Hmay.
      simpl in Hmay. rewrite Hmay. apply andb_false_r.
    + apply confirm_invalid. exact Hval.
Qed.

(** Witness of X22: user 8 on payment 1 of user 7. *)
Lemma foreign_payment_is_out_of_reach_witness :
  refund (Examples.Payments.gateway "" "succeeded")
    {| userId := 8; role := "customer" |} 1 (Examples.Payments.refundOf 30)
    (Examples.Payments.with1 PaymentStatus.SUCCEEDED 100 0)
  = (Resp 404 (Error "Payment not found"),
     Examples.Payments.with1 PaymentStatus.SUCCEEDED 100 0).
Proof.
  refine (proj1 (@foreign_payment_is_out_of_reach
                   (Examples.Payments.gateway "" "succeeded")
                   {| userId := 8; role := "customer" |} 1%Z
                   (Examples.Payments.refundOf 30) Examples.Payments.confirm1
                   (Examples.Payments.with1 PaymentStatus.SUCCEEDED 100 0)
                   eq_refl _)).
  intros p [<-|[]]. discriminate.
Defined.

End PaymentRequests.

(* ------------------------------------------------------------------ *)
(** ** The cart *)

Section CartProperties.

Import CartSlice.

Ltac splits := repeat match goal with |- _ /\ _ => split end.

(** *** Reloading the page *)

(** X24.  After every action, localStorage holds exactly the cart: loading
    the page again starts the slice in the state the action left, and the
    total and the item count of that state are those of its items. *)
Theorem cart_survives_reload (a : Action) (st : CartState * LocalStorage) :
  sliceInitialState (snd (reducer a st)) = fst (reducer a st)
  /\ (total (fst (reducer a st)), itemCount (fst (reducer a st)))
     = calculateTotals (items (fst (reducer a st))).
Proof.
  destruct a; simpl; split; reflexivity.
Qed.

(** *** Well-formed carts *)

Lemma assignFirst_ids (i : string) (g : CartItem -> CartItem) (l : list CartItem) :
  (forall item, id (product (g item)) = id (product item)) ->
  ids (assignFirst (hasId i) g l) = ids l.
Proof.
  intros Hg. induction l as [|item rest IH]; simpl; [reflexivity|].
  destruct (hasId i item); simpl; [rewrite Hg|rewrite IH]; reflexivity.
Qed.

Lemma assignFirst_Forall (P : CartItem -> Prop) (f : CartItem -> bool)
      (g : CartItem -> CartItem) (l : list CartItem) :
  (forall item, P item -> P (g item)) ->
  Forall P l -> Forall P (assignFirst f g l).
Proof.
  intros Hg Hall. induction Hall as [|item rest Hitem Hrest IH]; simpl;
    [constructor|].
  destruct (f item); constructor; auto.
Qed.

Lemma filter_ids_NoDup (f : CartItem -> bool) (l : list CartItem) :
  NoDup (ids l) -> NoDup (ids (filter f l)).
Proof.
  unfold ids. induction l as [|item rest IH]; simpl; intros Hnd;
    [constructor|].
  inversion Hnd as [|? ? Hnot Hrest]; subst.
  destruct (f item); simpl; [|apply IH, Hrest].
  constructor; [|apply IH, Hrest].
  intros Hin. apply Hnot. apply in_map_iff in Hin.
  destruct Hin as (x & Hx & Hin). apply filter_In in Hin.
  apply in_map_iff. exists x. split; [exact Hx|apply Hin].
Qed.

Lemma filter_Forall (P : CartItem -> Prop) (f : CartItem -> bool)
      (l : list CartItem) :
  Forall P l -> Forall P (filter f l).
Proof.
  intros Hall. induction Hall as [|item rest Hitem Hrest IH]; simpl;
    [constructor|].
  destruct (f item); [constructor|]; assumption.
Qed.

Lemma find_none_not_in (i : string) (l : list CartItem) :
  find (hasId i) l = None -> ~ In i (ids l).
Proof.
  intros Hnone Hin. unfold ids in Hin. apply in_map_iff in Hin.
  destruct Hin as (item & Hid & Hin).
  pose proof (find_none _ _ Hnone _ Hin) as Hno.
  unfold hasId in Hno. rewrite Hid, String.eqb_refl in Hno. discriminate.
Qed.

Lemma NoDup_snoc_ids (l : list string) (i : string) :
  NoDup l -> ~ In i l -> NoDup (l ++ [i]).
Proof.
  induction l as [|x l IH]; simpl; intros Hnd Hnot.
  - constructor; [intros []|constructor].
  - inversion Hnd as [|? ? Hx Hl]; subst. constructor.
    + intros Hin. apply in_app_or in Hin. destruct Hin as [Hin|[<-|[]]].
      * contradiction.
      * apply Hnot. left. reflexivity.
    + apply IH; [exact Hl|]. intros Hin. apply Hnot. right. exact Hin.
Qed.

Lemma reducer_wellFormed (a : Action) (st : CartState * LocalStorage) :
  wellFormed (items (fst st)) -> wellFormed (items (fst (reducer a st))).
Proof.
  intros [Hnd Hpos]. destruct a as [payload|payload|i q|]; simpl.
  - destruct (find (hasId (id payload)) (items (fst st))) eqn:Hfind; split.
    + rewrite assignFirst_ids; [exact Hnd|reflexivity].
    + apply assignFirst_Forall; [|exact Hpos].
      intros item Hitem. simpl. lra.
    + unfold ids in *. rewrite map_app. simpl.
      apply NoDup_snoc_ids.
      * exact Hnd.
      * apply find_none_not_in, Hfind.
    + apply Forall_app. split; [exact Hpos|].
      constructor; [simpl; lra|constructor].
  - split; [apply filter_ids_NoDup, Hnd|apply filter_Forall, Hpos].
  - destruct (find (hasId i) (items (fst st))); [|split; assumption].
    destruct (Qle_bool q 0) eqn:Hq.
    + split; [apply filter_ids_NoDup, Hnd|apply filter_Forall, Hpos].
    + split.
      * rewrite assignFirst_ids; [exact Hnd|reflexivity].
      * apply assignFirst_Forall; [|exact Hpos].
        intros item _. simpl.
        destruct (Qlt_le_dec 0 q) as [Hlt|Hle]; [exact Hlt|].
        apply Qle_bool_iff in Hle. congruence.
  - split; constructor.
Qed.

(** X25.  Whatever actions are dispatched, a cart that lists no product
    twice and has positive quantities only stays so: adding a product that is
    already listed raises its quantity instead of listing it again, and a
    quantity that is not positive removes the product. *)
Theorem cart_stays_well_formed (acts : list Action) (st : CartState * LocalStorage) :
  wellFormed (items (fst st)) ->
  wellFormed (items (fst (reduceAll acts st))).
Proof.
  revert st. induction acts as [|a rest IH]; intros st Hwf; simpl;
    [exact Hwf|].
  apply IH, reducer_wellFormed, Hwf.
Qed.

(** Witness of X25: a laptop twice, a mouse, then the mouse at quantity 0. *)
Lemma cart_stays_well_formed_witness :
  wellFormed
    (items (fst (reduceAll
                   [ AddToCart CartExamples.laptop; AddToCart CartExamples.laptop;
                     AddToCart CartExamples.mouse; UpdateQuantity "p-2" 0 ]
                   CartExamples.fresh))).
Proof.
  apply cart_stays_well_formed. split; constructor.
Defined.

(** *** Counting *)

Lemma find_assignFirst (i : string) (g : CartItem -> CartItem)
      (l : list CartItem) (item : CartItem) :
  (forall x, id (product (g x)) = id (product x)) ->
  find (hasId i) l = Some item ->
  find (hasId i) (assignFirst (hasId i) g l) = Some (g item).
Proof.
  intros Hg. induction l as [|x l IH]; simpl; [discriminate|].
  destruct (hasId i x) eqn:Hx; simpl.
  - intros H. injection H as <-. unfold hasId in *. rewrite Hg, Hx. reflexivity.
  - intros H. rewrite Hx. apply IH, H.
Qed.

Lemma find_assignFirst_other (i j : string) (g : CartItem -> CartItem)
      (l : list CartItem) :
  (forall x, id (product (g x)) = id (product x)) ->
  j <> i ->
  find (hasId j) (assignFirst (hasId i) g l) = find (hasId j) l.
Proof.
  intros Hg Hne. induction l as [|x l IH]; simpl; [reflexivity|].
  destruct (hasId i x) eqn:Hx; simpl.
  - unfold hasId in *. rewrite Hg. apply String.eqb_eq in Hx.
    assert (E : String.eqb (id (product x)) j = false).
    { apply String.eqb_neq. congruence. }
    rewrite E. reflexivity.
  - destruct (hasId j x); [reflexivity|exact IH].
Qed.

Lemma assignFirst_products (f : CartItem -> bool) (g : CartItem -> CartItem)
      (l : list CartItem) :
  (forall x, product (g x) = product x) ->
  map product (assignFirst f g l) = map product l.
Proof.
  intros Hg. induction l as [|x l IH]; simpl; [reflexivity|].
  destruct (f x); simpl; [rewrite Hg|rewrite IH]; reflexivity.
Qed.

Lemma find_snoc (f : CartItem -> bool) (l : list CartItem) (x : CartItem) :
  find f (l ++ [x])
  = match find f l with
    | Some y => Some y
    | None => if f x then Some x else None
    end.
Proof.
  induction l as [|y l IH]; simpl; [reflexivity|].
  destruct (f y); [reflexivity|exact IH].
Qed.

(** X26.  Adding a product that the cart lists raises the quantity of its
    item by one and keeps the product as the cart has it, price included,
    whatever the product that was added says; adding a product that the
    cart does not list appends it with quantity 1.  The products of the
    cart stay in their order, and the items of the other products stay as
    they are. *)
Theorem addToCart_counts_the_listed_product
        (payload : Product) (st : CartState * LocalStorage) :
  map product (items (fst (addToCart payload st)))
  = match find (hasId (id payload)) (items (fst st)) with
    | Some _ => map product (items (fst st))
    | None => map product (items (fst st)) ++ [payload]
    end
  /\ find (hasId (id payload)) (items (fst (addToCart payload st)))
     = Some {| product := countedAs payload (items (fst st));
               quantity :=
                 match find (hasId (id payload)) (items (fst st)) with
                 | Some item => quantity item + 1
                 | None => 1
                 end |}
  /\ forall i,
       i <> id payload ->
       find (hasId i) (items (fst (addToCart payload st)))
       = find (hasId i) (items (fst st)).
Proof.
  unfold addToCart, countedAs. simpl.
  destruct (find (hasId (id payload)) (items (fst st))) as [item|] eqn:Hfind.
  - splits.
    + apply assignFirst_products. reflexivity.
    + rewrite (@find_assignFirst _ _ _ item); [reflexivity|reflexivity|exact Hfind].
    + intros i Hi. apply find_assignFirst_other; [reflexivity|exact Hi].
  - splits.
    + rewrite map_app. reflexivity.
    + rewrite find_snoc, Hfind. unfold hasId. simpl.
      rewrite String.eqb_refl. reflexivity.
    + intros i Hi. rewrite find_snoc.
      destruct (find (hasId i) (items (fst st))); [reflexivity|].
      unfold hasId. simpl.
      assert (E : String.eqb (id payload) i = false).
      { apply String.eqb_neq. congruence. }
      rewrite E. reflexivity.
Qed.

(** Witness of X26: a laptop is added to a cart that lists a laptop and a
    mouse. *)
Lemma addToCart_counts_the_listed_product_witness :
  find (hasId "p-2")
       (items (fst (addToCart CartExamples.laptop
                      (addToCart CartExamples.mouse
                         (addToCart CartExamples.laptop CartExamples.fresh)))))
  = find (hasId "p-2")
         (items (fst (addToCart CartExamples.mouse
                        (addToCart CartExamples.laptop CartExamples.fresh)))).
Proof.
  apply (proj2 (proj2 (addToCart_counts_the_listed_product CartExamples.laptop
                         (addToCart CartExamples.mouse
                            (addToCart CartExamples.laptop CartExamples.fresh))))).
  discriminate.
Defined.

(** *** Removing *)

Lemma filter_absent (i : string) (l : list CartItem) :
  find (hasId i) l = None ->
  filter (fun item => negb (hasId i item)) l = l.
Proof.
  induction l as [|x l IH]; simpl; [reflexivity|].
  destruct (hasId i x); [discriminate|].
  intros H. simpl. rewrite (IH H). reflexivity.
Qed.

(** X27.  Setting the quantity of a product to zero or less is removing
    the product: updateQuantity then does exactly what removeFromCart does,
    and afterwards the cart does not list the product. *)
Theorem updateQuantity_nonpositive_removes
        (i : string) (q : Q) (st : CartState * LocalStorage) :
  q <= 0 ->
  updateQuantity i q st = removeFromCart i st
  /\ ~ In i (ids (items (fst (updateQuantity i q st)))).
Proof.
  intros Hq. apply Qle_bool_iff in Hq.
  assert (Heq : updateQuantity i q st = removeFromCart i st).
  { unfold updateQuantity, removeFromCart. rewrite Hq.
    destruct (find (hasId i) (items (fst st))) eqn:Hfind; [reflexivity|].
    rewrite (@filter_absent _ _ Hfind). reflexivity. }
  split; [exact Heq|]. rewrite Heq. simpl.
  unfold ids. intros Hin. apply in_map_iff in Hin.
  destruct Hin as (item & Hid & Hin). apply filter_In in Hin.
  destruct Hin as [_ Hno]. unfold hasId in Hno.
  rewrite Hid, String.eqb_refl in Hno. discriminate.
Qed.

(** Witness of X27: the quantity of the only product is set to 0. *)
Lemma updateQuantity_nonpositive_removes_witness :
  updateQuantity "p-1" 0 (addToCart CartExamples.laptop CartExamples.fresh)
  = removeFromCart "p-1" (addToCart CartExamples.laptop CartExamples.fresh).
Proof.
  apply (@updateQuantity_nonpositive_removes "p-1" 0
           (addToCart CartExamples.laptop CartExamples.fresh)).
  discriminate.
Defined.

End CartProperties.

(* ------------------------------------------------------------------ *)
(** ** The product service *)

Section ProductProperties.

Import Http ProductService.

Ltac splits := repeat match goal with |- _ /\ _ => split end.

Lemma Math_max_nonneg (x : Q) : 0 <= Product.Math_max 0 x.
Proof.
  unfold Product.Math_max. destruct (Qle_bool 0 x) eqn:E.
  - apply Qle_bool_iff, E.
  - apply Qle_refl.
Qed.

Lemma lt_false_iff (a b : Q) : Js.lt a b = false <-> b <= a.
Proof.
  unfold Js.lt. rewrite negb_false_iff. apply Qle_bool_iff.
Qed.

(** PUT /api/products/:id/stock, case by case. *)
Lemma putStock_cases (w : World) (id : string) (b : StockBody) (s : State) :
  putStock w id b s
  = match sb_quantity b with
    | None => (Resp 400 (Json (Message "Invalid quantity")), s)
    | Some quantity =>
        if Js.lt quantity 0 then
          (Resp 400 (Json (Message "Invalid quantity")), s)
        else
          match productById id s with
          | None => (Resp 404 (Json (Message "Product not found")), s)
          | Some product =>
              let operation :=
                match sb_operation b with Some o => o | None => "set"%string end in
              let written newStock :=
                let product' := Product.set_stock product newStock in
                match update_error w with
                | Some error => (errorHandler error, s)
                | None =>
                    if redis_ok w then
                      (Resp 200
                         (Json (WithProduct "Stock updated successfully" product')),
                       set_cache
                         (filter (fun e => negb (String.eqb (fst e) "products:*"))
                            (filter
                               (fun e =>
                                  negb (String.eqb (fst e) ("product:" ++ id)))
                               (cache s)))
                         (update_product product' s))
                    else (Resp 500 (Json Failure), update_product product' s)
                end in
              if String.eqb operation "add" then
                written (Product.stock product + quantity)
              else if String.eqb operation "subtract" then
                written (Product.Math_max 0 (Product.stock product - quantity))
              else if String.eqb operation "set" then written quantity
              else (Resp 400 (Json (Message "Invalid operation")), s)
          end
    end.
Proof.
  unfold putStock, errorHandled, productById, Product_findByPk, Product_update,
    redis_del, bind, gets, respond, ret, modify, throw.
  destruct (sb_quantity b) as [quantity|]; [|reflexivity].
  destruct (Js.lt quantity 0); [reflexivity|].
  destruct (find _ (products s)) as [product|]; [|reflexivity]. cbv zeta.
  repeat match goal with
         | |- context [if String.eqb ?a ?b then _ else _] =>
             destruct (String.eqb a b)
         end; try reflexivity;
    destruct (update_error w); try reflexivity;
    destruct (redis_ok w); reflexivity.
Qed.

(** DELETE /api/products/:id, case by case. *)
Lemma deleteProduct_cases (w : World) (id : string) (s : State) :
  deleteProduct w id s
  = match productById id s with
    | None => (Resp 404 (Json (Message "Product not found")), s)
    | Some product =>
        let product' := Product.set_isActive product false in
        match update_error w with
        | Some error => (errorHandler error, s)
        | None =>
            if redis_ok w then
              (Resp 200 (Json (Message "Product deleted successfully")),
               set_cache
                 (filter (fun e => negb (String.eqb (fst e) "products:*"))
                    (filter
                       (fun e => negb (String.eqb (fst e) ("product:" ++ id)))
                       (cache s)))
                 (update_product product' s))
            else (Resp 500 (Json Failure), update_product product' s)
        end
    end.
Proof.
  unfold deleteProduct, errorHandled, productById, Product_findByPk,
    Product_update, redis_del, bind, gets, respond, ret, modify, throw.
  destruct (find _ (products s)) as [product|]; [|reflexivity]. simpl.
  destruct (update_error w); [reflexivity|].
  destruct (redis_ok w); reflexivity.
Qed.

(** GET /api/products/:id, case by case: the cached copy, or 500. *)
Lemma getProduct_cases (w : World) (id : string) (s : State) :
  getProduct w id s
  = if redis_ok w then
      match find (fun e => String.eqb (fst e) ("product:" ++ id)) (cache s) with
      | Some e => (Resp 200 (Json (Plain (snd e))), s)
      | None => (Resp 500 (Json Failure), s)
      end
    else (Resp 500 (Json Failure), s).
Proof.
  unfold getProduct, errorHandled, Product_findOne_active_with_category,
    redis_get, redis_setEx, bind, gets, respond, ret, modify, throw.
  destruct (redis_ok w); [|reflexivity].
  destruct (find _ (cache s)) as [e|]; reflexivity.
Qed.

Lemma productById_id (id : string) (s : State) (p : Product.t) :
  productById id s = Some p -> In p (products s) /\ Product.id p = id.
Proof.
  unfold productById. intros H. apply find_some in H. destruct H as [Hin Hid].
  apply String.eqb_eq in Hid. split; assumption.
Qed.

(** What a request does to the table: nothing, or the rows of the id of a
    stored product are overwritten with a version of that product whose
    stock is not negative if the product's was not. *)
Lemma after_products (r : Request) (s : State) :
  products (after r s) = products s
  \/ exists p p',
       In p (products s)
       /\ Product.id p' = Product.id p
       /\ (0 <= Product.stock p -> 0 <= Product.stock p')
       /\ products (after r s)
          = map (fun x => if String.eqb (Product.id x) (Product.id p')
                          then p' else x) (products s).
Proof.
  destruct r as [w id|w id|w id b]; simpl.
  - left. rewrite getProduct_cases. destruct (redis_ok w); [|reflexivity].
    destruct (find _ (cache s)); reflexivity.
  - rewrite deleteProduct_cases.
    destruct (productById id s) as [p|] eqn:Hp; [|left; reflexivity].
    apply productById_id in Hp. destruct Hp as [Hin _]. cbv zeta.
    destruct (update_error w); [left; reflexivity|].
    right. exists p, (Product.set_isActive p false).
    destruct (redis_ok w); simpl; splits; auto.
  - rewrite putStock_cases.
    destruct (sb_quantity b) as [q|]; [|left; reflexivity].
    destruct (Js.lt q 0) eqn:Hq; [left; reflexivity|].
    apply lt_false_iff in Hq.
    destruct (productById id s) as [p|] eqn:Hp; [|left; reflexivity].
    apply productById_id in Hp. destruct Hp as [Hin _]. cbv zeta.
    assert (Hwritten : forall n,
              (0 <= Product.stock p -> 0 <= n) ->
              let s' :=
                snd match update_error w with
                    | Some error => (errorHandler error, s)
                    | None =>
                        if redis_ok w then
                          (Resp 200
                             (Json (WithProduct "Stock updated successfully"
                                      (Product.set_stock p n))),
                           set_cache
                             (filter
                                (fun e => negb (String.eqb (fst e) "products:*"))
                                (filter
                                   (fun e =>
                                      negb (String.eqb (fst e) ("product:" ++ id)))
                                   (cache s)))
                             (update_product (Product.set_stock p n) s))
                        else (Resp 500 (Json Failure),
                              update_product (Product.set_stock p n) s)
                    end in
              products s' = products s
              \/ exists p0 p',
                   In p0 (products s)
                   /\ Product.id p' = Product.id p0
                   /\ (0 <= Product.stock p0 -> 0 <= Product.stock p')
                   /\ products s'
                      = map (fun x => if String.eqb (Product.id x) (Product.id p')
                                      then p' else x) (products s)).
    { intros n Hn. cbv zeta.
      destruct (update_error w); [left; reflexivity|].
      right. exists p, (Product.set_stock p n).
      destruct (redis_ok w); simpl; splits; auto. }
    repeat match goal with
           | |- context [if String.eqb ?a ?b then _ else _] =>
               destruct (String.eqb a b)
           end;
      [apply Hwritten; intros; lra
      |apply Hwritten; intros; apply Math_max_nonneg
      |apply Hwritten; intros; exact Hq
      |left; reflexivity].
Qed.

(** X28.  Whatever requests the product service serves (products read,
    deleted, stock changed), in whatever environment, a table without a
    negative stock stays without one, and no product row is removed or
    moved: deleting a product keeps its row. *)
Theorem product_stock_is_never_negative (rs : list Request) (s : State) :
  (stocked s -> stocked (afterAll rs s))
  /\ map Product.id (products (afterAll rs s)) = map Product.id (products s).
Proof.
  revert s. induction rs as [|r rest IH]; intros s; simpl;
    [split; [auto|reflexivity]|].
  destruct (IH (after r s)) as [Hstock Hids].
  destruct (after_products r s) as [Hsame|(p & p' & Hin & Hid & Hpos & Hmap)].
  - rewrite Hsame in *. split; [|exact Hids].
    intros Hs. apply Hstock. unfold stocked. rewrite Hsame. exact Hs.
  - split.
    + intros Hs. apply Hstock. unfold stocked in *. rewrite Hmap.
      rewrite Forall_forall in *. intros x Hx.
      apply in_map_iff in Hx. destruct Hx as (y & <- & Hy).
      destruct (String.eqb (Product.id y) (Product.id p'));
        [apply Hpos, Hs, Hin|apply Hs, Hy].
    + rewrite Hids, Hmap, map_map. apply map_ext. intros y.
      destruct (String.eqb (Product.id y) (Product.id p')) eqn:E;
        [|reflexivity].
      apply String.eqb_eq in E. symmetry. exact E.
Qed.

(** Witness of X28: more is subtracted than the shelf holds, and the
    product is deleted. *)
Lemma product_stock_is_never_negative_witness :
  stocked (afterAll [PutStock calm "p-1" (change 7 "subtract");
                     DeleteProduct calm "p-1"]
                    (shelf 5)).
Proof.
  apply product_stock_is_never_negative.
  constructor; [simpl; lra|constructor].
Defined.

Lemma productById_written (id : string) (s s' : State) (p p' : Product.t) :
  productById id s = Some p ->
  Product.id p' = Product.id p ->
  products s' = products (update_product p' s) ->
  productById id s' = Some p'.
Proof.
  unfold productById. intros Hp Hid ->. simpl.
  apply find_overwrite with (o := p).
  - exact Hp.
  - rewrite Hid. apply String.eqb_refl.
  - apply find_some in Hp. destruct Hp as [_ Hp]. rewrite Hid. exact Hp.
Qed.

(** The stock route on a stored product, when the writes succeed. *)
Lemma putStock_written (w : World) (id : string) (b : StockBody) (s : State)
      (p : Product.t) (q n : Q) :
  productById id s = Some p ->
  sb_quantity b = Some q ->
  0 <= q ->
  update_error w = None ->
  redis_ok w = true ->
  (let operation :=
     match sb_operation b with Some o => o | None => "set"%string end in
   if String.eqb operation "add" then n = Product.stock p + q
   else if String.eqb operation "subtract" then
     n = Product.Math_max 0 (Product.stock p - q)
   else if String.eqb operation "set" then n = q
   else False) ->
  putStock w id b s
  = (Resp 200 (Json (WithProduct "Stock updated successfully"
                       (Product.set_stock p n))),
     set_cache
       (filter (fun e => negb (String.eqb (fst e) "products:*"))
          (filter (fun e => negb (String.eqb (fst e) ("product:" ++ id)))
             (cache s)))
       (update_product (Product.set_stock p n) s)).
Proof.
  intros Hp Hq Hq0 Hupd Hredis Hop.
  rewrite putStock_cases, Hq, Hp.
  apply lt_false_iff in Hq0. rewrite Hq0. cbv zeta in *.
  repeat match goal with
         | H : context [if String.eqb ?a ?b then _ else _] |- _ =>
             destruct (String.eqb a b)
         end;
    try contradiction; subst n; rewrite Hupd, Hredis; reflexivity.
Qed.

Lemma inject_Z_nonneg (z : Z) : (0 <= z)%Z <-> 0 <= inject_Z z.
Proof. change 0 with (inject_Z 0). rewrite <- Zle_Qle. reflexivity. Qed.

Lemma inject_Z_nonpos (z : Z) : (z <= 0)%Z <-> inject_Z z <= 0.
Proof. change 0 with (inject_Z 0). rewrite <- Zle_Qle. reflexivity. Qed.

Lemma Math_max_of_nonneg (x : Q) : 0 <= x -> Product.Math_max 0 x = x.
Proof.
  intros H. unfold Product.Math_max.
  apply Qle_bool_iff in H. rewrite H. reflexivity.
Qed.

(** X29.  The stock route on a stored product, for a stock [n] and a
    quantity [m] that are whole numbers, not negative, with [n + m] at most
    2^53 (on such numbers the sums and differences of the route are exact),
    when the writes succeed: "add" stores what product.updateStock(quantity)
    gives, "subtract" what product.updateStock(-quantity) gives, so that
    subtracting more than the stock holds leaves 0 and is not refused, and
    "set", or no operation at all, stores the quantity; each is answered
    200.  Adding the quantity and subtracting it again leaves a stock equal
    to the one before. *)
Theorem putStock_applies_the_operation
        (w : World) (id : string) (s : State) (p : Product.t) (n m : Z) :
  productById id s = Some p ->
  Product.stock p = inject_Z n ->
  (0 <= n)%Z ->
  (0 <= m)%Z ->
  (n + m <= 2 ^ 53)%Z ->
  update_error w = None ->
  redis_ok w = true ->
  let q := inject_Z m in
  (productById id (snd (putStock w id (change q "add") s))
   = Some (Product.updateStock p q)
   /\ Product.stock (Product.updateStock p q) == inject_Z (n + m)
   /\ code (fst (putStock w id (change q "add") s)) = 200%Z)
  /\ (productById id (snd (putStock w id (change q "subtract") s))
      = Some (Product.updateStock p (- q))
      /\ Product.stock (Product.updateStock p (- q)) == inject_Z (Z.max 0 (n - m))
      /\ code (fst (putStock w id (change q "subtract") s)) = 200%Z
      /\ ((n <= m)%Z ->
          Product.isInStock (Product.updateStock p (- q)) = false))
  /\ (productById id (snd (putStock w id (change q "set") s))
      = Some (Product.set_stock p q)
      /\ code (fst (putStock w id (change q "set") s)) = 200%Z)
  /\ putStock w id {| sb_quantity := Some q; sb_operation := None |} s
     = putStock w id (change q "set") s
  /\ exists p',
       productById id
         (snd (putStock w id (change q "subtract")
                 (snd (putStock w id (change q "add") s))))
       = Some p'
       /\ Product.stock p' == Product.stock p.
Proof.
  intros Hp Hstock Hn Hm Hbound Hupd Hredis q.
  assert (Hq : 0 <= q).
  { exact (proj1 (inject_Z_nonneg m) Hm). }
  assert (Hn' : 0 <= inject_Z n).
  { exact (proj1 (inject_Z_nonneg n) Hn). }
  assert (Hadd : putStock w id (change q "add") s
                 = (Resp 200 (Json (WithProduct "Stock updated successfully"
                                      (Product.set_stock p (Product.stock p + q)))),
                    set_cache
                      (filter (fun e => negb (String.eqb (fst e) "products:*"))
                         (filter
                            (fun e => negb (String.eqb (fst e) ("product:" ++ id)))
                            (cache s)))
                      (update_product
                         (Product.set_stock p (Product.stock p + q)) s))).
  { apply putStock_written with (q := q); auto. reflexivity. }
  assert (Hsub : forall t p0,
            productById id t = Some p0 ->
            putStock w id (change q "subtract") t
            = (Resp 200 (Json (WithProduct "Stock updated successfully"
                                 (Product.set_stock p0
                                    (Product.Math_max 0 (Product.stock p0 - q))))),
               set_cache
                 (filter (fun e => negb (String.eqb (fst e) "products:*"))
                    (filter
                       (fun e => negb (String.eqb (fst e) ("product:" ++ id)))
                       (cache t)))
                 (update_product
                    (Product.set_stock p0
                       (Product.Math_max 0 (Product.stock p0 - q))) t))).
  { intros t p0 Hp0. apply putStock_written with (q := q); auto.
    reflexivity. }
  assert (Hset : putStock w id (change q "set") s
                 = (Resp 200 (Json (WithProduct "Stock updated successfully"
                                      (Product.set_stock p q))),
                    set_cache
                      (filter (fun e => negb (String.eqb (fst e) "products:*"))
                         (filter
                            (fun e => negb (String.eqb (fst e) ("product:" ++ id)))
                            (cache s)))
                      (update_product (Product.set_stock p q) s))).
  { apply putStock_written with (q := q); auto. reflexivity. }
  assert (Hadded : productById id (snd (putStock w id (change q "add") s))
                   = Some (Product.set_stock p (Product.stock p + q))).
  { rewrite Hadd. eapply productById_written; [exact Hp|reflexivity|reflexivity]. }
  assert (Hsum : 0 <= Product.stock p + q).
  { rewrite Hstock. lra. }
  splits.
  - rewrite Hadded. unfold Product.updateStock.
    rewrite (Math_max_of_nonneg Hsum). reflexivity.
  - unfold Product.updateStock. simpl.
    rewrite (Math_max_of_nonneg Hsum), Hstock. unfold q.
    rewrite inject_Z_plus. reflexivity.
  - rewrite Hadd. reflexivity.
  - rewrite (Hsub s p Hp).
    eapply productById_written; [exact Hp|reflexivity|reflexivity].
  - unfold Product.updateStock. simpl. rewrite Hstock. unfold q.
    unfold Product.Math_max.
    destruct (Qle_bool 0 (inject_Z n + - inject_Z m)) eqn:E.
    + apply Qle_bool_iff in E.
      rewrite <- inject_Z_opp, <- inject_Z_plus in *.
      apply (proj2 (inject_Z_nonneg _)) in E. rewrite Z.max_r by lia.
      reflexivity.
    + assert (E' : ~ 0 <= inject_Z n + - inject_Z m).
      { intros H. apply Qle_bool_iff in H. congruence. }
      rewrite <- inject_Z_opp, <- inject_Z_plus in E'.
      rewrite <- inject_Z_nonneg in E'. rewrite Z.max_l by lia. reflexivity.
  - rewrite (Hsub s p Hp). reflexivity.
  - intros Hle. unfold Product.isInStock, Product.updateStock. simpl.
    apply lt_false_iff. rewrite Hstock. unfold q.
    unfold Product.Math_max.
    destruct (Qle_bool 0 (inject_Z n + - inject_Z m)) eqn:E;
      [|apply Qle_refl].
    rewrite <- inject_Z_opp, <- inject_Z_plus.
    apply (proj1 (inject_Z_nonpos _)). lia.
  - rewrite Hset.
    eapply productById_written; [exact Hp|reflexivity|reflexivity].
  - rewrite Hset. reflexivity.
  - rewrite !putStock_cases. reflexivity.
  - rewrite (Hsub _ _ Hadded).
    match goal with
    | |- exists _, productById id (snd (_, set_cache _ (update_product ?p' ?t)))
                   = _ /\ _ =>
        assert (H : productById id (set_cache [] (update_product p' t)) = Some p')
          by (eapply productById_written; [exact Hadded|reflexivity|reflexivity]);
        exists p'
    end.
    split; [exact H|]. simpl.
    rewrite Math_max_of_nonneg; [|rewrite Hstock; lra].
    ring.
Qed.

(** Witness of X29: 7 units are subtracted from a shelf of 5. *)
Lemma putStock_applies_the_operation_witness :
  productById "p-1" (snd (putStock calm "p-1" (change 7 "subtract") (shelf 5)))
  = Some (Product.updateStock (laptop 5 true) (- 7))
  /\ Product.isInStock (Product.updateStock (laptop 5 true) (- 7)) = false.
Proof.
  destruct (@putStock_applies_the_operation calm "p-1" (shelf 5) (laptop 5 true)
              5%Z 7%Z eq_refl eq_refl ltac:(lia) ltac:(lia) ltac:(lia)
              eq_refl eq_refl)
    as (_ & (H1 & _ & _ & H3) & _).
  split; [exact H1|apply H3; lia].
Defined.

(** Reading a product that the cache does not hold asks the store for the
    product with its category, which fails: the answer is 500 and nothing
    is written. *)
Lemma getProduct_uncached (w : World) (id : string) (s : State) :
  find (fun e => String.eqb (fst e) ("product:" ++ id)) (cache s) = None ->
  getProduct w id s = (Resp 500 (Json Failure), s).
Proof.
  intros H. rewrite getProduct_cases, H. destruct (redis_ok w); reflexivity.
Qed.

(** X30.  Deleting a product is switching it off: when the writes succeed,
    the answer is 200, the row is kept with isActive false and its stock as
    it was, and the cached copy is dropped.  The next read of the product
    then goes to the store, whose query for the product with its category
    is rejected (the models declare no association between the two): it is
    answered 500, not 404, and writes nothing.  The stock route still
    changes the stock of the deleted product. *)
Theorem deleted_product_is_switched_off
        (w : World) (id : string) (s : State) (p : Product.t) :
  productById id s = Some p ->
  update_error w = None ->
  redis_ok w = true ->
  fst (deleteProduct w id s)
  = Resp 200 (Json (Message "Product deleted successfully"))
  /\ productById id (snd (deleteProduct w id s))
     = Some (Product.set_isActive p false)
  /\ (forall w',
         getProduct w' id (snd (deleteProduct w id s))
         = (Resp 500 (Json Failure), snd (deleteProduct w id s)))
  /\ (forall w' q,
         0 <= q -> update_error w' = None -> redis_ok w' = true ->
         fst (putStock w' id (change q "set") (snd (deleteProduct w id s)))
         = Resp 200 (Json (WithProduct "Stock updated successfully"
                             (Product.set_stock (Product.set_isActive p false) q)))).
Proof.
  intros Hp Hupd Hredis.
  assert (Hdel : deleteProduct w id s
                 = (Resp 200 (Json (Message "Product deleted successfully")),
                    set_cache
                      (filter (fun e => negb (String.eqb (fst e) "products:*"))
                         (filter
                            (fun e => negb (String.eqb (fst e) ("product:" ++ id)))
                            (cache s)))
                      (update_product (Product.set_isActive p false) s))).
  { rewrite deleteProduct_cases, Hp. cbv zeta.
    rewrite Hupd, Hredis. reflexivity. }
  assert (Hkept : productById id (snd (deleteProduct w id s))
                  = Some (Product.set_isActive p false)).
  { rewrite Hdel.
    eapply productById_written; [exact Hp|reflexivity|reflexivity]. }
  splits.
  - rewrite Hdel. reflexivity.
  - exact Hkept.
  - intros w'. apply getProduct_uncached.
    rewrite Hdel. simpl.
    apply (@find_none_all _ (fun e => String.eqb (fst e) ("product:" ++ id))).
    intros e He. apply filter_In in He. destruct He as [He _].
    apply filter_In in He. destruct He as [_ He].
    apply negb_true_iff in He. exact He.
  - intros w' q Hq Hupd' Hredis'.
    erewrite putStock_written with (q := q) (n := q);
      [reflexivity|exact Hkept|reflexivity|exact Hq|exact Hupd'
      |exact Hredis'|reflexivity].
Qed.

(** Witness of X30: the laptop is deleted and then read. *)
Lemma deleted_product_is_switched_off_witness :
  fst (getProduct calm "p-1" (snd (deleteProduct calm "p-1" (shelf 5))))
  = Resp 500 (Json Failure).
Proof.
  destruct (@deleted_product_is_switched_off calm "p-1" (shelf 5)
              (laptop 5 true) eq_refl eq_refl eq_refl)
    as (_ & _ & H3 & _).
  rewrite (H3 calm). reflexivity.
Defined.


End ProductProperties.
